(** * IoT Protocol engine (iot-protocol-ts): frame codec, reassembly,
      in-flight table, keep-alive and buffer-size negotiation.

    Shallow embedding of [IoTProtocol] (src/iot_protocol.ts, the revision
    with the ALIVE_* and BUFFER_SIZE_* methods).  Buffers are lists of byte
    values, JavaScript numbers that the engine manipulates are integers
    (with the 32-bit wrap-around of the bit operators written out) or NaN,
    the two per-connection tables are finite maps, and the socket, the
    timers and the user callbacks appear as an ordered trace of effects. *)

From Stdlib Require Import ZArith List Lia Bool.
From stdpp Require Import base option list gmap.

Local Open Scope Z_scope.

(** ** JavaScript numbers as the engine uses them *)

Module JS.

(** ToInt32: the operand conversion of [<<], [>>] and [&]. *)
Definition ToInt32 (z : Z) : Z := (z + 2 ^ 31) mod 2 ^ 32 - 2 ^ 31.

(** [a << k] *)
Definition shl (a k : Z) : Z := ToInt32 (Z.shiftl (ToInt32 a) (k mod 32)).

(** [a >> k] (sign-propagating) *)
Definition shr (a k : Z) : Z := Z.shiftr (ToInt32 a) (k mod 32).

(** [a & b] *)
Definition band (a b : Z) : Z := Z.land (ToInt32 a) (ToInt32 b).

(** [undefined << k] is [0]: an out-of-range buffer read used as a shift
    operand. *)
Definition shl_u (a : option Z) (k : Z) : Z :=
  match a with Some x => shl x k | None => 0 end.

Definition shr_u (a : option Z) (k : Z) : Z :=
  match a with Some x => shr x k | None => 0 end.

Definition band_u (a : option Z) (b : Z) : Z :=
  match a with Some x => band x b | None => 0 end.

(** A number that may be NaN ([bufferSize] after a short body). *)
Inductive number := Num (z : Z) | NaN.

(** [a + b] where [b] may be [undefined]. *)
Definition add_u (a : Z) (b : option Z) : number :=
  match b with Some x => Num (a + x) | None => NaN end.

Definition sub (a : number) (b : Z) : number :=
  match a with Num x => Num (x - b) | NaN => NaN end.

(** [a > b]: false as soon as an operand is NaN. *)
Definition gt (a : Z) (b : number) : bool :=
  match b with Num y => y <? a | NaN => false end.

(** [!n] for a number. *)
Definition falsy (n : number) : bool :=
  match n with Num z => z =? 0 | NaN => true end.

(** Errors that the engine can raise. *)
Inductive error :=
| RangeError_OUT_OF_RANGE        (* Buffer read/write outside its range *)
| RangeError_call_stack          (* unbounded recursion *)
| TypeError
| Error_TooManyHeaders           (* "[IoTProtocol] Too many headers. Maximum Headers is 255." *)
| Error_PathAndHeadersTooBig.    (* "[IoTProtocol] Path and Headers too big." *)

(** Result of a call that may throw. *)
Inductive outcome (A : Type) :=
| Returned (a : A)
| Thrown (e : error).
Arguments Returned {A} a.
Arguments Thrown {A} e.

Definition bind {A B} (f : A -> outcome B) (m : outcome A) : outcome B :=
  match m with Returned a => f a | Thrown e => Thrown e end.

End JS.

#[global] Instance outcome_ret : MRet JS.outcome := @JS.Returned.
#[global] Instance outcome_bind : MBind JS.outcome := @JS.bind.

(** ** Node.js [Buffer] *)

Definition Buffer := list Z.

(** A JavaScript string is kept as the bytes that [Buffer.from(s)] gives,
    its UTF-8 encoding with U+FFFD in the place of a lone surrogate.  Two
    strings that differ only in lone surrogates are the same here; an
    object that has both as keys is a list with that key twice.  In the
    other direction [buf.toString()] is [Buf.toString], the decoder that
    puts U+FFFD where the bytes are not UTF-8. *)
Definition jsstring := list Z.

Module Buf.

(** [buffer[i]] : [undefined] outside the buffer. *)
Definition get (b : Buffer) (i : Z) : option Z :=
  if i <? 0 then None else b !! Z.to_nat i.

Definition len (b : Buffer) : Z := Z.of_nat (length b).

(** Position of the first [v] in [l]. *)
Fixpoint find (v : Z) (l : list Z) : option nat :=
  match l with
  | [] => None
  | x :: l' => if x =? v then Some O else S <$> find v l'
  end.

(** [buffer.indexOf(v, byteOffset)]; a negative offset counts from the end. *)
Definition indexOf (b : Buffer) (v : Z) (byteOffset : Z) : Z :=
  let start := if byteOffset <? 0 then Z.max 0 (len b + byteOffset) else byteOffset in
  match find v (drop (Z.to_nat start) b) with
  | Some k => start + Z.of_nat k
  | None => -1
  end.

(** Clamping of one [subarray] bound. *)
Definition clamp (b : Buffer) (i : Z) : Z :=
  if i <? 0 then Z.max (len b + i) 0 else Z.min i (len b).

(** [buffer.subarray(start, end)] *)
Definition subarray (b : Buffer) (start end_ : Z) : Buffer :=
  let s := clamp b start in
  let e := clamp b end_ in
  take (Z.to_nat (Z.max (e - s) 0)) (drop (Z.to_nat s) b).

(** [buffer.subarray(start)] *)
Definition subarray_from (b : Buffer) (start : Z) : Buffer :=
  subarray b start (len b).

(** [buffer.readUInt8(offset)] *)
Definition readUInt8 (b : Buffer) (offset : Z) : JS.outcome Z :=
  match get b offset with
  | Some x => JS.Returned x
  | None => JS.Thrown JS.RangeError_OUT_OF_RANGE
  end.

(** [buffer.readUInt16BE(offset)] *)
Definition readUInt16BE (b : Buffer) (offset : Z) : JS.outcome Z :=
  match get b offset, get b (offset + 1) with
  | Some hi, Some lo => JS.Returned (hi * 256 + lo)
  | _, _ => JS.Thrown JS.RangeError_OUT_OF_RANGE
  end.

(** Big-endian bytes of [v] on [n] bytes. *)
Fixpoint be (n : nat) (v : Z) : Buffer :=
  match n with
  | O => []
  | S n' => (v / 256 ^ Z.of_nat n') mod 256 :: be n' v
  end.

(** [writeUInt8], [writeUInt16BE], [writeUInt32BE] into a fresh buffer of
    that width: a value outside the range throws. *)
Definition writeUIntBE (n : nat) (v : Z) : JS.outcome Buffer :=
  if (0 <=? v) && (v <? 256 ^ Z.of_nat n) then JS.Returned (be n v)
  else JS.Thrown JS.RangeError_OUT_OF_RANGE.

(** *** [buf.toString()]

    The UTF-8 decoder, with its result written as a [jsstring]: a valid
    sequence comes back as it is, and every maximal part that is not the
    beginning of a valid sequence becomes U+FFFD, the bytes EF BF BD. *)

Definition replacement : Buffer := [239; 191; 189].

(** What a byte does when no sequence is open. *)
Inductive Utf8Lead :=
| U_single                                   (* 00..7F: a character of its own *)
| U_start (needed : nat) (lower upper : Z)   (* opens a sequence; range of the next byte *)
| U_invalid.                                 (* 80..C1, F5..FF *)

Definition utf8_lead (x : Z) : Utf8Lead :=
  if (0 <=? x) && (x <=? 127) then U_single
  else if (194 <=? x) && (x <=? 223) then U_start 1 128 191
  else if (224 <=? x) && (x <=? 239)
  then U_start 2 (if x =? 224 then 160 else 128) (if x =? 237 then 159 else 191)
  else if (240 <=? x) && (x <=? 244)
  then U_start 3 (if x =? 240 then 144 else 128) (if x =? 244 then 143 else 191)
  else U_invalid.

(** [pending]: the bytes of the open sequence; [needed]: how many more it
    takes; [lower], [upper]: the range of the next one.  A byte outside the
    range closes the sequence with U+FFFD and is read again with no
    sequence open; the end of the buffer closes an open sequence with
    U+FFFD. *)
Fixpoint utf8_decode (pending : list Z) (needed : nat) (lower upper : Z)
    (input : list Z) : list Z :=
  match input with
  | [] => match needed with O => [] | S _ => replacement end
  | x :: rest =>
    let unopened :=
      match utf8_lead x with
      | U_single => x :: utf8_decode [] 0 128 191 rest
      | U_start n lo hi => utf8_decode [x] n lo hi rest
      | U_invalid => replacement ++ utf8_decode [] 0 128 191 rest
      end in
    match needed with
    | O => unopened
    | S n =>
      if (lower <=? x) && (x <=? upper) then
        match n with
        | O => pending ++ x :: utf8_decode [] 0 128 191 rest
        | S _ => utf8_decode (pending ++ [x]) n 128 191 rest
        end
      else replacement ++ unopened
    end
  end.

Definition toString (b : Buffer) : jsstring := utf8_decode [] 0 128 191 b.

End Buf.

(** ** Plain JavaScript objects used as string-keyed dictionaries *)

Module Obj.

Definition t := list (jsstring * jsstring).

Definition is_digit (c : Z) : bool := (48 <=? c) && (c <=? 57).

Definition decimal (s : jsstring) : Z :=
  fold_left (fun acc c => acc * 10 + (c - 48)) s 0.

(** Array-index keys (canonical decimal strings below 2^32 - 1) are
    enumerated first, in ascending numeric order. *)
Definition array_index (k : jsstring) : option Z :=
  match k with
  | [] => None
  | c :: rest =>
    if forallb is_digit k
     && ((c =? 48) && match rest with [] => true | _ => false end || negb (c =? 48))
       && (decimal k <=? 2 ^ 32 - 2)
    then Some (decimal k) else None
  end.

Definition keys (o : t) : list jsstring := map fst o.

Definition has (o : t) (k : jsstring) : bool := bool_decide (k ∈ keys o).

Fixpoint update (o : t) (k v : jsstring) : t :=
  match o with
  | [] => []
  | (k', v') :: o' =>
    if bool_decide (k' = k) then (k', v) :: o' else (k', v') :: update o' k v
  end.

(** Insert a new array-index key at its numeric position. *)
Fixpoint insert_index (o : t) (n : Z) (k v : jsstring) : t :=
  match o with
  | [] => [(k, v)]
  | (k', v') :: o' =>
    match array_index k' with
    | Some n' => if n' <? n then (k', v') :: insert_index o' n k v
                 else (k, v) :: o
    | None => (k, v) :: o
    end
  end.

(** The key [__proto__]. *)
Definition proto : jsstring := [95; 95; 112; 114; 111; 116; 111; 95; 95].

(** [o[k] = v] on an object made by [{}] and such assignments, [v] a
    string, with [Object.keys] order kept in the list.  The key
    [__proto__] reaches the setter of [Object.prototype], which ignores a
    string: no property is created. *)
Definition set (o : t) (k v : jsstring) : t :=
  if bool_decide (k = proto) then o
  else if has o k then update o k v
  else match array_index k with
       | Some n => insert_index o n k v
       | None => o ++ [(k, v)]
       end.

(** Enumeration order of the keys of an object: array indices ascending,
then the other keys. *)
Definition before (a b : jsstring) : Prop :=
  match array_index a, array_index b with
  | Some x, Some y => x < y
  | Some _, None => True
  | None, None => True
  | None, Some _ => False
  end.

Fixpoint ordered (ks : list jsstring) : Prop :=
  match ks with
  | [] => True
  | k :: ks' => Forall (before k) ks' /\ ordered ks'
  end.

(** A list that is an object as [Object.keys] and the values give it:
no key twice, keys in enumeration order. *)
Definition wf (o : t) : Prop := NoDup (keys o) /\ ordered (keys o).

End Obj.

(** ** Constants *)

Definition IOT_VERSION : Z := 1.
Definition IOT_ETX : Z := 3.
Definition IOT_RS : Z := 30.
Definition IOT_MSCB_ID : Z := 2.
Definition IOT_MSCB_PATH : Z := 1.
Definition IOT_LSCB_HEADER : Z := 2.
Definition IOT_LSCB_BODY : Z := 1.
Definition IOT_PROTOCOL_DEFAULT_ALIVE_INTERVAL : Z := 60.
Definition IOT_PROTOCOL_DEFAULT_BUFFER_SIZE : Z := 1024.
Definition IOT_MULTIPART_TIMEOUT : Z := 5000.

(** [enum EIoTMethod]: the numeric values, since a received frame can carry
    any number in the method field. *)
Module EIoTMethod.
Definition SIGNAL : Z := 1.
Definition REQUEST : Z := 2.
Definition RESPONSE : Z := 3.
Definition STREAMING : Z := 4.
Definition ALIVE_REQUEST : Z := 5.
Definition ALIVE_RESPONSE : Z := 6.
Definition BUFFER_SIZE_REQUEST : Z := 7.
Definition BUFFER_SIZE_RESPONSE : Z := 8.
End EIoTMethod.

(** ** Data model *)

(** [interface IoTRequest]; the [iotClient] back-reference is the connection
    state that every operation receives next to the request.  Optional
    fields are [None] when [undefined]. *)
Record IoTRequest := mkRequest {
  version : option Z;
  method : option Z;
  id : option Z;
  path : option jsstring;
  headers : option Obj.t;
  body : option Buffer;
  bodyLength : option Z;
  totalBodyLength : option Z;
  parts : option Z
}.

(** Callbacks: the engine's own handlers, or a handler of the host
    application (opaque, named by a tag). *)
Inductive OnResponse := onBufferSizeResponse | hostOnResponse (tag : nat).
Inductive OnTimeout := onAliveRequestTimeout | hostOnTimeout (tag : nat).

(** [interface IoTRequestResponse] (the timer handle is part of the trace). *)
Record IoTRequestResponse := mkRequestResponse {
  onResponse : option OnResponse;
  onTimeout : option OnTimeout;
  timeout : option Z;
  rr_request : option IoTRequest
}.

(** [interface IoTMultiPart] *)
Record IoTMultiPart := mkMultiPart {
  mp_parts : Z;
  received : Z;
  mp_timeout : Z
}.

(** [interface IoTClient].  A key of [requestResponse] is the request id, or
    [None] for the property name ["undefined"] that a request without id
    is filed under. *)
Record IoTClient := mkClient {
  requestResponse : gmap (option Z) IoTRequestResponse;
  multiPartControl : gmap Z IoTMultiPart;
  remainBuffer : option Buffer;
  lockedForWrite : bool;
  aliveInterval : Z;
  bufferSize : JS.number
}.

Definition set_requestResponse (c : IoTClient) t : IoTClient :=
  mkClient t (multiPartControl c) (remainBuffer c) (lockedForWrite c)
           (aliveInterval c) (bufferSize c).
Definition set_multiPartControl (c : IoTClient) t : IoTClient :=
  mkClient (requestResponse c) t (remainBuffer c) (lockedForWrite c)
           (aliveInterval c) (bufferSize c).
Definition set_remainBuffer (c : IoTClient) r : IoTClient :=
  mkClient (requestResponse c) (multiPartControl c) r (lockedForWrite c)
           (aliveInterval c) (bufferSize c).
Definition set_lockedForWrite (c : IoTClient) l : IoTClient :=
  mkClient (requestResponse c) (multiPartControl c) (remainBuffer c) l
           (aliveInterval c) (bufferSize c).
Definition set_bufferSize (c : IoTClient) n : IoTClient :=
  mkClient (requestResponse c) (multiPartControl c) (remainBuffer c)
           (lockedForWrite c) (aliveInterval c) n.

(** The engine object: [constructor(public timeout = 1000, public delay = 300)]. *)
Record IoTProtocol := mkProtocol {
  proto_timeout : Z;
  proto_delay : Z
}.

(** What the function reads from the runtime: the successive values of
    [(new Date()).getTime()], and the bytes found in a buffer obtained from
    [Buffer.allocUnsafe]. *)
Record Runtime := mkRuntime {
  clock : list Z;
  allocUnsafe : nat -> Buffer
}.

(** What a call does to the outside, in order. *)
Inductive Effect :=
| E_write (buffer : Buffer)                     (* [client.write(buffer, ...)] *)
| E_awaitLock (prefix body : Buffer)            (* the send polls [lockedForWrite] *)
| E_rejected (e : JS.error)                     (* the promise of [send] is rejected *)
| E_scheduleNextAliveRequest                    (* keep-alive timer cancelled and set again *)
| E_multiPartTimeout (id : Z)                   (* [setTimeout] that drops the reassembly entry *)
| E_onResponse (cb : OnResponse) (response : IoTRequest)
| E_startRequestResponseTimeout (id : option Z)
| E_runMiddleware (request : IoTRequest).

(** ** Sending *)

(** [request.method === m] and the truth value of an optional object. *)
Definition is_method (request : IoTRequest) (m : Z) : bool :=
  match method request with Some x => x =? m | None => false end.

Definition defined {A} (o : option A) : bool :=
  match o with Some _ => true | None => false end.

(** [generateRequestId]: each call reads the clock once and calls itself
    again on a zero or taken id; the readings end when the call stack does. *)
Fixpoint generateRequestId (iotClient : IoTClient) (readings : list Z) : JS.outcome Z :=
  match readings with
  | [] => JS.Thrown JS.RangeError_call_stack
  | now :: later =>
    let id := Z.rem now 10000 in
    if defined (requestResponse iotClient !! Some id) || (id =? 0)
    then generateRequestId iotClient later
    else JS.Returned id
  end.

(** The length field written by the [switch] of [send]: [width] bytes,
    filled only when the request has a body. *)
Definition lengthBuffer (rt : Runtime) (width : nat) (body : option Buffer)
  : JS.outcome Buffer :=
  match body with
  | Some b => Buf.writeUIntBE width (Buf.len b)
  | None => JS.Returned (allocUnsafe rt width)
  end.

Definition truthy_string (s : option jsstring) : bool :=
  match s with Some (_ :: _) => true | _ => false end.

Definition flag (c : bool) (bit : Z) : Z := if c then bit else 0.

Definition encodeHeader (kv : jsstring * jsstring) : Buffer :=
  fst kv ++ [IOT_RS] ++ snd kv ++ [IOT_ETX].

(** The [switch (request.method)] of [send]: [MSCB] with the flags of the
    method, and the length buffer. *)
Definition send_switch (rt : Runtime) (request : IoTRequest) (MSCB : Z)
  : JS.outcome (Z * Buffer) :=
  let withPath := flag (truthy_string (path request)) IOT_MSCB_PATH in
  if is_method request EIoTMethod.SIGNAL then
    l ← lengthBuffer rt 1 (body request); mret (MSCB + withPath, l)
  else if is_method request EIoTMethod.REQUEST then
    l ← lengthBuffer rt 2 (body request); mret (MSCB + (IOT_MSCB_ID + withPath), l)
  else if is_method request EIoTMethod.RESPONSE then
    l ← lengthBuffer rt 2 (body request); mret (MSCB + IOT_MSCB_ID, l)
  else if is_method request EIoTMethod.STREAMING then
    l ← lengthBuffer rt 4 (body request); mret (MSCB + (IOT_MSCB_ID + withPath), l)
  else if is_method request EIoTMethod.ALIVE_REQUEST
       || is_method request EIoTMethod.ALIVE_RESPONSE then
    mret (MSCB, [])
  else if is_method request EIoTMethod.BUFFER_SIZE_REQUEST
       || is_method request EIoTMethod.BUFFER_SIZE_RESPONSE then
    l ← lengthBuffer rt 1 (body request); mret (MSCB, l)
  else mret (MSCB, allocUnsafe rt 2).

(** First half of [send]: from the version default to [prefixDataBuffer].
    Nothing of the connection is modified here; the result is the request
    as mutated (version, id), the prefix and the body. *)
Definition send_prefix (rt : Runtime) (iotClient : IoTClient) (request : IoTRequest)
  : JS.outcome (IoTRequest * Buffer * Buffer) :=
  let version' :=
    match version request with
    | Some v => if v =? 0 then IOT_VERSION else v
    | None => IOT_VERSION
    end in
  let MSCB := JS.shl version' 2 in
  let LSCB := JS.shl_u (method request) 2 in
  let nkeys := length (Obj.keys (default [] (headers request))) in
  let hasBody := defined (body request) in
  let LSCB := LSCB + (flag (0 <? Z.of_nat nkeys) IOT_LSCB_HEADER + flag hasBody IOT_LSCB_BODY) in
  '(MSCB, bodyLengthBuffer) ← send_switch rt request MSCB;
  let controlBytes := [MSCB mod 256; LSCB mod 256] in
  (* ID *)
  '(id', idBuffer) ←
    (if negb (JS.band MSCB IOT_MSCB_ID =? 0) then
       i ← (match id request with
            | Some i => if i =? 0 then generateRequestId iotClient (clock rt) else mret i
            | None => generateRequestId iotClient (clock rt)
            end);
       b ← Buf.writeUIntBE 2 i;
       mret (Some i, b)
     else mret (id request, []));
  (* PATH *)
  pathBuffer ←
    (if negb (JS.band MSCB IOT_MSCB_PATH =? 0) then
       match path request with
       | Some p => mret (p ++ [IOT_ETX])
       | None => JS.Thrown JS.TypeError
       end
     else mret []);
  (* HEADERs *)
  headerBuffer ←
    (if negb (JS.band LSCB IOT_LSCB_HEADER =? 0) then
       match headers request with
       | Some h =>
         if 255 <? Z.of_nat (length (Obj.keys h)) then JS.Thrown JS.Error_TooManyHeaders
         else mret ([Z.of_nat (length (Obj.keys h))] ++ concat (map encodeHeader h))
       | None => JS.Thrown JS.TypeError
       end
     else mret []);
  if JS.gt (Buf.len pathBuffer + Buf.len headerBuffer) (JS.sub (bufferSize iotClient) 8)
  then JS.Thrown JS.Error_PathAndHeadersTooBig
  else
    (* BODY *)
    '(bodyBuffer, bodyLengthBuffer) ←
      (if negb (JS.band LSCB IOT_LSCB_BODY =? 0) then
         match body request with
         | Some b => mret (b, bodyLengthBuffer)
         | None => JS.Thrown JS.TypeError
         end
       else mret ([], []));
    let prefixDataBuffer :=
      controlBytes ++ idBuffer ++ pathBuffer ++ headerBuffer ++ bodyLengthBuffer in
    mret (mkRequest (Some version') (method request) id' (path request)
                    (headers request) (body request) (bodyLength request)
                    (totalBodyLength request) (parts request),
          prefixDataBuffer, bodyBuffer).

(** *** The [switch] of [send] read as a table

    For the eight methods of the enum, which fields [send] puts on the wire
    and how wide the length field is; [send_prefix_table] is [send_prefix]
    with the flag tests replaced by these (lemma [send_prefix_by_table]). *)

Definition carries_id (request : IoTRequest) : bool :=
  is_method request EIoTMethod.REQUEST || is_method request EIoTMethod.RESPONSE
  || is_method request EIoTMethod.STREAMING.

Definition carries_path (request : IoTRequest) : bool :=
  (is_method request EIoTMethod.SIGNAL || is_method request EIoTMethod.REQUEST
   || is_method request EIoTMethod.STREAMING) && truthy_string (path request).

Definition length_width (request : IoTRequest) : nat :=
  if is_method request EIoTMethod.SIGNAL || is_method request EIoTMethod.BUFFER_SIZE_REQUEST
     || is_method request EIoTMethod.BUFFER_SIZE_RESPONSE then 1%nat
  else if is_method request EIoTMethod.REQUEST || is_method request EIoTMethod.RESPONSE
  then 2%nat
  else if is_method request EIoTMethod.STREAMING then 4%nat
  else 0%nat.

Definition is_alive (request : IoTRequest) : bool :=
  is_method request EIoTMethod.ALIVE_REQUEST || is_method request EIoTMethod.ALIVE_RESPONSE.

Definition has_headers (request : IoTRequest) : bool :=
  0 <? Z.of_nat (length (Obj.keys (default [] (headers request)))).

Definition version_of (request : IoTRequest) : Z :=
  match version request with
  | Some v => if v =? 0 then IOT_VERSION else v
  | None => IOT_VERSION
  end.

Definition MSCB_of (request : IoTRequest) : Z :=
  JS.shl (version_of request) 2
  + (flag (carries_id request) IOT_MSCB_ID + flag (carries_path request) IOT_MSCB_PATH).

Definition LSCB_of (request : IoTRequest) : Z :=
  JS.shl_u (method request) 2
  + (flag (has_headers request) IOT_LSCB_HEADER + flag (defined (body request)) IOT_LSCB_BODY).

(** The id that goes on the wire when the method carries one. *)
Definition chosen_id (rt : Runtime) (iotClient : IoTClient) (request : IoTRequest)
  : JS.outcome Z :=
  match id request with
  | Some i => if i =? 0 then generateRequestId iotClient (clock rt) else mret i
  | None => generateRequestId iotClient (clock rt)
  end.

Definition pathBuffer_of (request : IoTRequest) : Buffer :=
  if carries_path request then default [] (path request) ++ [IOT_ETX] else [].

Definition headerBuffer_of (request : IoTRequest) : Buffer :=
  if has_headers request
  then [Z.of_nat (length (Obj.keys (default [] (headers request))))]
       ++ concat (map encodeHeader (default [] (headers request)))
  else [].

Definition send_prefix_table (rt : Runtime) (iotClient : IoTClient) (request : IoTRequest)
  : JS.outcome (IoTRequest * Buffer * Buffer) :=
  bodyLengthBuffer ←
    (if is_alive request then mret []
     else lengthBuffer rt (length_width request) (body request));
  '(id', idBuffer) ←
    (if carries_id request then
       i ← chosen_id rt iotClient request;
       b ← Buf.writeUIntBE 2 i;
       mret (Some i, b)
     else mret (id request, []));
  if has_headers request && (255 <? Z.of_nat (length (Obj.keys (default [] (headers request)))))
  then JS.Thrown JS.Error_TooManyHeaders
  else if JS.gt (Buf.len (pathBuffer_of request) + Buf.len (headerBuffer_of request))
                (JS.sub (bufferSize iotClient) 8)
  then JS.Thrown JS.Error_PathAndHeadersTooBig
  else
    mret (mkRequest (Some (version_of request)) (method request) id' (path request)
                    (headers request) (body request) (bodyLength request)
                    (totalBodyLength request) (parts request),
          [MSCB_of request mod 256; LSCB_of request mod 256] ++ idBuffer
            ++ pathBuffer_of request ++ headerBuffer_of request
            ++ (if defined (body request) then bodyLengthBuffer else []),
          default [] (body request)).

(** The checks of [send] that come before the two of the headers and of
    the size: the body length must fit the length field ([writeUInt8],
    [writeUInt16BE], [writeUInt32BE] throw otherwise), and the id, when the
    method carries one, must be there or be allocated, and fit 16 bits. *)
Definition body_fits (request : IoTRequest) : bool :=
  is_alive request
  || match body request with
     | Some b => Buf.len b <? 256 ^ Z.of_nat (length_width request)
     | None => true
     end.

Definition id_fits (rt : Runtime) (iotClient : IoTClient) (request : IoTRequest) : bool :=
  negb (carries_id request)
  || match chosen_id rt iotClient request with
     | JS.Returned i => (0 <=? i) && (i <? 65536)
     | JS.Thrown _ => false
     end.

Definition header_count (request : IoTRequest) : Z :=
  Z.of_nat (length (Obj.keys (default [] (headers request)))).

(** Length of the encoded path plus the encoded headers. *)
Definition path_headers_length (request : IoTRequest) : Z :=
  Buf.len (pathBuffer_of request) + Buf.len (headerBuffer_of request).

Definition enum_method (request : IoTRequest) : Prop :=
  exists m, method request = Some m /\ 1 <= m <= 8.

(** The serialized logical frame: prefix followed by the whole body. *)
Definition encode (rt : Runtime) (iotClient : IoTClient) (request : IoTRequest)
  : JS.outcome Buffer :=
  '(_, prefix, bodyBuffer) ← send_prefix rt iotClient request;
  mret (prefix ++ bodyBuffer).

(** Registration of the response descriptor, [if (requestResponse) {...}]. *)
Definition register (proto : IoTProtocol) (iotClient : IoTClient)
    (request : IoTRequest) (rr : option IoTRequestResponse) : IoTClient :=
  match rr with
  | Some d =>
    let t := match timeout d with
             | Some t => if t =? 0 then proto_timeout proto else t
             | None => proto_timeout proto
             end in
    set_requestResponse iotClient
      (<[ id request := mkRequestResponse (onResponse d) (onTimeout d) (Some t) (Some request) ]>
         (requestResponse iotClient))
  | None => iotClient
  end.

(** One run of the body of [writeBodyPart]: the buffer handed to
    [client.write] and the new value of [i]. *)
Definition writeBodyPart_step (bufferSize : JS.number) (prefixDataBuffer bodyBuffer : Buffer)
    (i : Z) : Buffer * Z :=
  let bodyBufferRemain := Buf.len bodyBuffer - i in
  let bodyUntilIndex :=
    if JS.gt (bodyBufferRemain + Buf.len prefixDataBuffer) bufferSize
    then match bufferSize with
         | JS.Num size => i + (size - Buf.len prefixDataBuffer)
         | JS.NaN => i + bodyBufferRemain
         end
    else i + bodyBufferRemain in
  (prefixDataBuffer ++ Buf.subarray bodyBuffer i bodyUntilIndex, bodyUntilIndex).

(** [writeBodyPart(i, parts)] with every write callback run in turn and the
    buffer size left alone meanwhile: the trace of the writer and the final
    number of parts; [None] when [fuel] writes did not finish the body. *)
Fixpoint writeBodyPart (fuel : nat) (bufferSize : JS.number)
    (prefixDataBuffer bodyBuffer : Buffer) (i parts : Z) : option (list Effect * Z) :=
  match fuel with
  | O => None
  | S fuel' =>
    let '(buffer, i) := writeBodyPart_step bufferSize prefixDataBuffer bodyBuffer i in
    let alive := if 1 <? parts then [E_scheduleNextAliveRequest] else [] in
    let parts := parts + 1 in
    if Buf.len bodyBuffer <=? i then Some (alive ++ [E_write buffer], parts)
    else
      '(tr, n) ← writeBodyPart fuel' bufferSize prefixDataBuffer bodyBuffer i parts;
      Some (alive ++ E_write buffer :: tr, n)
  end.

(** The buffers written, out of a trace. *)
Definition writes (tr : list Effect) : list Buffer :=
  omap (fun e => match e with E_write b => Some b | _ => None end) tr.

Definition set_parts (request : IoTRequest) (n : option Z) : IoTRequest :=
  mkRequest (version request) (method request) (id request) (path request)
            (headers request) (body request) (bodyLength request)
            (totalBodyLength request) n.

(** [send(request, requestResponse)] once it holds the write lock, run to
    its resolution: the prefix is built (or the call throws, before anything
    is written or stored), the descriptor is registered, the parts are
    written, the lock is released and the response timer is started.
    [None]: the writer did not finish in [fuel] writes. *)
Definition send (proto : IoTProtocol) (rt : Runtime) (fuel : nat)
    (iotClient : IoTClient) (request : IoTRequest) (rr : option IoTRequestResponse)
  : option (IoTClient * JS.outcome IoTRequest * list Effect) :=
  match send_prefix rt iotClient request with
  | JS.Thrown e => Some (iotClient, JS.Thrown e, [])
  | JS.Returned (request, prefix, bodyBuffer) =>
    let iotClient := register proto iotClient request rr in
    '(tr, n) ← writeBodyPart fuel (bufferSize iotClient) prefix bodyBuffer 0 0;
    let timer :=
      if defined (requestResponse iotClient !! id request)
      then [E_startRequestResponseTimeout (id request)] else [] in
    Some (set_lockedForWrite iotClient false, JS.Returned (set_parts request (Some n)),
          tr ++ timer)
  end.

(** What a call of [send] does before it first suspends (the caller goes on
    without awaiting it): a throw rejects the returned promise; otherwise
    the descriptor is registered and, if the lock is free, the lock is taken
    and the first part is written. *)
Definition send_call (proto : IoTProtocol) (rt : Runtime)
    (iotClient : IoTClient) (request : IoTRequest) (rr : option IoTRequestResponse)
  : IoTClient * list Effect :=
  match send_prefix rt iotClient request with
  | JS.Thrown e => (iotClient, [E_rejected e])
  | JS.Returned (request, prefix, bodyBuffer) =>
    let iotClient := register proto iotClient request rr in
    if lockedForWrite iotClient then (iotClient, [E_awaitLock prefix bodyBuffer])
    else
      (set_lockedForWrite iotClient true,
       [E_write (fst (writeBodyPart_step (bufferSize iotClient) prefix bodyBuffer 0))])
  end.

(** *** Public operations: the request that each one hands to [send] *)

Definition set_method (request : IoTRequest) (m : Z) : IoTRequest :=
  mkRequest (version request) (Some m) (id request) (path request)
            (headers request) (body request) (bodyLength request)
            (totalBodyLength request) (parts request).

Definition signal (request : IoTRequest) := set_method request EIoTMethod.SIGNAL.
Definition request_ (request : IoTRequest) := set_method request EIoTMethod.REQUEST.
Definition response (request : IoTRequest) := set_method request EIoTMethod.RESPONSE.
Definition streaming (request : IoTRequest) := set_method request EIoTMethod.STREAMING.

Definition aliveRequest (request : IoTRequest) : IoTRequest :=
  mkRequest (version request) (Some EIoTMethod.ALIVE_REQUEST) (Some 0) None None None
            (Some 0) (totalBodyLength request) (Some 0).

Definition aliveResponse (request : IoTRequest) : IoTRequest :=
  mkRequest (version request) (Some EIoTMethod.ALIVE_RESPONSE) (Some 0) None None None
            (Some 0) (totalBodyLength request) (Some 0).

(** The request literal [{ iotClient }]. *)
Definition empty_request : IoTRequest :=
  mkRequest None None None None None None None None None.

(** [bufferSizeRequest(iotClient, size)]: [writeUint32BE] throws before
    [send] is reached when [size] is not an unsigned 32-bit value. *)
Definition bufferSizeRequest (size : Z) : JS.outcome (IoTRequest * IoTRequestResponse) :=
  body ← Buf.writeUIntBE 4 size;
  mret (mkRequest None (Some EIoTMethod.BUFFER_SIZE_REQUEST) None None None (Some body)
                  None None None,
        mkRequestResponse (Some onBufferSizeResponse) None None None).

Definition bufferSizeResponse (request : IoTRequest) : IoTRequest :=
  mkRequest None (Some EIoTMethod.BUFFER_SIZE_RESPONSE) (id request) None None
            (body request) None None None.

(** The alive timer sends this request with this descriptor. *)
Definition aliveRequestResponse (proto : IoTProtocol) : IoTRequestResponse :=
  mkRequestResponse None (Some onAliveRequestTimeout) (Some (proto_timeout proto)) None.

(** [(body[0] << 24) + (body[1] << 16) + (body[2] << 8) + body[3]] *)
Definition bufferSizeOfBody (body : Buffer) : JS.number :=
  JS.add_u (JS.shl_u (Buf.get body 0) 24 + JS.shl_u (Buf.get body 1) 16
            + JS.shl_u (Buf.get body 2) 8) (Buf.get body 3).

(** ** Receiving: [onData] *)

(** The request that [onData] starts from. *)
Definition initial_request : IoTRequest :=
  mkRequest (Some 1) (Some EIoTMethod.SIGNAL) (Some 0) None None (Some [])
            (Some 0) (Some 0) (Some 0).

(** [/* ID */]: the id read (0 when none is) and the new offset. *)
Definition parse_id (buffer : Buffer) (MSCB offset : Z) : JS.outcome (Z * Z) :=
  if negb (JS.band MSCB IOT_MSCB_ID =? 0) && (offset + 2 <=? Buf.len buffer) then
    i ← Buf.readUInt16BE buffer (offset + 1);
    mret (i, offset + 2)
  else mret (0, offset).

(** [/* PATH */] *)
Definition parse_path (buffer : Buffer) (MSCB offset : Z) : option jsstring * Z :=
  if negb (JS.band MSCB IOT_MSCB_PATH =? 0) then
    let offset := offset + 1 in
    let indexEXT := Buf.indexOf buffer IOT_ETX offset in
    if -1 <? indexEXT
    then (Some (Buf.toString (Buf.subarray buffer offset indexEXT)), indexEXT)
    else (None, offset)
  else (None, offset).

(** The [while] loop over the headers.  Every turn moves [offset] forward by
    two bytes at least, so that [length buffer] turns are never used up
    (lemma [header_loop_fuel]). *)
Fixpoint header_loop (fuel : nat) (buffer : Buffer) (headerSize : Z)
    (headers : Obj.t) (offset : Z) : Obj.t * Z :=
  match fuel with
  | O => (headers, offset)
  | S fuel' =>
    let indexKeyValue := Buf.indexOf buffer IOT_RS offset in
    let indexEXT := Buf.indexOf buffer IOT_ETX (offset + 1) in
    if negb (indexKeyValue =? 0) && negb (indexEXT =? -1) && (indexKeyValue <? indexEXT - 1)
    then
      let headers :=
        Obj.set headers (Buf.toString (Buf.subarray buffer offset indexKeyValue))
                (Buf.toString (Buf.subarray buffer (indexKeyValue + 1) indexEXT)) in
      let offset := indexEXT + 1 in
      if Z.of_nat (length (Obj.keys headers)) =? headerSize then (headers, offset)
      else header_loop fuel' buffer headerSize headers offset
    else (headers, offset)
  end.

(** [/* HEADER */] *)
Definition parse_headers (buffer : Buffer) (LSCB offset : Z)
  : JS.outcome (option Obj.t * Z) :=
  if negb (JS.band LSCB IOT_LSCB_HEADER =? 0) then
    let offset := offset + 1 in
    headerSize ← Buf.readUInt8 buffer offset;
    let offset := offset + 1 in
    let '(headers, offset) := header_loop (length buffer) buffer headerSize [] offset in
    mret (Some headers, offset - 1)
  else mret (None, offset).

(** Width of the length field, the [switch] of the body section. *)
Definition bodyLengthSize (method : Z) : nat :=
  if (method =? EIoTMethod.SIGNAL) || (method =? EIoTMethod.BUFFER_SIZE_REQUEST)
     || (method =? EIoTMethod.BUFFER_SIZE_RESPONSE) then 1%nat
  else if method =? EIoTMethod.STREAMING then 4%nat
  else 2%nat.

(** [for (let i = bodyLengthSize; i > 0; i--) bodyLength += buffer[++offset] << ((i - 1) * 8)] *)
Fixpoint readBodyLength (i : nat) (buffer : Buffer) (offset bodyLength : Z) : Z * Z :=
  match i with
  | O => (bodyLength, offset)
  | S i' =>
    let offset := offset + 1 in
    readBodyLength i' buffer offset
      (bodyLength + JS.shl_u (Buf.get buffer offset) (Z.of_nat i' * 8))
  end.

(** What the parsing part of [onData] yields. *)
Record Parsed := mkParsed {
  p_client : IoTClient;
  p_request : IoTRequest;
  p_completed : bool;
  p_effects : list Effect
}.

(** [/* BODY */]: reads the length, updates the reassembly entry of the id,
    keeps what follows the body in [remainBuffer]. *)
Definition parse_body (iotClient : IoTClient) (buffer : Buffer) (LSCB : Z)
    (method id offset : Z)
  : IoTClient * (Buffer * Z * Z) * bool * list Effect :=
  if negb (JS.band LSCB IOT_LSCB_BODY =? 0) then
    let '(total, offset) := readBodyLength (bodyLengthSize method) buffer offset 0 in
    let offset := offset + 1 in
    let bodyIncomeLength := Buf.len buffer - offset in
    let bodyEndIndex := offset + total in
    let entry := default (mkMultiPart 0 0 IOT_MULTIPART_TIMEOUT)
                         (multiPartControl iotClient !! id) in
    let bodyEndIndex := bodyEndIndex - received entry in
    let bodyEndIndex := if Buf.len buffer <? bodyEndIndex then Buf.len buffer else bodyEndIndex in
    let bodyLength := bodyEndIndex - offset in
    let entry := mkMultiPart (mp_parts entry + 1) (received entry + bodyLength)
                             IOT_MULTIPART_TIMEOUT in
    let requestCompleted := negb (received entry <? total) in
    let table :=
      if requestCompleted then delete id (multiPartControl iotClient)
      else <[ id := entry ]> (multiPartControl iotClient) in
    let iotClient := set_multiPartControl iotClient table in
    let iotClient :=
      if bodyLength <? bodyIncomeLength
      then set_remainBuffer iotClient (Some (Buf.subarray_from buffer bodyEndIndex))
      else iotClient in
    (iotClient, (Buf.subarray buffer offset bodyEndIndex, bodyLength, total),
     requestCompleted, [E_multiPartTimeout id])
  else (iotClient, ([], 0, 0), true, []).

(** Lines 205 to 321 of [onData]: id, path, headers and body of a frame
    whose control bytes are [MSCB] and [LSCB]. *)
Definition parse_frame (iotClient : IoTClient) (buffer : Buffer) (MSCB LSCB : Z)
  : JS.outcome Parsed :=
  let offset := 1 in
  let method := JS.shr LSCB 2 in
  '(id, offset) ← parse_id buffer MSCB offset;
  let '(path, offset) := parse_path buffer MSCB offset in
  '(headers, offset) ← parse_headers buffer LSCB offset;
  let '(iotClient, (body, bodyLength, total), completed, effects) :=
    parse_body iotClient buffer LSCB method id offset in
  mret (mkParsed iotClient
          (mkRequest (Some (JS.shr MSCB 2)) (Some method) (Some id) path headers
                     (Some body) (Some bodyLength) (Some total) (Some 0))
          completed effects).

(** [onBufferSizeResponse] as a state change. *)
Definition run_onResponse (cb : OnResponse) (iotClient : IoTClient) (response : IoTRequest)
  : IoTClient :=
  match cb with
  | onBufferSizeResponse =>
    if is_method response EIoTMethod.BUFFER_SIZE_RESPONSE
    then set_bufferSize iotClient (bufferSizeOfBody (default [] (body response)))
    else iotClient
  | hostOnResponse _ => iotClient
  end.

(** [/* Response Response */]: a pending descriptor under the id takes the
    frame; otherwise the middlewares run for the three request methods. *)
Definition dispatch (iotClient : IoTClient) (request : IoTRequest) (completed : bool)
  : IoTClient * list Effect :=
  match requestResponse iotClient !! id request with
  | Some d =>
    let '(iotClient, called) :=
      match onResponse d with
      | Some cb => (run_onResponse cb iotClient request, [E_onResponse cb request])
      | None => (iotClient, [])
      end in
    if completed
    then (set_requestResponse iotClient (delete (id request) (requestResponse iotClient)),
          called)
    else (iotClient, called ++ [E_startRequestResponseTimeout (id request)])
  | None =>
    if is_method request EIoTMethod.SIGNAL
       || is_method request EIoTMethod.REQUEST
       || is_method request EIoTMethod.STREAMING
    then (iotClient, [E_runMiddleware request])
    else (iotClient, [])
  end.

(** [onData(iotClient, buffer)].  A thrown error leaves the connection as it
    was: the two reads that can throw come before any assignment. *)
Definition onData (proto : IoTProtocol) (rt : Runtime) (iotClient : IoTClient)
    (buffer : Buffer) : JS.outcome (IoTClient * list Effect) :=
  match buffer with
  | MSCB :: LSCB :: _ =>
    if JS.shr LSCB 2 =? EIoTMethod.ALIVE_REQUEST then
      (* Alive Method *)
      let '(iotClient, sent) := send_call proto rt iotClient (aliveResponse empty_request) None in
      mret (iotClient, sent ++ [E_scheduleNextAliveRequest])
    else
      p ← parse_frame iotClient buffer MSCB LSCB;
      let '(iotClient, delivered) := dispatch (p_client p) (p_request p) (p_completed p) in
      let effects := p_effects p ++ delivered ++ [E_scheduleNextAliveRequest] in
      if is_method (p_request p) EIoTMethod.BUFFER_SIZE_REQUEST then
        let iotClient :=
          set_bufferSize iotClient (bufferSizeOfBody (default [] (body (p_request p)))) in
        let '(iotClient, sent) :=
          send_call proto rt iotClient (bufferSizeResponse (p_request p)) None in
        mret (iotClient, effects ++ sent)
      else mret (iotClient, effects)
  | _ => mret (iotClient, [])
  end.

(** The ["data"] handler installed by [readClient]. *)
Definition readClient (proto : IoTProtocol) (rt : Runtime) (iotClient : IoTClient)
    (buffer : Buffer) : IoTClient * JS.outcome (list Effect) :=
  let '(iotClient, buffer) :=
    match remainBuffer iotClient with
    | Some (b :: r) => (set_remainBuffer iotClient None, (b :: r) ++ buffer)
    | _ => (iotClient, buffer)
    end in
  match onData proto rt iotClient buffer with
  | JS.Returned (iotClient, effects) => (iotClient, JS.Returned effects)
  | JS.Thrown e => (iotClient, JS.Thrown e)
  end.

(** The connection as [listen] sets it up ([aliveInterval] and [bufferSize]
    are kept when the caller gave truthy ones). *)
Definition listen (aliveInterval : Z) (bufferSize : JS.number) : IoTClient :=
  mkClient ∅ ∅ None false
    (if aliveInterval =? 0 then IOT_PROTOCOL_DEFAULT_ALIVE_INTERVAL else aliveInterval)
    (if JS.falsy bufferSize then JS.Num IOT_PROTOCOL_DEFAULT_BUFFER_SIZE else bufferSize).

(** Data events in sequence, up to the first one whose handler throws (the
    error is not caught by the engine): the final connection, the trace and
    that error if any. *)
Fixpoint feed (proto : IoTProtocol) (rt : Runtime) (iotClient : IoTClient)
    (chunks : list Buffer) : IoTClient * list Effect * option JS.error :=
  match chunks with
  | [] => (iotClient, [], None)
  | chunk :: chunks' =>
    match readClient proto rt iotClient chunk with
    | (iotClient, JS.Returned tr) =>
      let '(iotClient, tr', e) := feed proto rt iotClient chunks' in
      (iotClient, tr ++ tr', e)
    | (iotClient, JS.Thrown e) => (iotClient, [], Some e)
    end
  end.

(** The requests handed upward by a trace: to the middleware chain or to
    the response callback of a pending request. *)
Definition delivered (tr : list Effect) : list IoTRequest :=
  omap (fun e => match e with
                 | E_runMiddleware r => Some r
                 | E_onResponse _ r => Some r
                 | _ => None
                 end) tr.

(** ** Requests that the delimiters can carry *)

(** A header that the header loop reads back: no RS and no ETX in the key,
    no ETX in the value, a value of one byte at least (the loop stops at a
    value of no byte), a key other than [__proto__] (the assignment makes
    no property of it), and key and value that [toString] gives back as
    they are (as the bytes of every string are). *)
Definition header_ok (kv : jsstring * jsstring) : Prop :=
  (IOT_RS ∉ kv.1) /\ (IOT_ETX ∉ kv.1) /\ (IOT_ETX ∉ kv.2) /\ kv.2 <> []
  /\ kv.1 <> Obj.proto /\ Buf.toString kv.1 = kv.1 /\ Buf.toString kv.2 = kv.2.

(** A request that survives the trip through the wire unchanged in its
    bytes: version from 1 to 63, one of the four primary methods, a body
    (possibly empty) shorter than 2^31 bytes, a path without ETX that
    [toString] gives back as it is, and headers that the loop reads back,
    no two keys with the same bytes, in the order of an object. *)
Definition roundtrip_ready (r : IoTRequest) : Prop :=
  1 <= version_of r <= 63
  /\ (exists m, method r = Some m /\ 1 <= m <= 4)
  /\ (exists b, body r = Some b /\ Buf.len b < 2 ^ 31)
  /\ (forall s, carries_path r = true -> path r = Some s ->
                (IOT_ETX ∉ s) /\ Buf.toString s = s)
  /\ (forall h, has_headers r = true -> headers r = Some h ->
                Forall header_ok h /\ Obj.wf h).

(** The id that a request sent by [send] has on the wire: its own when the
    method carries one, none (read as 0) otherwise. *)
Definition wire_id (r : IoTRequest) : Z :=
  if carries_id r then default 0 (id r) else 0.

(** ** Concrete connections, requests and frames used in the examples *)

(** A connection right after [listen] with the default settings. *)
Definition fresh_client : IoTClient := listen 0 (JS.Num 0).

Definition default_proto : IoTProtocol := mkProtocol 1000 300.

(** A runtime whose clock reads 1 700 000 000 123 ms and then two more
    milliseconds, and whose unsafe buffers are zero-filled. *)
Definition sample_runtime : Runtime :=
  mkRuntime [1700000000123; 1700000000124; 1700000000125] (fun n => repeat 0 n).

(** REQUEST id=276, path "/a", header foo=bar, body "hi". *)
Definition request_276 : IoTRequest :=
  request_ (mkRequest None None (Some 276) (Some [47; 97])
              (Some [([102; 111; 111], [98; 97; 114])]) (Some [104; 105])
              None None None).

Definition wire_276 : Buffer :=
  [7; 11; 1; 20; 47; 97; 3; 1; 102; 111; 111; 30; 98; 97; 114; 3; 0; 2; 104; 105].

(** BUFFER_SIZE_REQUEST (no id, body flag, length 4) asking for size 0. *)
Definition frame_bufferSize_0 : Buffer := [4; 29; 4; 0; 0; 0; 0].

(** STREAMING id=1 whose path takes 1015 bytes, 1016 with its ETX: exactly
    [bufferSize - 8] on the default buffer size; one body byte. *)
Definition boundary_request : IoTRequest :=
  streaming (mkRequest None None (Some 1) (Some (47 :: repeat 97 1014)) None (Some [0])
               None None None).


(** A SIGNAL with a body of 256 bytes, no path and no header. *)
Definition signal_256 : IoTRequest :=
  signal (mkRequest None None None None None (Some (repeat 0 256)) None None None).

(** Requests outside [roundtrip_ready], each by one condition: no body; a
    header value without byte; an ETX inside the path; two keys that agree
    up to an RS inside them. *)
Definition signal_no_body : IoTRequest :=
  signal (mkRequest (Some 1) None None None None None None None None).
Definition signal_empty_value : IoTRequest :=
  signal (mkRequest (Some 1) None None None (Some [([102], [])]) (Some [104])
            None None None).
Definition signal_etx_in_path : IoTRequest :=
  signal (mkRequest (Some 1) None None (Some [97; 3; 98]) None (Some [104])
            None None None).
Definition signal_rs_in_keys : IoTRequest :=
  signal (mkRequest (Some 1) None None None
            (Some [([97; 30; 98], [99]); ([97; 30; 100], [101])]) (Some [104])
            None None None).

(** Two more, outside by the headers alone: a header named [__proto__],
    and two keys with the same bytes (U+FFFD, which stands for any lone
    surrogate). *)
Definition signal_proto_header : IoTRequest :=
  signal (mkRequest (Some 1) None None None (Some [(Obj.proto, [120])]) (Some [104])
            None None None).
Definition signal_same_bytes_keys : IoTRequest :=
  signal (mkRequest (Some 1) None None None
            (Some [([239; 191; 189], [97]); ([239; 191; 189], [98])]) (Some [104])
            None None None).

(** Decoding a whole frame on a fresh connection and encoding the result. *)
Definition decode_fresh (buffer : Buffer) : JS.outcome IoTRequest :=
  match buffer with
  | MSCB :: LSCB :: _ => p ← parse_frame fresh_client buffer MSCB LSCB; mret (p_request p)
  | _ => JS.Thrown JS.RangeError_OUT_OF_RANGE
  end.

Definition encode_decode_encode_fresh (r : IoTRequest) : JS.outcome Buffer :=
  bytes ← encode sample_runtime fresh_client r;
  d ← decode_fresh bytes;
  encode sample_runtime fresh_client d.

(** STREAMING id=7 with a body of 1500 bytes, no path, no header. *)
Definition streaming_1500 : IoTRequest :=
  streaming (mkRequest None None (Some 7) None None (Some (repeat 66 1500)) None None None).

(** ** Middleware chain *)

(** A middleware as the engine meets it: what it is called with, and how
    many times it calls [next] before it returns. *)
Definition IoTMiddleware := IoTRequest -> nat.

(** [use(middleware)] *)
Definition use (middlewares : list IoTMiddleware) (middleware : IoTMiddleware)
  : list IoTMiddleware :=
  middlewares ++ [middleware].

(** The calls made from [middlewares[index]] on, [rest] being the array
    from that index: the indices of the middlewares called, in call order. *)
Fixpoint runMiddleware_from (rest : list IoTMiddleware) (request : IoTRequest)
    (index : nat) : list nat :=
  match rest with
  | [] => []
  | middleware :: rest' =>
    index :: concat (replicate (middleware request)
                               (runMiddleware_from rest' request (S index)))
  end.

(** [runMiddleware(request, index)] *)
Definition runMiddleware (middlewares : list IoTMiddleware) (request : IoTRequest)
    (index : nat) : list nat :=
  runMiddleware_from (drop index middlewares) request index.

(** ** Timers: what each armed callback does when it fires *)

(** The callback armed by [startRequestResponseTimeout(request)]: the
    connection afterwards and the [onTimeout] calls made. *)
Definition requestResponseTimeout (iotClient : IoTClient) (request : IoTRequest)
  : IoTClient * list (OnTimeout * IoTRequest) :=
  match requestResponse iotClient !! id request with
  | Some d =>
    (set_requestResponse iotClient (delete (id request) (requestResponse iotClient)),
     match onTimeout d with Some cb => [(cb, request)] | None => [] end)
  | None => (iotClient, [])
  end.

(** The callback armed by the [/* MultiPart Timeout */] of [onData]. *)
Definition multiPartTimeout (iotClient : IoTClient) (id : Z) : IoTClient :=
  set_multiPartControl iotClient (delete id (multiPartControl iotClient)).

(** The callback armed by [scheduleNextAliveRequest]. *)
Definition aliveTimer (proto : IoTProtocol) (rt : Runtime) (iotClient : IoTClient)
  : IoTClient * list Effect :=
  if aliveInterval iotClient =? 0 then (iotClient, [])
  else
    let '(iotClient, sent) :=
      send_call proto rt iotClient (aliveRequest empty_request)
                (Some (aliveRequestResponse proto)) in
    (iotClient, sent ++ [E_scheduleNextAliveRequest]).

(** The middleware request of a fragment: what [onData] hands upward for
    the frame of [r] whose body part is [slice], out of [total] bytes. *)
Definition fragment_request (r : IoTRequest) (wid : Z) (total : Z) (slice : Buffer)
  : IoTRequest :=
  mkRequest (Some (version_of r)) (method r) (Some wid)
            (if carries_path r then path r else None)
            (if has_headers r then headers r else None)
            (Some slice) (Some (Buf.len slice)) (Some total) (Some 0).

(** A connection with one request pending under id 123, the id that the
    first clock reading of [sample_runtime] gives. *)
Definition pending_123 : IoTClient :=
  set_requestResponse fresh_client
    {[ Some 123 := mkRequestResponse (Some (hostOnResponse 0)) (Some (hostOnTimeout 0))
                                     (Some 1000) None ]}.

(** REQUEST without id, path "/a", no header, body "hi". *)
Definition request_no_id : IoTRequest :=
  request_ (mkRequest None None None (Some [47; 97]) None (Some [104; 105]) None None None).

(** A descriptor of the host application. *)
Definition host_descriptor : IoTRequestResponse :=
  mkRequestResponse (Some (hostOnResponse 1)) (Some (hostOnTimeout 1)) None None.

(** A connection set up with a buffer size of 16 bytes, and a STREAMING
    request with id 7 and a body of 20 bytes, no path, no header. *)
Definition small_client : IoTClient := listen 0 (JS.Num 16).
Definition streaming_20 : IoTRequest :=
  streaming (mkRequest None None (Some 7) None None (Some (repeat 66 20)) None None None).

(** The two ways a request leaves [onData] upward, read off a trace: to the
    middlewares, nothing being pending under its id, or to the response
    callback of the descriptor pending under its id. *)
Definition middleware_case (c : IoTClient) (tr : list Effect) (r : IoTRequest) : Prop :=
  E_runMiddleware r ∈ tr /\ requestResponse c !! id r = None
  /\ (is_method r EIoTMethod.SIGNAL || is_method r EIoTMethod.REQUEST
      || is_method r EIoTMethod.STREAMING = true).

Definition response_case (c : IoTClient) (tr : list Effect) (r : IoTRequest) : Prop :=
  exists d cb, requestResponse c !! id r = Some d /\ onResponse d = Some cb
               /\ E_onResponse cb r ∈ tr.

(** RESPONSE with id 123 and the body "h". *)
Definition response_123 : Buffer := [6; 13; 0; 123; 0; 1; 104].

(** * Properties *)

(** ** Bit operations on control bytes *)

Lemma ToInt32_range z : - 2 ^ 31 <= JS.ToInt32 z < 2 ^ 31.
Proof. unfold JS.ToInt32. pose proof (Z.mod_pos_bound (z + 2 ^ 31) (2 ^ 32)). lia. Qed.

Lemma ToInt32_small z : - 2 ^ 31 <= z < 2 ^ 31 -> JS.ToInt32 z = z.
Proof. intros H. unfold JS.ToInt32. rewrite Z.mod_small; lia. Qed.

(** [v << 2] is a multiple of four that fits 32 bits. *)
Lemma shl2_multiple v : exists t, JS.shl v 2 = 4 * t /\ - 2 ^ 29 <= t < 2 ^ 29.
Proof.
  unfold JS.shl. change (2 mod 32) with 2. rewrite Z.shiftl_mul_pow2 by lia.
  change (2 ^ 2) with 4.
  set (x := JS.ToInt32 v * 4).
  pose proof (ToInt32_range x) as Hr.
  exists (JS.ToInt32 x / 4).
  assert (JS.ToInt32 x mod 4 = 0) as Hm.
  { unfold JS.ToInt32.
    assert ((x + 2 ^ 31) mod 2 ^ 32 mod 4 = 0) as H4.
    { rewrite Z.mod_mod_divide by (exists (2 ^ 30); reflexivity).
      unfold x. replace (JS.ToInt32 v * 4 + 2 ^ 31) with ((JS.ToInt32 v + 2 ^ 29) * 4) by lia.
      apply Z_mod_mult. }
    rewrite Zminus_mod, H4. reflexivity. }
  pose proof (Z_div_mod_eq_full (JS.ToInt32 x) 4). lia.
Qed.

Lemma land_low a m : 0 <= m < 4 -> Z.land a m = Z.land (a mod 4) m.
Proof.
  intros Hm. change 4 with (2 ^ 2). rewrite <- Z.land_ones by lia.
  rewrite <- Z.land_assoc. f_equal.
  assert (m = 0 \/ m = 1 \/ m = 2 \/ m = 3) as [->|[->|[->| ->]]] by lia; reflexivity.
Qed.

(** A flag added to a shifted field is read back by [&]. *)
Lemma band_shl2_flags v f m :
  0 <= f < 4 -> 0 <= m < 4 -> JS.band (JS.shl v 2 + f) m = Z.land f m.
Proof.
  intros Hf Hm. destruct (shl2_multiple v) as (t & -> & Ht).
  unfold JS.band. rewrite !ToInt32_small by lia.
  rewrite land_low by lia. rewrite Z.add_comm, Z.mul_comm, Z_mod_plus_full.
  rewrite <- land_low by lia. reflexivity.
Qed.

Lemma band_shl2_u_flags (v : option Z) f m :
  0 <= f < 4 -> 0 <= m < 4 -> JS.band (JS.shl_u v 2 + f) m = Z.land f m.
Proof.
  destruct v as [v|]; simpl; [apply band_shl2_flags|].
  intros Hf Hm. unfold JS.band. rewrite !ToInt32_small by lia. reflexivity.
Qed.

(** ** State fields that a call leaves alone *)


Lemma register_multiPartControl proto c r rr :
  multiPartControl (register proto c r rr) = multiPartControl c.
Proof. destruct rr; reflexivity. Qed.

Lemma register_remainBuffer proto c r rr :
  remainBuffer (register proto c r rr) = remainBuffer c.
Proof. destruct rr; reflexivity. Qed.

Lemma send_call_None_frame proto rt c r :
  let c' := fst (send_call proto rt c r None) in
  bufferSize c' = bufferSize c /\ multiPartControl c' = multiPartControl c
  /\ remainBuffer c' = remainBuffer c /\ requestResponse c' = requestResponse c.
Proof.
  unfold send_call. destruct (send_prefix rt c r) as [[[r' pre] bd]|e]; simpl; [|done].
  destruct (lockedForWrite c); done.
Qed.

Lemma send_call_None_no_delivery proto rt c r rr :
  delivered (snd (send_call proto rt c r rr)) = [].
Proof.
  unfold send_call. destruct (send_prefix rt c r) as [[[r' pre] bd]|e]; simpl; [|done].
  destruct (lockedForWrite _); done.
Qed.

(** ** The writer loop *)

(** When the prefix alone fills the buffer size, a write carries no body
    byte and [i] does not move. *)
Lemma writeBodyPart_step_stuck size prefix body i :
  Buf.len prefix = size -> 0 <= i < Buf.len body ->
  snd (writeBodyPart_step (JS.Num size) prefix body i) = i.
Proof.
  intros Hp Hi. unfold writeBodyPart_step, JS.gt. cbn [snd].
  destruct (Z.ltb_spec size (Buf.len body - i + Buf.len prefix)); lia.
Qed.

Lemma writeBodyPart_stuck size prefix body :
  Buf.len prefix = size ->
  forall fuel i parts, 0 <= i < Buf.len body ->
    writeBodyPart fuel (JS.Num size) prefix body i parts = None.
Proof.
  intros Hp. induction fuel as [|fuel IH]; intros i parts Hi; [reflexivity|].
  cbn [writeBodyPart].
  pose proof (writeBodyPart_step_stuck size prefix body i Hp Hi) as Hs.
  destruct (writeBodyPart_step (JS.Num size) prefix body i) as [buffer i'].
  cbn [snd] in Hs. subst i'.
  destruct (Z.leb_spec (Buf.len body) i) as [Hle|_]; [exfalso; lia|].
  rewrite IH by lia. reflexivity.
Qed.

(** C3 (code defect): with path plus headers at exactly [bufferSize - 8], a
    STREAMING request with an id has a prefix as long as the buffer size;
    the send passes the size check and then the writer never finishes, for
    any number of writes allowed: each write is the bare prefix. *)
Theorem send_boundary_never_finishes :
  forall proto rt fuel,
    (exists r prefix body,
        send_prefix rt fresh_client boundary_request = JS.Returned (r, prefix, body)
        /\ Buf.len prefix = 1024 /\ body = [0]
        /\ writeBodyPart_step (bufferSize fresh_client) prefix body 0 = (prefix, 0))
    /\ send proto rt fuel fresh_client boundary_request None = None.
Proof.
  intros proto rt fuel.
  assert (exists prefix, send_prefix rt fresh_client boundary_request
            = JS.Returned (set_method (mkRequest (Some 1) None (Some 1)
                                         (Some (47 :: repeat 97 1014)) None (Some [0])
                                         None None None) EIoTMethod.STREAMING,
                           prefix, [0])
          /\ Buf.len prefix = 1024
          /\ writeBodyPart_step (JS.Num 1024) prefix [0] 0 = (prefix, 0))
    as (prefix & Hpre & Hlen & Hstep).
  { eexists. split; [vm_compute; reflexivity|]. split; vm_compute; reflexivity. }
  split.
  - eexists _, prefix, [0]. split; [exact Hpre|]. split; [exact Hlen|]. split; [reflexivity|].
    exact Hstep.
  - unfold send. rewrite Hpre. simpl.
    rewrite (writeBodyPart_stuck 1024 prefix [0] Hlen) by (compute; split; congruence || reflexivity).
    reflexivity.
Qed.

(** ** Encoding a given request *)

(** C5: the REQUEST with id 276, path "/a", header foo=bar and body "hi" is
    serialized as the twenty bytes 07 0B 01 14 '/' 'a' 03 01 'f' 'o' 'o' 1E
    'b' 'a' 'r' 03 00 02 'h' 'i', and [send] hands them to the socket in one
    write. *)
Theorem encode_request_276 :
  forall proto rt,
    encode rt fresh_client request_276 = JS.Returned wire_276
    /\ exists c r, send proto rt 1 fresh_client request_276 None
                   = Some (c, JS.Returned r, [E_write wire_276])
                 /\ parts r = Some 1.
Proof.
  intros proto rt. split; [vm_compute; reflexivity|].
  eexists _, _. split; [vm_compute; reflexivity|reflexivity].
Qed.

(** ** Inversion of the parser *)

Lemma bind_Returned {A B} (m : JS.outcome A) (f : A -> JS.outcome B) b :
  (m ≫= f) = JS.Returned b -> exists a, m = JS.Returned a /\ f a = JS.Returned b.
Proof. destruct m as [a|e]; [eauto|discriminate]. Qed.

Lemma parse_frame_inv c buffer MSCB LSCB p :
  parse_frame c buffer MSCB LSCB = JS.Returned p ->
  exists i off1 pth off2 hs off3,
    parse_id buffer MSCB 1 = JS.Returned (i, off1)
    /\ parse_path buffer MSCB off1 = (pth, off2)
    /\ parse_headers buffer LSCB off2 = JS.Returned (hs, off3)
    /\ p = (let '(c', (bd, len, total), completed, effects) :=
              parse_body c buffer LSCB (JS.shr LSCB 2) i off3 in
            mkParsed c'
              (mkRequest (Some (JS.shr MSCB 2)) (Some (JS.shr LSCB 2)) (Some i) pth hs
                         (Some bd) (Some len) (Some total) (Some 0))
              completed effects).
Proof.
  unfold parse_frame. intros H.
  apply bind_Returned in H as ([i off1] & Hid & H).
  destruct (parse_path buffer MSCB off1) as [pth off2] eqn:Hpath.
  apply bind_Returned in H as ([hs off3] & Hh & H).
  exists i, off1, pth, off2, hs, off3. repeat split; try assumption.
  destruct (parse_body c buffer LSCB (JS.shr LSCB 2) i off3) as [[[c' [[bd len] total]] completed] effects].
  injection H as <-. reflexivity.
Qed.

Lemma parse_frame_method c buffer MSCB LSCB p :
  parse_frame c buffer MSCB LSCB = JS.Returned p ->
  method (p_request p) = Some (JS.shr LSCB 2).
Proof.
  intros H. apply parse_frame_inv in H as (i & off1 & pth & off2 & hs & off3 & _ & _ & _ & ->).
  destruct (parse_body _ _ _ _ _ _) as [[[c' [[bd len] total]] completed] effects].
  reflexivity.
Qed.

Lemma parse_frame_requestResponse c buffer MSCB LSCB p :
  parse_frame c buffer MSCB LSCB = JS.Returned p ->
  requestResponse (p_client p) = requestResponse c /\ bufferSize (p_client p) = bufferSize c.
Proof.
  intros H. apply parse_frame_inv in H as (i & off1 & pth & off2 & hs & off3 & _ & _ & _ & ->).
  unfold parse_body. destruct (negb _); [|done].
  destruct (readBodyLength _ _ _ _) as [total off]. cbn zeta.
  repeat match goal with |- context [if ?b then _ else _] => destruct b end; done.
Qed.

(** Without the BODY flag the body section is skipped: the request keeps
    the empty buffer it started with. *)
Lemma parse_frame_no_body c buffer MSCB LSCB p :
  JS.band LSCB IOT_LSCB_BODY = 0 ->
  parse_frame c buffer MSCB LSCB = JS.Returned p ->
  body (p_request p) = Some [] /\ p_client p = c /\ p_completed p = true
  /\ p_effects p = [].
Proof.
  intros Hb H. apply parse_frame_inv in H as (i & off1 & pth & off2 & hs & off3 & _ & _ & _ & ->).
  unfold parse_body. rewrite Hb. done.
Qed.

(** Without the ID flag the request keeps id 0. *)
Lemma parse_frame_no_id c buffer MSCB LSCB p :
  JS.band MSCB IOT_MSCB_ID = 0 ->
  parse_frame c buffer MSCB LSCB = JS.Returned p ->
  id (p_request p) = Some 0.
Proof.
  intros Hb H. apply parse_frame_inv in H as (i & off1 & pth & off2 & hs & off3 & Hid & _ & _ & ->).
  unfold parse_id in Hid. rewrite Hb in Hid. injection Hid as <- <-.
  destruct (parse_body _ _ _ _ _ _) as [[[c' [[bd len] total]] completed] effects].
  reflexivity.
Qed.

(** ** Evaluation of closed arithmetic inside a goal *)

Ltac is_Z_numeral v :=
  lazymatch v with Z0 => idtac | Zpos _ => idtac | Zneg _ => idtac end.

Ltac js_eval :=
  repeat match goal with
  | |- context [JS.band ?a ?b] =>
    let v := eval vm_compute in (JS.band a b) in
    is_Z_numeral v; change (JS.band a b) with v
  | |- context [JS.shl ?a ?b] =>
    let v := eval vm_compute in (JS.shl a b) in
    is_Z_numeral v; change (JS.shl a b) with v
  | |- context [JS.shr ?a ?b] =>
    let v := eval vm_compute in (JS.shr a b) in
    is_Z_numeral v; change (JS.shr a b) with v
  end.

(** ** The alive response *)

Lemma send_prefix_aliveResponse rt c :
  JS.gt 0 (JS.sub (bufferSize c) 8) = false ->
  exists r, send_prefix rt c (aliveResponse empty_request) = JS.Returned (r, [4; 24], []).
Proof.
  intros H. unfold send_prefix, aliveResponse, empty_request.
  cbn -[JS.gt JS.sub JS.band JS.shl]. js_eval. cbn -[JS.gt JS.sub].
  change (Buf.len [] + Buf.len []) with 0. rewrite H. eexists. reflexivity.
Qed.

Lemma subarray_nil a b : Buf.subarray [] a b = [].
Proof. unfold Buf.subarray. rewrite drop_nil, take_nil. reflexivity. Qed.

Lemma writeBodyPart_step_no_body size prefix i :
  fst (writeBodyPart_step size prefix [] i) = prefix.
Proof. unfold writeBodyPart_step. cbn [fst]. rewrite subarray_nil. apply app_nil_r. Qed.

Lemma send_call_aliveResponse proto rt c :
  JS.gt 0 (JS.sub (bufferSize c) 8) = false -> lockedForWrite c = false ->
  snd (send_call proto rt c (aliveResponse empty_request) None) = [E_write [4; 24]]
  /\ lockedForWrite (fst (send_call proto rt c (aliveResponse empty_request) None)) = true.
Proof.
  intros H Hl. unfold send_call.
  destruct (send_prefix_aliveResponse rt c H) as [r ->].
  cbn [register]. rewrite Hl. rewrite writeBodyPart_step_no_body. split; reflexivity.
Qed.

(** C6 (amended): a buffer whose method field decodes to ALIVE_REQUEST makes
    [onData] call [aliveResponse] on the same connection and reset the
    keep-alive timer, and nothing else: no middleware and no response
    callback runs, and the tables, the buffer size and [remainBuffer] are
    as before, so that the bytes after the two control bytes are not kept.
    With the write lock free and a buffer size of 8 or more (or NaN) the
    response is the single write 04 18, issued during the call. *)
Theorem alive_request_answered_inline :
  forall proto rt c MSCB LSCB rest,
    JS.shr LSCB 2 = EIoTMethod.ALIVE_REQUEST ->
    exists c' sent,
      onData proto rt c (MSCB :: LSCB :: rest)
        = JS.Returned (c', sent ++ [E_scheduleNextAliveRequest])
      /\ send_call proto rt c (aliveResponse empty_request) None = (c', sent)
      /\ delivered (sent ++ [E_scheduleNextAliveRequest]) = []
      /\ remainBuffer c' = remainBuffer c
      /\ multiPartControl c' = multiPartControl c
      /\ requestResponse c' = requestResponse c
      /\ bufferSize c' = bufferSize c
      /\ (JS.gt 0 (JS.sub (bufferSize c) 8) = false -> lockedForWrite c = false ->
          sent = [E_write [4; 24]] /\ lockedForWrite c' = true).
Proof.
  intros proto rt c MSCB LSCB rest Hm.
  unfold onData. rewrite Hm. cbn [Z.eqb EIoTMethod.ALIVE_REQUEST Pos.eqb].
  pose proof (send_call_None_frame proto rt c (aliveResponse empty_request)) as Hf.
  pose proof (send_call_None_no_delivery proto rt c (aliveResponse empty_request) None) as Hd.
  pose proof (send_call_aliveResponse proto rt c) as Hw.
  destruct (send_call proto rt c (aliveResponse empty_request) None) as [c' sent].
  cbn [fst snd] in *. destruct Hf as (Hbs & Hmp & Hrb & Hrr).
  exists c', sent. repeat split; try assumption; try (apply Hw; assumption).
  unfold delivered in *. rewrite omap_app, Hd. reflexivity.
Qed.

Lemma alive_request_answered_inline_witness :
  JS.shr 20 2 = EIoTMethod.ALIVE_REQUEST
  /\ exists c' sent,
       onData default_proto sample_runtime fresh_client [4; 20; 4; 4]
         = JS.Returned (c', sent ++ [E_scheduleNextAliveRequest])
       /\ remainBuffer c' = remainBuffer fresh_client.
Proof.
  split; [reflexivity|].
  destruct (alive_request_answered_inline default_proto sample_runtime fresh_client
              4 20 [4; 4] eq_refl)
    as (c' & sent & H & _ & _ & Hr & _).
  exists c', sent. split; assumption.
Defined.

(** C6 as stated fails: an ALIVE_REQUEST followed in the same buffer by a
    SIGNAL frame gives exactly what the ALIVE_REQUEST alone gives; the
    trailing frame is neither delivered nor kept in [remainBuffer], while
    the same frame arriving in a data event of its own is delivered. *)
Lemma alive_trailing_frame_lost :
  onData default_proto sample_runtime fresh_client [4; 20; 4; 4]
    = onData default_proto sample_runtime fresh_client [4; 20]
  /\ (exists c tr,
        feed default_proto sample_runtime fresh_client [[4; 20; 4; 4]] = (c, tr, None)
        /\ remainBuffer c = None /\ delivered tr = [])
  /\ (exists c tr,
        feed default_proto sample_runtime fresh_client [[4; 20]; [4; 4]] = (c, tr, None)
        /\ delivered tr = [mkRequest (Some 1) (Some EIoTMethod.SIGNAL) (Some 0) None None
                             (Some []) (Some 0) (Some 0) (Some 0)]).
Proof.
  split; [vm_compute; reflexivity|].
  split; eexists _, _; (split; [vm_compute; reflexivity|]); try split; reflexivity.
Qed.

(** ** Buffer-size negotiation *)

(** C7 (code defect): a BUFFER_SIZE_REQUEST whose body encodes 0 leaves the
    receiver with [bufferSize = 0], not 1024, and the echoing
    BUFFER_SIZE_RESPONSE is never written: its [send] is rejected by the
    size check, since [0 > 0 - 8]. *)
Theorem bufferSize_request_zero :
  forall proto rt,
    exists c tr,
      onData proto rt fresh_client frame_bufferSize_0 = JS.Returned (c, tr)
      /\ bufferSize fresh_client = JS.Num 1024
      /\ bufferSize c = JS.Num 0
      /\ tr = [E_multiPartTimeout 0; E_scheduleNextAliveRequest;
               E_rejected JS.Error_PathAndHeadersTooBig]
      /\ writes tr = [].
Proof.
  intros proto rt. eexists _, _. split; [vm_compute; reflexivity|].
  repeat split; reflexivity.
Qed.

(** C10: a frame whose method is BUFFER_SIZE_REQUEST and whose BODY flag is
    clear is parsed with an empty body; [onData] goes on to read that body
    at indices 0 to 3, where it has no element, and the buffer size of the
    connection becomes NaN. *)
Theorem bufferSize_request_without_body :
  forall proto rt c MSCB LSCB rest p,
    JS.shr LSCB 2 = EIoTMethod.BUFFER_SIZE_REQUEST ->
    JS.band LSCB IOT_LSCB_BODY = 0 ->
    parse_frame c (MSCB :: LSCB :: rest) MSCB LSCB = JS.Returned p ->
    body (p_request p) = Some []
    /\ (forall i, Buf.get [] i = None)
    /\ bufferSizeOfBody [] = JS.NaN
    /\ exists c' tr,
         onData proto rt c (MSCB :: LSCB :: rest) = JS.Returned (c', tr)
         /\ bufferSize c' = JS.NaN.
Proof.
  intros proto rt c MSCB LSCB rest p Hm Hb Hp.
  destruct (parse_frame_no_body _ _ _ _ _ Hb Hp) as (Hbody & Hc & Hcomp & Heff).
  pose proof (parse_frame_method _ _ _ _ _ Hp) as Hmeth.
  split; [assumption|]. split; [intros i; unfold Buf.get; destruct (i <? 0); reflexivity|].
  split; [reflexivity|].
  unfold onData. rewrite Hm. cbn [Z.eqb EIoTMethod.ALIVE_REQUEST EIoTMethod.BUFFER_SIZE_REQUEST Pos.eqb].
  rewrite Hp. cbn [mbind outcome_bind JS.bind].
  destruct (dispatch (p_client p) (p_request p) (p_completed p)) as [c1 dl].
  unfold is_method. rewrite Hmeth, Hm, Hbody. cbn [Z.eqb EIoTMethod.BUFFER_SIZE_REQUEST Pos.eqb default].
  pose proof (send_call_None_frame proto rt (set_bufferSize c1 (bufferSizeOfBody []))
                (bufferSizeResponse (p_request p))) as (Hbs & _).
  destruct (send_call proto rt _ _ None) as [c2 sent]. cbn [fst] in Hbs.
  eexists _, _. split; [reflexivity|]. rewrite Hbs. reflexivity.
Qed.

Lemma bufferSize_request_without_body_witness :
  JS.shr 28 2 = EIoTMethod.BUFFER_SIZE_REQUEST
  /\ JS.band 28 IOT_LSCB_BODY = 0
  /\ (exists p, parse_frame fresh_client [4; 28] 4 28 = JS.Returned p)
  /\ exists c' tr,
       onData default_proto sample_runtime fresh_client [4; 28] = JS.Returned (c', tr)
       /\ bufferSize c' = JS.NaN.
Proof.
  split; [reflexivity|]. split; [reflexivity|].
  split; [eexists; vm_compute; reflexivity|].
  eapply (bufferSize_request_without_body default_proto sample_runtime fresh_client 4 28 []);
    [reflexivity|reflexivity|vm_compute; reflexivity].
Defined.

(** ** A pending alive request and frames without id *)

Lemma send_prefix_aliveRequest rt c :
  JS.gt 0 (JS.sub (bufferSize c) 8) = false ->
  exists r, send_prefix rt c (aliveRequest empty_request) = JS.Returned (r, [4; 20], [])
            /\ id r = Some 0.
Proof.
  intros H. unfold send_prefix, aliveRequest, empty_request.
  cbn -[JS.gt JS.sub JS.band JS.shl]. js_eval. cbn -[JS.gt JS.sub].
  change (Buf.len [] + Buf.len []) with 0. rewrite H. eexists. split; reflexivity.
Qed.

Lemma dispatch_pending c request completed d :
  requestResponse c !! id request = Some d ->
  let '(c', tr) := dispatch c request completed in
  (forall r, E_runMiddleware r ∉ tr)
  /\ (forall cb, onResponse d = Some cb -> E_onResponse cb request ∈ tr)
  /\ (if completed then requestResponse c' !! id request = None
      else E_startRequestResponseTimeout (id request) ∈ tr).
Proof.
  intros Hd. unfold dispatch. rewrite Hd.
  destruct (onResponse d) as [cb|]; destruct completed; cbn.
  - split; [intros r Hin; apply list_elem_of_singleton in Hin; discriminate|].
    split; [intros ? [= <-]; apply list_elem_of_singleton; reflexivity|].
    destruct cb; cbn; [destruct (is_method _ _); cbn|]; apply lookup_delete_eq.
  - split; [intros r Hin; repeat (apply elem_of_cons in Hin as [Hin|Hin]; [discriminate|]);
            apply elem_of_nil in Hin; exact Hin|].
    split; [intros ? [= <-]; apply elem_of_cons; left; reflexivity|].
    apply elem_of_cons; right; apply list_elem_of_singleton; reflexivity.
  - split; [intros r Hin; apply elem_of_nil in Hin; exact Hin|].
    split; [discriminate|]. apply lookup_delete_eq.
  - split; [intros r Hin; apply list_elem_of_singleton in Hin; discriminate|].
    split; [discriminate|]. apply list_elem_of_singleton; reflexivity.
Qed.

(** The alive request is filed in the in-flight table under id 0. *)
Lemma aliveRequest_filed_under_0 proto rt c :
  JS.gt 0 (JS.sub (bufferSize c) 8) = false ->
  exists d, requestResponse
              (fst (send_call proto rt c (aliveRequest empty_request)
                      (Some (aliveRequestResponse proto)))) !! Some 0 = Some d
            /\ onResponse d = None /\ onTimeout d = Some onAliveRequestTimeout.
Proof.
  intros H. unfold send_call.
  destruct (send_prefix_aliveRequest rt c H) as (r & -> & Hid).
  unfold register, aliveRequestResponse. cbn [timeout onResponse onTimeout].
  eexists. split.
  { destruct (lockedForWrite _);
      cbn [fst set_lockedForWrite set_requestResponse requestResponse];
      rewrite Hid; apply lookup_insert_eq. }
  split; reflexivity.
Qed.

(** A frame without id meets the entry pending under id 0. *)
Lemma pending_0_takes_idless_frame proto rt c d MSCB LSCB rest p :
  requestResponse c !! Some 0 = Some d ->
  JS.band MSCB IOT_MSCB_ID = 0 ->
  JS.shr LSCB 2 <> EIoTMethod.ALIVE_REQUEST ->
  parse_frame c (MSCB :: LSCB :: rest) MSCB LSCB = JS.Returned p ->
  id (p_request p) = Some 0
  /\ exists c' tr,
       onData proto rt c (MSCB :: LSCB :: rest) = JS.Returned (c', tr)
       /\ (forall r, E_runMiddleware r ∉ tr)
       /\ (forall cb, onResponse d = Some cb -> E_onResponse cb (p_request p) ∈ tr)
       /\ (if p_completed p then requestResponse c' !! Some 0 = None
           else E_startRequestResponseTimeout (Some 0) ∈ tr).
Proof.
  intros Hd Hid Hm Hp.
  pose proof (parse_frame_no_id _ _ _ _ _ Hid Hp) as Hid0.
  split; [assumption|].
  destruct (parse_frame_requestResponse _ _ _ _ _ Hp) as (Hrr & _).
  unfold onData. destruct (Z.eqb_spec (JS.shr LSCB 2) EIoTMethod.ALIVE_REQUEST) as [|_]; [done|].
  rewrite Hp. cbn [mbind outcome_bind JS.bind].
  assert (requestResponse (p_client p) !! id (p_request p) = Some d) as Hd'
    by (rewrite Hrr, Hid0; exact Hd).
  pose proof (dispatch_pending (p_client p) (p_request p) (p_completed p) d Hd') as Hdis.
  destruct (dispatch (p_client p) (p_request p) (p_completed p)) as [c1 dl].
  destruct Hdis as (Hmw & Hcb & Hfin). rewrite Hid0 in Hfin.
  assert (forall r, E_runMiddleware r ∉ p_effects p) as Heff.
  { apply parse_frame_inv in Hp as (i & off1 & pth & off2 & hs & off3 & _ & _ & _ & ->).
    unfold parse_body. destruct (negb _).
    - destruct (readBodyLength _ _ _ _) as [total off]. cbn.
      intros r Hin. apply list_elem_of_singleton in Hin. discriminate.
    - cbn. intros r Hin. apply elem_of_nil in Hin. exact Hin. }
  destruct (is_method (p_request p) EIoTMethod.BUFFER_SIZE_REQUEST).
  + pose proof (send_call_None_frame proto rt
                  (set_bufferSize c1 (bufferSizeOfBody (default [] (body (p_request p)))))
                  (bufferSizeResponse (p_request p))) as (_ & _ & _ & Hrr2).
    pose proof (send_call_None_no_delivery proto rt
                  (set_bufferSize c1 (bufferSizeOfBody (default [] (body (p_request p)))))
                  (bufferSizeResponse (p_request p)) None) as Hnd.
    destruct (send_call proto rt _ _ None) as [c2 sent]. cbn [fst snd] in *.
    eexists _, _. split; [reflexivity|]. split; [|split].
    * intros r Hin. rewrite !elem_of_app in Hin.
      destruct Hin as [[Hin|[Hin|Hin]]|Hin].
      -- exact (Heff r Hin).
      -- exact (Hmw r Hin).
      -- apply list_elem_of_singleton in Hin. discriminate.
      -- assert (r ∈ delivered sent) as Hr
           by (unfold delivered; apply list_elem_of_omap; exists (E_runMiddleware r); done).
         rewrite Hnd in Hr. apply elem_of_nil in Hr. exact Hr.
    * intros cb Hc. rewrite !elem_of_app. left. right. left. exact (Hcb cb Hc).
    * destruct (p_completed p); [rewrite Hrr2; exact Hfin|].
      rewrite !elem_of_app. left. right. left. exact Hfin.
  + eexists _, _. split; [reflexivity|]. split; [|split].
    * intros r Hin. rewrite !elem_of_app in Hin.
      destruct Hin as [Hin|[Hin|Hin]].
      -- exact (Heff r Hin).
      -- exact (Hmw r Hin).
      -- apply list_elem_of_singleton in Hin. discriminate.
    * intros cb Hc. rewrite !elem_of_app. right. left. exact (Hcb cb Hc).
    * destruct (p_completed p); [exact Hfin|].
      rewrite !elem_of_app. right. left. exact Hfin.
Qed.

(** C9 (amended): the alive request is filed in the in-flight table under
    id 0; a frame whose MSCB has the ID flag clear is parsed with id 0; so,
    while an entry is pending under id 0, every such frame other than an
    ALIVE_REQUEST (answered before the table is looked at) is taken by that
    entry: its [onResponse], if it has one, is called with the frame, the
    entry is deleted when the frame is complete (its timeout restarted
    otherwise), and no middleware runs. *)
Theorem idless_frame_taken_by_pending_alive :
  forall proto rt c0 c d MSCB LSCB rest p,
    JS.gt 0 (JS.sub (bufferSize c0) 8) = false ->
    requestResponse c !! Some 0 = Some d ->
    JS.band MSCB IOT_MSCB_ID = 0 ->
    JS.shr LSCB 2 <> EIoTMethod.ALIVE_REQUEST ->
    parse_frame c (MSCB :: LSCB :: rest) MSCB LSCB = JS.Returned p ->
    (exists d0, requestResponse
                  (fst (send_call proto rt c0 (aliveRequest empty_request)
                          (Some (aliveRequestResponse proto)))) !! Some 0 = Some d0
                /\ onResponse d0 = None /\ onTimeout d0 = Some onAliveRequestTimeout)
    /\ id (p_request p) = Some 0
    /\ exists c' tr,
         onData proto rt c (MSCB :: LSCB :: rest) = JS.Returned (c', tr)
         /\ (forall r, E_runMiddleware r ∉ tr)
         /\ (forall cb, onResponse d = Some cb -> E_onResponse cb (p_request p) ∈ tr)
         /\ (if p_completed p then requestResponse c' !! Some 0 = None
             else E_startRequestResponseTimeout (Some 0) ∈ tr).
Proof.
  intros proto rt c0 c d MSCB LSCB rest p H0 Hd Hid Hm Hp.
  split; [exact (aliveRequest_filed_under_0 proto rt c0 H0)|].
  exact (pending_0_takes_idless_frame proto rt c d MSCB LSCB rest p Hd Hid Hm Hp).
Qed.

(** The connection once the alive timer of a fresh connection has fired. *)
Lemma idless_frame_taken_by_pending_alive_witness :
  let c := fst (send_call default_proto sample_runtime fresh_client
                  (aliveRequest empty_request) (Some (aliveRequestResponse default_proto))) in
  JS.gt 0 (JS.sub (bufferSize fresh_client) 8) = false
  /\ JS.band 4 IOT_MSCB_ID = 0
  /\ JS.shr 4 2 <> EIoTMethod.ALIVE_REQUEST
  /\ exists c' tr,
       onData default_proto sample_runtime c [4; 4] = JS.Returned (c', tr)
       /\ (forall r, E_runMiddleware r ∉ tr)
       /\ requestResponse c' !! Some 0 = None.
Proof.
  intros c. split; [reflexivity|]. split; [reflexivity|]. split; [discriminate|].
  destruct (aliveRequest_filed_under_0 default_proto sample_runtime fresh_client eq_refl)
    as (d & Hd & _).
  assert (exists p, parse_frame c [4; 4] 4 4 = JS.Returned p /\ p_completed p = true)
    as (p & Hp & Hc) by (eexists; split; [vm_compute; reflexivity|reflexivity]).
  destruct (idless_frame_taken_by_pending_alive default_proto sample_runtime fresh_client
              c d 4 4 [] p eq_refl Hd eq_refl ltac:(discriminate) Hp)
    as (_ & _ & c' & tr & Hon & Hmw & _ & Hfin).
  rewrite Hc in Hfin. exists c', tr. repeat split; assumption.
Defined.


(** C9 as stated fails for one frame without id: an inbound ALIVE_REQUEST.
    With the alive request of a fresh connection pending, the frame 04 14
    is answered (the response waits for the write lock, held by the alive
    request being written) and the entry under id 0 stays: no callback, no
    deletion, no timer restart. *)
Lemma alive_request_leaves_pending_alive :
  let c := fst (send_call default_proto sample_runtime fresh_client
                  (aliveRequest empty_request) (Some (aliveRequestResponse default_proto))) in
  is_Some (requestResponse c !! Some 0)
  /\ JS.band 4 IOT_MSCB_ID = 0
  /\ exists c' tr,
       onData default_proto sample_runtime c [4; 20] = JS.Returned (c', tr)
       /\ tr = [E_awaitLock [4; 24] []; E_scheduleNextAliveRequest]
       /\ requestResponse c' !! Some 0 = requestResponse c !! Some 0.
Proof.
  intros c. split; [eexists; vm_compute; reflexivity|]. split; [reflexivity|].
  eexists _, _. split; [vm_compute; reflexivity|]. split; vm_compute; reflexivity.
Qed.

(** ** Reassembly *)

Lemma dispatch_multiPartControl c request completed :
  multiPartControl (fst (dispatch c request completed)) = multiPartControl c
  /\ remainBuffer (fst (dispatch c request completed)) = remainBuffer c.
Proof.
  unfold dispatch. destruct (requestResponse c !! id request) as [d|].
  - destruct (onResponse d) as [[|tag]|]; cbn; unfold run_onResponse;
      repeat match goal with |- context [if ?b then _ else _] => destruct b end; done.
  - destruct (_ || _); done.
Qed.

(** What [onData] leaves in the reassembly table and in [remainBuffer] is
    what the parser left there. *)
Lemma onData_after_parse proto rt c MSCB LSCB rest p :
  JS.shr LSCB 2 <> EIoTMethod.ALIVE_REQUEST ->
  parse_frame c (MSCB :: LSCB :: rest) MSCB LSCB = JS.Returned p ->
  exists c' tr,
    onData proto rt c (MSCB :: LSCB :: rest) = JS.Returned (c', tr)
    /\ multiPartControl c' = multiPartControl (p_client p)
    /\ remainBuffer c' = remainBuffer (p_client p).
Proof.
  intros Hm Hp. unfold onData.
  destruct (Z.eqb_spec (JS.shr LSCB 2) EIoTMethod.ALIVE_REQUEST) as [|_]; [done|].
  rewrite Hp. cbn [mbind outcome_bind JS.bind].
  pose proof (dispatch_multiPartControl (p_client p) (p_request p) (p_completed p)) as [Hd1 Hd2].
  destruct (dispatch (p_client p) (p_request p) (p_completed p)) as [c1 dl]. cbn [fst] in *.
  destruct (is_method (p_request p) EIoTMethod.BUFFER_SIZE_REQUEST).
  - pose proof (send_call_None_frame proto rt
                  (set_bufferSize c1 (bufferSizeOfBody (default [] (body (p_request p)))))
                  (bufferSizeResponse (p_request p))) as (_ & H1 & H2 & _).
    destruct (send_call proto rt _ _ None) as [c2 sent]. cbn [fst] in *.
    eexists _, _. split; [reflexivity|]. rewrite H1, H2. cbn. split; assumption.
  - eexists _, _. split; [reflexivity|]. split; assumption.
Qed.




(** ** [send_prefix] by the table *)

Lemma band_shl2 v m : 0 <= m < 4 -> JS.band (JS.shl v 2) m = 0.
Proof.
  intros Hm. rewrite <- (Z.add_0_r (JS.shl v 2)). rewrite band_shl2_flags by lia.
  apply Z.land_0_l.
Qed.

Lemma flag_hi_lo (a b : bool) :
  0 <= flag a 2 + flag b 1 < 4
  /\ negb (Z.land (flag a 2 + flag b 1) 2 =? 0) = a
  /\ negb (Z.land (flag a 2 + flag b 1) 1 =? 0) = b.
Proof. destruct a, b; cbn; repeat split; lia. Qed.

Lemma band_MSCB_flags v (a b : bool) :
  negb (JS.band (JS.shl v 2 + (flag a 2 + flag b 1)) 2 =? 0) = a
  /\ negb (JS.band (JS.shl v 2 + (flag a 2 + flag b 1)) 1 =? 0) = b.
Proof.
  destruct (flag_hi_lo a b) as (Hr & Hhi & Hlo).
  rewrite !band_shl2_flags by lia. split; assumption.
Qed.

Lemma band_LSCB_flags v (a b : bool) :
  negb (JS.band (JS.shl_u v 2 + (flag a 2 + flag b 1)) 2 =? 0) = a
  /\ negb (JS.band (JS.shl_u v 2 + (flag a 2 + flag b 1)) 1 =? 0) = b.
Proof.
  destruct (flag_hi_lo a b) as (Hr & Hhi & Hlo).
  rewrite !band_shl2_u_flags by lia. split; assumption.
Qed.

(** The switch gives the control byte and the length buffer of the table. *)
Lemma send_switch_by_table rt r :
  enum_method r ->
  send_switch rt r (JS.shl (version_of r) 2)
  = (l ← (if is_alive r then mret [] else lengthBuffer rt (length_width r) (body r));
     mret (MSCB_of r, l)).
Proof.
  intros (m & Hm & Hrange).
  unfold send_switch, MSCB_of, carries_id, carries_path, length_width, is_alive, is_method.
  rewrite Hm.
  assert (m = 1 \/ m = 2 \/ m = 3 \/ m = 4 \/ m = 5 \/ m = 6 \/ m = 7 \/ m = 8)
    as [->|[->|[->|[->|[->|[->|[->| ->]]]]]]] by lia;
    cbn [Z.eqb Pos.eqb orb andb EIoTMethod.SIGNAL EIoTMethod.REQUEST EIoTMethod.RESPONSE
         EIoTMethod.STREAMING EIoTMethod.ALIVE_REQUEST EIoTMethod.ALIVE_RESPONSE
         EIoTMethod.BUFFER_SIZE_REQUEST EIoTMethod.BUFFER_SIZE_RESPONSE flag];
    unfold IOT_MSCB_ID, IOT_MSCB_PATH;
    rewrite ?Z.add_0_r, ?Z.add_0_l; try reflexivity.
Qed.

Lemma truthy_string_Some p : truthy_string p = true -> exists s, p = Some s /\ s <> [].
Proof. destruct p as [[|x s]|]; try discriminate. intros _. eexists. split; done. Qed.

Lemma carries_path_Some r :
  carries_path r = true -> exists s, path r = Some s /\ s <> [].
Proof.
  unfold carries_path. intros H. apply andb_true_iff in H as [_ H].
  exact (truthy_string_Some _ H).
Qed.

Lemma has_headers_Some r :
  has_headers r = true -> exists h, headers r = Some h /\ h <> [].
Proof.
  unfold has_headers. destruct (headers r) as [[|kv h]|]; cbn; try discriminate.
  intros _. eexists. split; done.
Qed.

Lemma send_prefix_by_table rt c r :
  enum_method r -> send_prefix rt c r = send_prefix_table rt c r.
Proof.
  intros He. unfold send_prefix, send_prefix_table.
  fold (version_of r). rewrite (send_switch_by_table rt r He).
  destruct (if is_alive r then mret [] else lengthBuffer rt (length_width r) (body r))
    as [l|e]; [|reflexivity].
  cbn [mbind outcome_bind JS.bind mret outcome_ret].
  unfold MSCB_of, IOT_MSCB_ID, IOT_MSCB_PATH, IOT_LSCB_HEADER, IOT_LSCB_BODY.
  fold (has_headers r).
  destruct (band_MSCB_flags (version_of r) (carries_id r) (carries_path r)) as [-> ->].
  destruct (band_LSCB_flags (method r) (has_headers r) (defined (body r))) as [-> ->].
  fold (chosen_id rt c r).
  destruct (if carries_id r then _ else _) as [[id' idBuffer]|e]; [|reflexivity].
  cbn [mbind outcome_bind JS.bind mret outcome_ret].
  unfold pathBuffer_of, headerBuffer_of, LSCB_of, IOT_LSCB_HEADER, IOT_LSCB_BODY.
  destruct (carries_path r) eqn:Hcp.
  - destruct (carries_path_Some r Hcp) as (s & -> & _). cbn [mbind outcome_bind JS.bind mret outcome_ret default andb].
    destruct (has_headers r) eqn:Hh.
    + destruct (has_headers_Some r Hh) as (h & Hhs & _). rewrite Hhs. cbn [mbind outcome_bind JS.bind mret outcome_ret default andb].
      destruct (255 <? _); [reflexivity|]. cbn [mbind outcome_bind JS.bind mret outcome_ret default andb].
      destruct (JS.gt _ _); [reflexivity|].
      destruct (body r); reflexivity.
    + cbn [mbind outcome_bind JS.bind mret outcome_ret default andb]. destruct (JS.gt _ _); [reflexivity|].
      destruct (body r); reflexivity.
  - cbn [mbind outcome_bind JS.bind mret outcome_ret default andb]. destruct (has_headers r) eqn:Hh.
    + destruct (has_headers_Some r Hh) as (h & Hhs & _). rewrite Hhs. cbn [mbind outcome_bind JS.bind mret outcome_ret default andb].
      destruct (255 <? _); [reflexivity|]. cbn [mbind outcome_bind JS.bind mret outcome_ret default andb].
      destruct (JS.gt _ _); [reflexivity|].
      destruct (body r); reflexivity.
    + cbn [mbind outcome_bind JS.bind mret outcome_ret default andb]. destruct (JS.gt _ _); [reflexivity|].
      destruct (body r); reflexivity.
Qed.

(** ** When [send] throws *)

Lemma outcome_cases {A} (m : JS.outcome A) :
  (exists a, m = JS.Returned a) \/ (exists e, m = JS.Thrown e).
Proof. destruct m; eauto. Qed.

Lemma lengthBuffer_Returned rt w b :
  (exists l, lengthBuffer rt w b = JS.Returned l)
  <-> match b with Some x => Buf.len x <? 256 ^ Z.of_nat w | None => true end = true.
Proof.
  unfold lengthBuffer, Buf.writeUIntBE. destruct b as [x|]; [|split; eauto].
  assert ((0 <=? Buf.len x) = true) as -> by (apply Z.leb_le; unfold Buf.len; lia).
  cbn [andb]. destruct (Buf.len x <? _); split; eauto; try discriminate.
  intros [l Hl]. discriminate.
Qed.

(** The two early checks, as outcomes of the first two steps of the table. *)
Lemma length_step_Returned rt r :
  (exists l, (if is_alive r then mret [] else lengthBuffer rt (length_width r) (body r))
             = JS.Returned l)
  <-> body_fits r = true.
Proof.
  unfold body_fits. destruct (is_alive r); cbn [orb]; [split; eauto|].
  apply lengthBuffer_Returned.
Qed.

Lemma id_step_Returned rt c r :
  (exists x, (if carries_id r
              then i ← chosen_id rt c r; b ← Buf.writeUIntBE 2 i; mret (Some i, b)
              else mret (id r, [])) = JS.Returned x)
  <-> id_fits rt c r = true.
Proof.
  unfold id_fits. destruct (carries_id r); cbn [negb orb]; [|split; eauto].
  destruct (chosen_id rt c r) as [i|e]; cbn [mbind outcome_bind JS.bind];
    [|split; [intros [x Hx]; discriminate|discriminate]].
  unfold Buf.writeUIntBE. change (256 ^ Z.of_nat 2) with 65536.
  destruct ((0 <=? i) && (i <? 65536)); cbn; split; eauto; try discriminate.
  intros [x Hx]. discriminate.
Qed.

Lemma too_many_headers r :
  has_headers r && (255 <? header_count r) = true <-> 255 < header_count r.
Proof.
  unfold has_headers, header_count. rewrite andb_true_iff, !Z.ltb_lt. lia.
Qed.

Lemma send_prefix_table_throws rt c r :
  (exists e, send_prefix_table rt c r = JS.Thrown e)
  <-> (body_fits r = false \/ id_fits rt c r = false \/ 255 < header_count r
       \/ JS.gt (path_headers_length r) (JS.sub (bufferSize c) 8) = true).
Proof.
  unfold send_prefix_table. fold (header_count r). fold (path_headers_length r).
  pose proof (length_step_Returned rt r) as HA.
  pose proof (id_step_Returned rt c r) as HB.
  pose proof (too_many_headers r) as HH.
  destruct (if is_alive r then _ else _) as [l|e].
  - assert (body_fits r = true) as -> by (apply HA; eauto).
    cbn [mbind outcome_bind JS.bind].
    destruct (if carries_id r then _ else _) as [[id' idB]|e].
    + assert (id_fits rt c r = true) as -> by (apply HB; eauto).
      cbn [mbind outcome_bind JS.bind].
      destruct (has_headers r && (255 <? header_count r)).
      * split; [intros _; right; right; left; apply HH; reflexivity|eauto].
      * destruct (JS.gt _ _).
        -- split; [intros _; do 3 right; reflexivity|eauto].
        -- split; [intros [e He]; discriminate|].
           intros [?|[?|[Hc|?]]]; try discriminate.
           apply HH in Hc. discriminate.
    + split; [intros _; right; left|eauto].
      destruct (id_fits rt c r); [|reflexivity].
      destruct (proj2 HB eq_refl) as [x Hx]. discriminate.
  - split; [intros _; left|cbn; eauto].
    destruct (body_fits r); [|reflexivity].
    destruct (proj2 HA eq_refl) as [x Hx]. discriminate.
Qed.

Lemma send_Thrown proto rt fuel c r rr c' e tr :
  send proto rt fuel c r rr = Some (c', JS.Thrown e, tr) <->
  send_prefix rt c r = JS.Thrown e /\ c' = c /\ tr = [].
Proof.
  unfold send. destruct (send_prefix rt c r) as [[[r1 prefix] bd]|e1].
  - destruct (writeBodyPart _ _ _ _ _ _) as [[tr1 n]|]; cbn; split;
      try discriminate; intros [? _]; discriminate.
  - split; [intros [= <- <- <-]; done|intros ([= <-] & -> & ->); reflexivity].
Qed.

(** C4 (amended): for a request of one of the eight methods, [send] throws
    if and only if the body does not fit the length field of the method, or
    the method carries an id and no 16-bit id is given or can be allocated,
    or the header count exceeds 255, or the encoded path plus headers
    exceed [bufferSize - 8]; a send that throws writes nothing and leaves
    the connection as it was; and, the body and the id being fit and the
    headers at most 255, a length of exactly [bufferSize - 8] is not
    rejected while one byte more is. *)
Theorem send_throws_iff :
  forall proto rt fuel c r rr,
    enum_method r ->
    ((exists c' e tr, send proto rt fuel c r rr = Some (c', JS.Thrown e, tr))
     <-> (body_fits r = false \/ id_fits rt c r = false \/ 255 < header_count r
          \/ JS.gt (path_headers_length r) (JS.sub (bufferSize c) 8) = true))
    /\ (forall c' e tr, send proto rt fuel c r rr = Some (c', JS.Thrown e, tr) ->
                        c' = c /\ tr = [])
    /\ (forall n, bufferSize c = JS.Num n ->
                  body_fits r = true -> id_fits rt c r = true -> header_count r <= 255 ->
                  (path_headers_length r = n - 8 ->
                   (exists x, send_prefix rt c r = JS.Returned x)
                   /\ forall c' e tr, send proto rt fuel c r rr <> Some (c', JS.Thrown e, tr))
                  /\ (path_headers_length r = n - 8 + 1 ->
                      send proto rt fuel c r rr
                      = Some (c, JS.Thrown JS.Error_PathAndHeadersTooBig, []))).
Proof.
  intros proto rt fuel c r rr He.
  pose proof (send_prefix_by_table rt c r He) as Htable.
  split; [|split].
  - rewrite <- send_prefix_table_throws, <- Htable. split.
    + intros (c' & e & tr & Hs). apply send_Thrown in Hs as [Hs _]. eauto.
    + intros [e Hs]. exists c, e, []. apply send_Thrown. done.
  - intros c' e tr Hs. apply send_Thrown in Hs as (_ & -> & ->). done.
  - intros n Hn Hb Hi Hh. split; intros Hlen.
    + assert (exists x, send_prefix rt c r = JS.Returned x) as [x Hx].
      { rewrite Htable.
        destruct (outcome_cases (send_prefix_table rt c r)) as [Hret|Hthrow]; [exact Hret|].
        apply send_prefix_table_throws in Hthrow as [?|[?|[?|Hgt]]]; try congruence; try lia.
        rewrite Hn, Hlen in Hgt. cbn in Hgt. apply Z.ltb_lt in Hgt. lia. }
      split; [eauto|]. intros c' e tr Hs. apply send_Thrown in Hs as [Hs _]. congruence.
    + apply send_Thrown. split; [|done]. rewrite Htable.
      unfold send_prefix_table. fold (header_count r). fold (path_headers_length r).
      destruct (proj2 (length_step_Returned rt r) Hb) as [l ->].
      cbn [mbind outcome_bind JS.bind].
      destruct (proj2 (id_step_Returned rt c r) Hi) as [[id' idB] ->].
      cbn [mbind outcome_bind JS.bind].
      destruct (has_headers r && (255 <? header_count r)) eqn:Hmany.
      * apply too_many_headers in Hmany. lia.
      * rewrite Hn, Hlen. cbn [JS.sub JS.gt].
        assert ((n - 8 <? n - 8 + 1) = true) as -> by (apply Z.ltb_lt; lia). reflexivity.
Qed.

Lemma send_throws_iff_witness :
  enum_method request_276
  /\ body_fits request_276 = true
  /\ path_headers_length request_276 <= 1024 - 8
  /\ forall c' e tr,
       send default_proto sample_runtime 1 fresh_client request_276 None
       <> Some (c', JS.Thrown e, tr).
Proof.
  assert (enum_method request_276) as He by (exists 2; split; [reflexivity|lia]).
  split; [exact He|]. split; [reflexivity|]. split; [vm_compute; discriminate|].
  destruct (send_throws_iff default_proto sample_runtime 1%nat fresh_client request_276 None He)
    as (Hiff & _ & _).
  intros c' e tr Hs.
  destruct (proj1 Hiff (ex_intro _ c' (ex_intro _ e (ex_intro _ tr Hs)))) as [H|[H|[H|H]]];
    vm_compute in H; discriminate.
Defined.

(** C4 as stated fails in the "only if" direction: a SIGNAL with a body of
    256 bytes, without header or path, makes [send] throw (the length does
    not fit one byte) although no header is there and the encoded path and
    headers, 0 bytes, are within [bufferSize - 8]. *)
Lemma send_throws_on_long_body :
  send default_proto sample_runtime 1 fresh_client signal_256 None
    = Some (fresh_client, JS.Thrown JS.RangeError_OUT_OF_RANGE, [])
  /\ header_count signal_256 = 0
  /\ path_headers_length signal_256 = 0
  /\ JS.gt (path_headers_length signal_256) (JS.sub (bufferSize fresh_client) 8) = false.
Proof. repeat split; vm_compute; reflexivity. Qed.

(** ** Buffers built by concatenation *)

Lemma find_app_first v x post : v ∉ x -> Buf.find v (x ++ v :: post) = Some (length x).
Proof.
  induction x as [|y x IH]; intros Hx; cbn.
  - rewrite Z.eqb_refl. reflexivity.
  - apply not_elem_of_cons in Hx as [Hy Hx].
    destruct (Z.eqb_spec y v) as [->|_]; [done|]. rewrite IH by assumption. reflexivity.
Qed.

Lemma len_app (a b : Buffer) : Buf.len (a ++ b) = Buf.len a + Buf.len b.
Proof. unfold Buf.len. rewrite length_app. lia. Qed.

Lemma len_nonneg (a : Buffer) : 0 <= Buf.len a.
Proof. unfold Buf.len. lia. Qed.

Lemma indexOf_at buffer pre x v post :
  buffer = pre ++ x ++ v :: post -> v ∉ x ->
  Buf.indexOf buffer v (Buf.len pre) = Buf.len pre + Buf.len x.
Proof.
  intros -> Hx. unfold Buf.indexOf.
  destruct (Z.ltb_spec (Buf.len pre) 0) as [Hneg|_]; [pose proof (len_nonneg pre); lia|].
  unfold Buf.len at 1. rewrite Nat2Z.id, drop_app_length, find_app_first by assumption.
  reflexivity.
Qed.

Lemma subarray_at buffer pre x post :
  buffer = pre ++ x ++ post ->
  Buf.subarray buffer (Buf.len pre) (Buf.len pre + Buf.len x) = x.
Proof.
  intros ->. unfold Buf.subarray, Buf.clamp.
  pose proof (len_nonneg pre). pose proof (len_nonneg x). pose proof (len_nonneg post).
  rewrite !len_app.
  destruct (Z.ltb_spec (Buf.len pre) 0); [lia|].
  destruct (Z.ltb_spec (Buf.len pre + Buf.len x) 0); [lia|].
  rewrite !Z.min_l by lia.
  replace (Z.max (Buf.len pre + Buf.len x - Buf.len pre) 0) with (Buf.len x) by lia.
  unfold Buf.len. rewrite !Nat2Z.id, drop_app_length, take_app_length. reflexivity.
Qed.

Lemma subarray_from_at buffer pre post :
  buffer = pre ++ post -> Buf.subarray_from buffer (Buf.len pre) = post.
Proof.
  intros ->. unfold Buf.subarray_from.
  replace (Buf.len (pre ++ post)) with (Buf.len pre + Buf.len post) by (symmetry; apply len_app).
  apply (subarray_at _ pre post []). rewrite app_nil_r. reflexivity.
Qed.

Lemma get_at buffer pre a post :
  buffer = pre ++ a :: post -> Buf.get buffer (Buf.len pre) = Some a.
Proof.
  intros ->. unfold Buf.get.
  destruct (Z.ltb_spec (Buf.len pre) 0); [pose proof (len_nonneg pre); lia|].
  unfold Buf.len. rewrite Nat2Z.id. apply list_lookup_middle. reflexivity.
Qed.

(** ** Objects in enumeration order *)

Lemma insert_index_last o n k v :
  Forall (fun k' => Obj.before k' k) (Obj.keys o) -> Obj.array_index k = Some n ->
  Obj.insert_index o n k v = o ++ [(k, v)].
Proof.
  intros Ho Hk. induction o as [|[k' v'] o IH]; [reflexivity|].
  cbn in Ho. apply Forall_cons in Ho as [Hb Ho]. cbn.
  unfold Obj.before in Hb. rewrite Hk in Hb.
  destruct (Obj.array_index k') as [n'|]; [|done].
  destruct (Z.ltb_spec n' n); [|lia]. rewrite IH by assumption. reflexivity.
Qed.

Lemma ordered_app_inv a b :
  Obj.ordered (a ++ b) ->
  Obj.ordered a /\ Forall (fun x => Forall (Obj.before x) b) a.
Proof.
  induction a as [|x a IH]; cbn; [intros _; split; [exact I|constructor]|].
  intros [Hx Hab]. apply Forall_app in Hx as [Hxa Hxb].
  destruct (IH Hab) as [Ha Hb]. split; [split; assumption|constructor; assumption].
Qed.

(** Assigning the next key of a well-formed object to the object made of
    the keys before it appends it. *)
Lemma set_appends o k v o' :
  k <> Obj.proto ->
  Obj.wf (o ++ (k, v) :: o') -> Obj.set o k v = o ++ [(k, v)].
Proof.
  intros Hproto [Hnd Hord]. unfold Obj.keys in *. rewrite map_app in Hnd, Hord. cbn in Hnd, Hord.
  apply NoDup_app in Hnd as (_ & Hdis & _).
  apply ordered_app_inv in Hord as [_ Hbefore].
  unfold Obj.set, Obj.has, Obj.keys.
  rewrite (bool_decide_eq_false_2 (k = Obj.proto)) by exact Hproto.
  rewrite bool_decide_eq_false_2
    by (intros Hin; apply (Hdis k Hin); apply elem_of_cons; left; reflexivity).
  destruct (Obj.array_index k) as [n|] eqn:Hk; [|reflexivity].
  apply insert_index_last; [|assumption].
  eapply Forall_impl; [exact Hbefore|]. intros x Hx. apply Forall_cons in Hx as [Hx _]. exact Hx.
Qed.

(** ** The header loop on encoded headers *)

Lemma indexOf_after_first buffer pre y v post :
  buffer = pre ++ y ++ v :: post -> y <> [] -> v ∉ tail y ->
  Buf.indexOf buffer v (Buf.len pre + 1) = Buf.len pre + Buf.len y.
Proof.
  intros -> Hy Hv. destruct y as [|y0 y']; [done|]. cbn in Hv.
  replace (Buf.len pre + 1) with (Buf.len (pre ++ [y0])) by (rewrite len_app; reflexivity).
  rewrite (indexOf_at _ (pre ++ [y0]) y' v post); [|rewrite <- app_assoc; reflexivity|assumption].
  rewrite len_app. unfold Buf.len. cbn [length]. lia.
Qed.

Lemma len_encodeHeader k v :
  Buf.len (encodeHeader (k, v)) = Buf.len k + 1 + Buf.len v + 1.
Proof. unfold encodeHeader. cbn [fst snd]. rewrite !len_app. unfold Buf.len. cbn [length]. lia. Qed.

Lemma header_loop_encoded buffer hs :
  forall acc pre post fuel,
    buffer = pre ++ concat (map encodeHeader hs) ++ post ->
    0 < Buf.len pre -> hs <> [] -> Forall header_ok hs -> Obj.wf (acc ++ hs) ->
    (length hs <= fuel)%nat ->
    header_loop fuel buffer (Z.of_nat (length (acc ++ hs))) acc (Buf.len pre)
    = (acc ++ hs, Buf.len pre + Buf.len (concat (map encodeHeader hs))).
Proof.
  induction hs as [|[k v] hs IH]; intros acc pre post fuel Hbuf Hpre Hne Hok Hwf Hfuel; [done|].
  destruct fuel as [|fuel]; [cbn in Hfuel; lia|].
  apply Forall_cons in Hok as [(Hrs & Hetx_k & Hetx_v & Hv & Hproto & Hsk' & Hsv') Hok].
  cbn [fst snd] in *.
  cbn [map concat] in Hbuf. unfold encodeHeader at 1 in Hbuf. cbn [fst snd] in Hbuf.
  set (more := concat (map encodeHeader hs) ++ post) in *.
  assert (buffer = pre ++ k ++ IOT_RS :: (v ++ IOT_ETX :: more)) as Hb1.
  { rewrite Hbuf. unfold more. rewrite <- !app_assoc. reflexivity. }
  assert (buffer = pre ++ (k ++ IOT_RS :: v) ++ IOT_ETX :: more) as Hb2.
  { rewrite Hb1. rewrite <- !app_assoc. reflexivity. }
  assert (buffer = (pre ++ k ++ [IOT_RS]) ++ v ++ IOT_ETX :: more) as Hb3.
  { rewrite Hb1. rewrite <- !app_assoc. reflexivity. }
  assert (Buf.len (k ++ IOT_RS :: v) = Buf.len k + 1 + Buf.len v) as Hlen_y.
  { rewrite len_app. unfold Buf.len. cbn [length]. lia. }
  assert (Buf.len (pre ++ k ++ [IOT_RS]) = Buf.len pre + Buf.len k + 1) as Hlen_p.
  { rewrite !len_app. unfold Buf.len. cbn [length]. lia. }
  pose proof (len_nonneg k). pose proof (len_nonneg v).
  assert (0 < Buf.len v) by (destruct v; [done|unfold Buf.len; cbn [length]; lia]).
  set (iKV := Buf.len pre + Buf.len k).
  set (iE := Buf.len pre + Buf.len k + 1 + Buf.len v).
  assert (Buf.indexOf buffer IOT_RS (Buf.len pre) = iKV) as HiKV
    by exact (indexOf_at buffer pre k IOT_RS _ Hb1 Hrs).
  assert (IOT_ETX ∉ tail (k ++ IOT_RS :: v)) as Htail.
  { destruct k as [|k0 k']; cbn; [assumption|].
    apply not_elem_of_cons in Hetx_k as [_ Hk'].
    rewrite elem_of_app, elem_of_cons. intros [?|[?|?]]; [done|discriminate|done]. }
  assert (Buf.indexOf buffer IOT_ETX (Buf.len pre + 1) = iE) as HiE.
  { rewrite (indexOf_after_first buffer pre (k ++ IOT_RS :: v) IOT_ETX more Hb2
               ltac:(destruct k; discriminate) Htail).
    rewrite Hlen_y. unfold iE. lia. }
  assert (Buf.subarray buffer (Buf.len pre) iKV = k) as Hsk
    by exact (subarray_at buffer pre k _ Hb1).
  assert (Buf.subarray buffer (iKV + 1) iE = v) as Hsv.
  { replace (iKV + 1) with (Buf.len (pre ++ k ++ [IOT_RS])) by (rewrite Hlen_p; reflexivity).
    replace iE with (Buf.len (pre ++ k ++ [IOT_RS]) + Buf.len v) by (rewrite Hlen_p; reflexivity).
    exact (subarray_at buffer (pre ++ k ++ [IOT_RS]) v _ Hb3). }
  assert (negb (iKV =? 0) && negb (iE =? -1) && (iKV <? iE - 1) = true) as Hcond.
  { rewrite !andb_true_iff, !negb_true_iff, !Z.eqb_neq, Z.ltb_lt. unfold iKV, iE. lia. }
  assert (iE + 1 = Buf.len (pre ++ encodeHeader (k, v))) as Hnext
    by (rewrite len_app, len_encodeHeader; unfold iE; lia).
  cbn [header_loop]. rewrite HiKV, HiE, Hcond, Hsk, Hsv, Hsk', Hsv', Hnext.
  rewrite (set_appends acc k v hs Hproto Hwf).
  assert (Buf.len pre + Buf.len (concat (map encodeHeader ((k, v) :: hs)))
          = Buf.len (pre ++ encodeHeader (k, v)) + Buf.len (concat (map encodeHeader hs)))
    as -> by (cbn [map concat]; rewrite !len_app; lia).
  assert (Z.of_nat (length (Obj.keys (acc ++ [(k, v)]))) = Z.of_nat (length acc) + 1) as ->
    by (unfold Obj.keys; rewrite length_map, length_app; cbn [length]; lia).
  assert (Z.of_nat (length (acc ++ (k, v) :: hs)) = Z.of_nat (length acc) + 1 + Z.of_nat (length hs))
    as Hsize by (rewrite length_app; cbn [length]; lia).
  destruct hs as [|kv hs'].
  - rewrite Hsize. cbn [length]. rewrite Z.add_0_r, Z.eqb_refl.
    cbn [map concat]. change (Buf.len []) with 0. rewrite Z.add_0_r. reflexivity.
  - destruct (Z.eqb_spec (Z.of_nat (length acc) + 1) (Z.of_nat (length (acc ++ (k, v) :: kv :: hs'))))
      as [Heq|_]; [rewrite Hsize in Heq; cbn [length] in Heq; lia|].
    replace (acc ++ (k, v) :: kv :: hs') with ((acc ++ [(k, v)]) ++ kv :: hs')
      by (rewrite <- app_assoc; reflexivity).
    apply (IH (acc ++ [(k, v)]) (pre ++ encodeHeader (k, v)) post fuel).
    + rewrite Hbuf. unfold more, encodeHeader at 2. cbn [fst snd]. rewrite <- !app_assoc.
      reflexivity.
    + rewrite len_app. pose proof (len_nonneg (encodeHeader (k, v))). lia.
    + discriminate.
    + assumption.
    + rewrite <- app_assoc. exact Hwf.
    + cbn [length] in Hfuel |- *. lia.
Qed.

(** ** Reading back what the encoder wrote *)

Lemma shl_byte x k :
  0 <= x < 256 -> (k <= 3)%nat -> x * 256 ^ Z.of_nat k < 2 ^ 31 ->
  JS.shl x (Z.of_nat k * 8) = x * 256 ^ Z.of_nat k.
Proof.
  intros Hx Hk Hsmall. unfold JS.shl.
  rewrite (Z.mod_small (Z.of_nat k * 8) 32) by lia.
  rewrite (ToInt32_small x) by lia.
  rewrite Z.shiftl_mul_pow2 by lia.
  replace (2 ^ (Z.of_nat k * 8)) with (256 ^ Z.of_nat k)
    by (rewrite Z.mul_comm, Z.pow_mul_r by lia; reflexivity).
  apply ToInt32_small. pose proof (Z.pow_pos_nonneg 256 (Z.of_nat k)). nia.
Qed.

Lemma readBodyLength_be w :
  forall buffer pre post L acc,
    buffer = pre ++ Buf.be w L ++ post -> (w <= 4)%nat -> 0 <= L ->
    L mod 256 ^ Z.of_nat w < 2 ^ 31 ->
    readBodyLength w buffer (Buf.len pre - 1) acc
    = (acc + L mod 256 ^ Z.of_nat w, Buf.len pre - 1 + Z.of_nat w).
Proof.
  induction w as [|w IH]; intros buffer pre post L acc Hbuf Hw HL Hsmall.
  - cbn [readBodyLength]. change (256 ^ Z.of_nat 0) with 1. rewrite Z.mod_1_r.
    f_equal; lia.
  - cbn [readBodyLength Buf.be] in *.
    set (byte := (L / 256 ^ Z.of_nat w) mod 256) in *.
    assert (0 < 256 ^ Z.of_nat w) as Hpow by (apply Z.pow_pos_nonneg; lia).
    assert (0 <= byte < 256) as Hbyte by (apply Z.mod_pos_bound; lia).
    assert (L mod 256 ^ Z.of_nat (S w) = L mod 256 ^ Z.of_nat w + 256 ^ Z.of_nat w * byte)
      as Hsplit.
    { rewrite Nat2Z.inj_succ, Z.pow_succ_r by lia.
      rewrite (Z.mul_comm 256). apply Z.rem_mul_r; lia. }
    pose proof (Z.mod_pos_bound L (256 ^ Z.of_nat w) Hpow) as Hlow.
    replace (Buf.len pre - 1 + 1) with (Buf.len pre) by lia.
    rewrite (get_at buffer pre byte (Buf.be w L ++ post)) by exact Hbuf.
    cbn [JS.shl_u]. rewrite shl_byte by (try assumption; try lia; nia).
    replace (Buf.len pre) with (Buf.len (pre ++ [byte]) - 1)
      by (rewrite len_app; unfold Buf.len; cbn [length]; lia).
    rewrite (IH buffer (pre ++ [byte]) post L)
      by (try lia; rewrite Hbuf, <- app_assoc; reflexivity).
    f_equal; [rewrite Hsplit; lia|].
    rewrite len_app. unfold Buf.len. cbn [length]. lia.
Qed.

Lemma be_2 i : Buf.be 2 i = [(i / 256) mod 256; i mod 256].
Proof.
  cbn [Buf.be]. change (256 ^ Z.of_nat 1) with 256. change (256 ^ Z.of_nat 0) with 1.
  rewrite Z.div_1_r. reflexivity.
Qed.

Lemma length_concat_encodeHeader h :
  (length h <= length (concat (map encodeHeader h)))%nat.
Proof.
  induction h as [|[k v] h IH]; [reflexivity|].
  cbn [map concat]. rewrite length_app. unfold encodeHeader at 1. cbn [fst snd length].
  rewrite !length_app. cbn [length]. lia.
Qed.

(** [/* ID */] on a buffer that has the id bytes (or none) after the
    control bytes. *)
Lemma parse_id_encoded buffer M L (ci : bool) i post :
  buffer = [M; L] ++ (if ci then Buf.be 2 i else []) ++ post ->
  negb (JS.band M IOT_MSCB_ID =? 0) = ci -> 0 <= i < 65536 ->
  parse_id buffer M 1
  = JS.Returned (if ci then i else 0,
                 Buf.len ([M; L] ++ if ci then Buf.be 2 i else []) - 1).
Proof.
  intros Hbuf Hflag Hi. unfold parse_id. rewrite Hflag. destruct ci; [|reflexivity].
  rewrite be_2 in *. cbn [andb].
  assert (Buf.len [M; L] = 2) as H2 by reflexivity.
  assert ((1 + 2 <=? Buf.len buffer) = true) as ->.
  { apply Z.leb_le. rewrite Hbuf, !len_app. pose proof (len_nonneg post).
    unfold Buf.len at 1 2. cbn [length]. lia. }
  unfold Buf.readUInt16BE.
  change (1 + 1) with (Buf.len [M; L]).
  rewrite (get_at buffer [M; L] ((i / 256) mod 256) (i mod 256 :: post)) by exact Hbuf.
  change (Buf.len [M; L] + 1) with (Buf.len [M; L; (i / 256) mod 256]).
  rewrite (get_at buffer [M; L; (i / 256) mod 256] (i mod 256) post) by exact Hbuf.
  cbn [mbind outcome_bind JS.bind mret outcome_ret].
  rewrite (Z.mod_small (i / 256) 256) by (split; [apply Z.div_pos; lia|apply Z.div_lt_upper_bound; lia]).
  f_equal. f_equal. pose proof (Z_div_mod_eq_full i 256). lia.
Qed.

(** [/* PATH */] on a buffer that has the path and its ETX (or nothing)
    at the offset. *)
Lemma parse_path_encoded buffer M pre (cp : bool) s post :
  buffer = pre ++ (if cp then s ++ [IOT_ETX] else []) ++ post ->
  negb (JS.band M IOT_MSCB_PATH =? 0) = cp ->
  (cp = true -> (IOT_ETX ∉ s) /\ Buf.toString s = s) ->
  parse_path buffer M (Buf.len pre - 1)
  = (if cp then Some s else None,
     Buf.len (pre ++ if cp then s ++ [IOT_ETX] else []) - 1).
Proof.
  intros Hbuf Hflag Hs. unfold parse_path. rewrite Hflag. destruct cp.
  - destruct (Hs eq_refl) as [Hetx Hstr].
    replace (Buf.len pre - 1 + 1) with (Buf.len pre) by lia.
    assert (buffer = pre ++ s ++ IOT_ETX :: post) as Hb
      by (rewrite Hbuf, <- !app_assoc; reflexivity).
    rewrite (indexOf_at buffer pre s IOT_ETX post Hb Hetx).
    pose proof (len_nonneg pre). pose proof (len_nonneg s).
    destruct (Z.ltb_spec (-1) (Buf.len pre + Buf.len s)); [|lia].
    rewrite (subarray_at buffer pre s _ Hb), Hstr. f_equal.
    rewrite !len_app. unfold Buf.len at 5. cbn [length]. lia.
  - rewrite app_nil_r. reflexivity.
Qed.

(** [/* HEADER */] on a buffer that has the encoded headers (or nothing)
    at the offset. *)
Lemma parse_headers_encoded buffer Lb pre (hh : bool) h post :
  buffer = pre ++ (if hh then [Z.of_nat (length (Obj.keys h))] ++ concat (map encodeHeader h)
                   else []) ++ post ->
  negb (JS.band Lb IOT_LSCB_HEADER =? 0) = hh ->
  (hh = true -> h <> [] /\ Forall header_ok h /\ Obj.wf h) ->
  0 < Buf.len pre ->
  parse_headers buffer Lb (Buf.len pre - 1)
  = JS.Returned (if hh then Some h else None,
                 Buf.len (pre ++ if hh then [Z.of_nat (length (Obj.keys h))]
                                            ++ concat (map encodeHeader h) else []) - 1).
Proof.
  intros Hbuf Hflag Hh Hpre. unfold parse_headers. rewrite Hflag. destruct hh.
  - destruct (Hh eq_refl) as (Hne & Hok & Hwf).
    replace (Buf.len pre - 1 + 1) with (Buf.len pre) by lia.
    unfold Buf.readUInt8.
    rewrite (get_at buffer pre (Z.of_nat (length (Obj.keys h)))
               (concat (map encodeHeader h) ++ post))
      by (rewrite Hbuf, <- !app_assoc; reflexivity).
    cbn [mbind outcome_bind JS.bind mret outcome_ret].
    replace (Buf.len pre + 1) with (Buf.len (pre ++ [Z.of_nat (length (Obj.keys h))]))
      by (rewrite len_app; reflexivity).
    assert (length (Obj.keys h) = length ([] ++ h)) as -> by (unfold Obj.keys; apply length_map).
    rewrite (header_loop_encoded buffer h [] (pre ++ [Z.of_nat (length ([] ++ h))]) post
               (length buffer)).
    + cbn [app]. f_equal. f_equal. unfold Buf.len. rewrite !length_app. cbn [length]. lia.
    + rewrite Hbuf. unfold Obj.keys. rewrite length_map, <- !app_assoc. reflexivity.
    + rewrite len_app. unfold Buf.len at 2. cbn [length]. lia.
    + assumption.
    + assumption.
    + exact Hwf.
    + rewrite Hbuf, !length_app. pose proof (length_concat_encodeHeader h). lia.
  - rewrite app_nil_r. reflexivity.
Qed.

Lemma length_be w L : length (Buf.be w L) = w.
Proof. induction w as [|w IH]; cbn [Buf.be length]; congruence. Qed.

(** [/* BODY */] on a buffer that has the length field and the whole body
    at the offset, for an id without reassembly entry. *)
Lemma parse_body_encoded c buffer pre Lb m i w b rest :
  buffer = pre ++ Buf.be w (Buf.len b) ++ b ++ rest ->
  negb (JS.band Lb IOT_LSCB_BODY =? 0) = true ->
  bodyLengthSize m = w -> (w <= 4)%nat ->
  Buf.len b < 256 ^ Z.of_nat w -> Buf.len b < 2 ^ 31 ->
  multiPartControl c !! i = None ->
  parse_body c buffer Lb m i (Buf.len pre - 1)
  = (let c1 := set_multiPartControl c (delete i (multiPartControl c)) in
     if 0 <? Buf.len rest then set_remainBuffer c1 (Some rest) else c1,
     (b, Buf.len b, Buf.len b), true, [E_multiPartTimeout i]).
Proof.
  intros Hbuf Hflag Hw Hw4 Hfit Hsmall Hnone. unfold parse_body. rewrite Hflag, Hw.
  pose proof (len_nonneg b) as Hb0. pose proof (len_nonneg rest) as Hr0.
  rewrite (readBodyLength_be w buffer pre (b ++ rest) (Buf.len b) 0 Hbuf Hw4 Hb0)
    by (rewrite Z.mod_small by lia; exact Hsmall).
  rewrite Z.mod_small by lia. rewrite Hnone. cbn [default received mp_parts].
  set (P := pre ++ Buf.be w (Buf.len b)).
  assert (Buf.len pre - 1 + Z.of_nat w + 1 = Buf.len P) as ->
    by (unfold P; rewrite len_app; unfold Buf.len at 3; rewrite length_be; lia).
  assert (buffer = P ++ b ++ rest) as HbP by (rewrite Hbuf; unfold P; rewrite <- app_assoc; reflexivity).
  assert (Buf.len buffer = Buf.len P + Buf.len b + Buf.len rest) as Hlen
    by (rewrite HbP, !len_app; lia).
  replace (Buf.len P + (0 + Buf.len b) - 0) with (Buf.len P + Buf.len b) by lia.
  destruct (Z.ltb_spec (Buf.len buffer) (Buf.len P + Buf.len b)) as [|_]; [lia|].
  replace (Buf.len P + Buf.len b - Buf.len P) with (Buf.len b) by lia.
  replace (0 + Buf.len b) with (Buf.len b) by lia.
  rewrite Z.ltb_irrefl. cbn [negb].
  replace (Buf.len buffer - Buf.len P) with (Buf.len b + Buf.len rest) by lia.
  rewrite (subarray_at buffer P b rest HbP).
  replace (Buf.len P + Buf.len b) with (Buf.len (P ++ b)) by apply len_app.
  rewrite (subarray_from_at buffer (P ++ b) rest) by (rewrite HbP, <- app_assoc; reflexivity).
  replace (Buf.len b <? Buf.len b + Buf.len rest) with (0 <? Buf.len rest)
    by (destruct (Z.ltb_spec 0 (Buf.len rest)); destruct (Z.ltb_spec (Buf.len b) (Buf.len b + Buf.len rest)); lia).
  reflexivity.
Qed.

(** ** Control bytes *)

Lemma shl2_small v : 0 <= v < 2 ^ 29 -> JS.shl v 2 = 4 * v.
Proof.
  intros Hv. unfold JS.shl. change (2 mod 32) with 2.
  change (2 ^ 29) with 536870912 in Hv.
  assert (forall z, -2147483648 <= z < 2147483648 -> JS.ToInt32 z = z) as Hsmall
    by (intros z Hz; apply ToInt32_small; change (2 ^ 31) with 2147483648; lia).
  rewrite (Hsmall v) by lia. rewrite Z.shiftl_mul_pow2 by lia.
  change (2 ^ 2) with 4. rewrite Hsmall; lia.
Qed.

Lemma control_byte v (a b : bool) :
  0 <= v <= 63 ->
  let X := JS.shl v 2 + (flag a 2 + flag b 1) in
  X mod 256 = X /\ JS.shr X 2 = v.
Proof.
  intros Hv X. unfold X. rewrite shl2_small by (change (2 ^ 29) with 536870912; lia).
  assert (0 <= flag a 2 + flag b 1 < 4) as Hf by (destruct a, b; cbn; lia).
  split; [apply Z.mod_small; lia|].
  unfold JS.shr. change (2 mod 32) with 2.
  rewrite ToInt32_small by (change (2 ^ 31) with 2147483648; lia).
  rewrite Z.shiftr_div_pow2 by lia. change (2 ^ 2) with 4.
  symmetry. apply (Z.div_unique _ 4 v (flag a 2 + flag b 1)); lia.
Qed.

(** ** What a successful [send_prefix] returns *)

Lemma generateRequestId_nonzero c readings i :
  generateRequestId c readings = JS.Returned i -> i <> 0.
Proof.
  induction readings as [|now later IH]; cbn [generateRequestId]; [discriminate|].
  destruct (defined _ || (Z.rem now 10000 =? 0)) eqn:Hc; [exact IH|].
  intros [= <-]. apply orb_false_iff in Hc as [_ Hc]. apply Z.eqb_neq in Hc. exact Hc.
Qed.

Lemma chosen_id_nonzero rt c r i : chosen_id rt c r = JS.Returned i -> i <> 0.
Proof.
  unfold chosen_id. destruct (id r) as [j|].
  - destruct (Z.eqb_spec j 0) as [|Hj]; [apply generateRequestId_nonzero|].
    intros [= <-]. exact Hj.
  - apply generateRequestId_nonzero.
Qed.

Lemma send_prefix_table_inv rt c r r' prefix bd :
  send_prefix_table rt c r = JS.Returned (r', prefix, bd) ->
  exists l i' idB,
    (if is_alive r then mret [] else lengthBuffer rt (length_width r) (body r)) = JS.Returned l
    /\ (if carries_id r
        then i ← chosen_id rt c r; b ← Buf.writeUIntBE 2 i; mret (Some i, b)
        else mret (id r, [])) = JS.Returned (i', idB)
    /\ header_count r <= 255
    /\ JS.gt (path_headers_length r) (JS.sub (bufferSize c) 8) = false
    /\ r' = mkRequest (Some (version_of r)) (method r) i' (path r) (headers r) (body r)
                      (bodyLength r) (totalBodyLength r) (parts r)
    /\ prefix = [MSCB_of r mod 256; LSCB_of r mod 256] ++ idB ++ pathBuffer_of r
                  ++ headerBuffer_of r ++ (if defined (body r) then l else [])
    /\ bd = default [] (body r).
Proof.
  unfold send_prefix_table. fold (header_count r). fold (path_headers_length r).
  intros H.
  apply bind_Returned in H as (l & Hl & H).
  apply bind_Returned in H as ([i' idB] & Hi & H).
  destruct (has_headers r && (255 <? header_count r)) eqn:Hmany; [discriminate|].
  destruct (JS.gt _ _) eqn:Hgt; [discriminate|].
  injection H as <- <- <-.
  exists l, i', idB. repeat split; try assumption.
  destruct (Z.leb_spec (header_count r) 255) as [|Hbig]; [assumption|].
  apply too_many_headers in Hbig. congruence.
Qed.

Lemma id_step_inv rt c r i' idB :
  (if carries_id r
   then i ← chosen_id rt c r; b ← Buf.writeUIntBE 2 i; mret (Some i, b)
   else mret (id r, [])) = JS.Returned (i', idB) ->
  if carries_id r
  then exists i, chosen_id rt c r = JS.Returned i /\ i' = Some i /\ idB = Buf.be 2 i
                 /\ 0 < i < 65536
  else i' = id r /\ idB = [].
Proof.
  destruct (carries_id r); [|intros [= <- <-]; split; reflexivity].
  intros H. apply bind_Returned in H as (i & Hc & H).
  apply bind_Returned in H as (b & Hw & H). injection H as <- <-.
  unfold Buf.writeUIntBE in Hw. change (256 ^ Z.of_nat 2) with 65536 in Hw.
  destruct ((0 <=? i) && (i <? 65536)) eqn:Hr; [|discriminate]. injection Hw as <-.
  apply andb_true_iff in Hr as [H0 H1]. apply Z.leb_le in H0. apply Z.ltb_lt in H1.
  pose proof (chosen_id_nonzero rt c r i Hc).
  exists i. repeat split; try assumption; try reflexivity; lia.
Qed.

(** ** Parsing an encoded frame *)

Lemma primary_method_facts r m :
  method r = Some m -> 1 <= m <= 4 ->
  is_alive r = false /\ bodyLengthSize m = length_width r /\ (length_width r <= 4)%nat
  /\ m <> EIoTMethod.ALIVE_REQUEST /\ enum_method r.
Proof.
  intros Hm Hr. unfold is_alive, length_width, is_method, bodyLengthSize, enum_method.
  rewrite Hm.
  assert (m = 1 \/ m = 2 \/ m = 3 \/ m = 4) as [->|[->|[->| ->]]] by lia;
    (repeat split; try reflexivity; try discriminate; try (cbn; lia);
     eexists; split; [reflexivity|lia]).
Qed.

(** The request that [onData] builds from the frame of [r]. *)
Lemma parse_frame_encoded rt c r r' prefix b rest c2 :
  roundtrip_ready r ->
  send_prefix_table rt c r = JS.Returned (r', prefix, b) ->
  multiPartControl c2 !! wire_id r' = None ->
  exists M L tail,
    prefix ++ b ++ rest = M :: L :: tail
    /\ JS.shr L 2 <> EIoTMethod.ALIVE_REQUEST
    /\ parse_frame c2 (prefix ++ b ++ rest) M L
       = JS.Returned
           (mkParsed
              (let c1 := set_multiPartControl c2 (delete (wire_id r') (multiPartControl c2)) in
               if 0 <? Buf.len rest then set_remainBuffer c1 (Some rest) else c1)
              (mkRequest (Some (version_of r)) (method r) (Some (wire_id r'))
                         (if carries_path r then path r else None)
                         (if has_headers r then headers r else None)
                         (Some b) (Some (Buf.len b)) (Some (Buf.len b)) (Some 0))
              true [E_multiPartTimeout (wire_id r')]).
Proof.
  intros (Hv & (m & Hm & Hmr) & (b0 & Hb & Hbsmall) & Hpath & Hhdr) Hsend Hnone.
  destruct (primary_method_facts r m Hm Hmr) as (Halive & Hwidth & Hw4 & Hnotalive & _).
  apply send_prefix_table_inv in Hsend
    as (l & i' & idB & Hl & Hi & Hcount & _ & Hr' & Hprefix & Hbd).
  rewrite Hb in Hbd. change (b = b0) in Hbd. subst b0.
  rewrite Halive, Hb in Hl. unfold lengthBuffer, Buf.writeUIntBE in Hl.
  destruct ((0 <=? Buf.len b) && (Buf.len b <? 256 ^ Z.of_nat (length_width r))) eqn:Hfit;
    [|discriminate].
  injection Hl as <-. apply andb_true_iff in Hfit as [_ Hfit]. apply Z.ltb_lt in Hfit.
  apply id_step_inv in Hi.
  (* the id on the wire *)
  assert (carries_id r' = carries_id r) as Hci'
    by (rewrite Hr'; unfold carries_id, is_method; reflexivity).
  set (i := wire_id r').
  assert (idB = (if carries_id r then Buf.be 2 i else []) /\ 0 <= i < 65536) as [HidB Hirange].
  { unfold i, wire_id. rewrite Hci'. destruct (carries_id r).
    - destruct Hi as (j & _ & -> & -> & Hj). rewrite Hr'. cbn [id].
      change (default 0 (Some j)) with j. split; [reflexivity|lia].
    - destruct Hi as [_ ->]. split; [reflexivity|lia]. }
  (* control bytes *)
  destruct (control_byte (version_of r) (carries_id r) (carries_path r) ltac:(lia)) as [HMmod HMshr].
  destruct (control_byte m (has_headers r) (defined (body r)) ltac:(lia)) as [HLmod HLshr].
  destruct (band_MSCB_flags (version_of r) (carries_id r) (carries_path r)) as [HMid HMpath].
  destruct (band_LSCB_flags (method r) (has_headers r) (defined (body r))) as [HLhdr HLbody].
  set (M := MSCB_of r) in *. set (L := LSCB_of r) in *.
  assert (M mod 256 = M) as HM1 by exact HMmod.
  assert (L mod 256 = L) as HL1 by (unfold L, LSCB_of; rewrite Hm; exact HLmod).
  assert (JS.shr M 2 = version_of r) as HM2 by exact HMshr.
  assert (JS.shr L 2 = m) as HL2 by (unfold L, LSCB_of; rewrite Hm; exact HLshr).
  rewrite HM1, HL1 in Hprefix. rewrite Hb in Hprefix. cbn [defined] in Hprefix.
  set (pathB := pathBuffer_of r) in *. set (headerB := headerBuffer_of r) in *.
  set (lenB := Buf.be (length_width r) (Buf.len b)) in *.
  set (buffer := prefix ++ b ++ rest).
  assert (buffer = [M; L] ++ idB ++ pathB ++ headerB ++ lenB ++ b ++ rest) as Hbuf
    by (unfold buffer; rewrite Hprefix, <- !app_assoc; reflexivity).
  exists M, L, (idB ++ pathB ++ headerB ++ lenB ++ b ++ rest).
  split; [exact Hbuf|]. split; [rewrite HL2; exact Hnotalive|].
  unfold parse_frame.
  (* id *)
  rewrite (parse_id_encoded buffer M L (carries_id r) i (pathB ++ headerB ++ lenB ++ b ++ rest))
    by (try assumption; rewrite Hbuf, HidB; reflexivity).
  cbn [mbind outcome_bind JS.bind mret outcome_ret].
  rewrite <- HidB.
  (* path *)
  rewrite (parse_path_encoded buffer M ([M; L] ++ idB) (carries_path r)
             (default [] (path r)) (headerB ++ lenB ++ b ++ rest)).
  2:{ rewrite Hbuf, <- !app_assoc. reflexivity. }
  2:{ exact HMpath. }
  2:{ intros Hcp. destruct (carries_path_Some r Hcp) as (s & Hs & _).
      rewrite Hs. change (default [] (Some s)) with s. exact (Hpath s Hcp Hs). }
  change (if carries_path r then default [] (path r) ++ [IOT_ETX] else []) with pathB.
  (* headers *)
  rewrite (parse_headers_encoded buffer L (([M; L] ++ idB) ++ pathB) (has_headers r)
             (default [] (headers r)) (lenB ++ b ++ rest)).
  2:{ rewrite Hbuf, <- !app_assoc. reflexivity. }
  2:{ exact HLhdr. }
  2:{ intros Hh. destruct (has_headers_Some r Hh) as (h & Hhs & Hne).
      rewrite Hhs. change (default [] (Some h)) with h.
      destruct (Hhdr h Hh Hhs) as [Hok Hwf].
      split; [exact Hne|split; [exact Hok|exact Hwf]]. }
  2:{ rewrite !len_app. pose proof (len_nonneg idB). pose proof (len_nonneg pathB).
      change (Buf.len [M; L]) with 2. lia. }
  change (if has_headers r
          then [Z.of_nat (length (Obj.keys (default [] (headers r))))]
               ++ concat (map encodeHeader (default [] (headers r)))
          else []) with headerB.
  cbn [mbind outcome_bind JS.bind mret outcome_ret].
  (* body *)
  rewrite HL2.
  rewrite (parse_body_encoded c2 buffer ((([M; L] ++ idB) ++ pathB) ++ headerB) L m
             (if carries_id r then i else 0) (length_width r) b rest).
  2:{ rewrite Hbuf, <- !app_assoc. reflexivity. }
  2:{ transitivity (defined (body r)); [exact HLbody|rewrite Hb; reflexivity]. }
  2:{ exact Hwidth. }
  2:{ exact Hw4. }
  2:{ exact Hfit. }
  2:{ exact Hbsmall. }
  2:{ replace (if carries_id r then i else 0) with i; [exact Hnone|].
      unfold i, wire_id. rewrite Hci'. destruct (carries_id r); reflexivity. }
  assert ((if carries_id r then i else 0) = i) as ->
    by (unfold i, wire_id; rewrite Hci'; destruct (carries_id r); reflexivity).
  rewrite HM2, <- Hm.
  f_equal. f_equal. f_equal.
  - destruct (carries_path r) eqn:Hcp; [|reflexivity].
    destruct (carries_path_Some r Hcp) as (s & Hs & _). rewrite Hs. reflexivity.
  - destruct (has_headers r) eqn:Hh; [|reflexivity].
    destruct (has_headers_Some r Hh) as (h & Hhs & _). rewrite Hhs. reflexivity.
Qed.

(** ** Encoding the parsed request again *)

Lemma reencode rt c r r' prefix b rt2 c3 :
  roundtrip_ready r ->
  send_prefix_table rt c r = JS.Returned (r', prefix, b) ->
  bufferSize c3 = bufferSize c ->
  let d := mkRequest (Some (version_of r)) (method r) (Some (wire_id r'))
                     (if carries_path r then path r else None)
                     (if has_headers r then headers r else None)
                     (Some b) (Some (Buf.len b)) (Some (Buf.len b)) (Some 0) in
  enum_method d /\ exists d', send_prefix_table rt2 c3 d = JS.Returned (d', prefix, b).
Proof.
  intros (Hv & (m & Hm & Hmr) & (b0 & Hb & Hbsmall) & Hpath & Hhdr) Hsend Hsize d.
  destruct (primary_method_facts r m Hm Hmr) as (Halive & _ & _ & _ & _).
  apply send_prefix_table_inv in Hsend
    as (l & i' & idB & Hl & Hi & Hcount & Hgt & Hr' & Hprefix & Hbd).
  rewrite Hb in Hbd. change (b = b0) in Hbd. subst b0.
  apply id_step_inv in Hi.
  assert (carries_id r' = carries_id r) as Hci'
    by (rewrite Hr'; unfold carries_id, is_method; reflexivity).
  (* what the table reads from [d] is what it reads from [r] *)
  assert (is_alive d = is_alive r) as Ea by reflexivity.
  assert (length_width d = length_width r) as Ew by reflexivity.
  assert (carries_id d = carries_id r) as Eci by reflexivity.
  assert (body d = body r) as Eb by (symmetry; exact Hb).
  assert (version_of d = version_of r) as Ev.
  { unfold d, version_of at 1. cbn [version].
    destruct (Z.eqb_spec (version_of r) 0); [lia|reflexivity]. }
  assert (carries_path d = carries_path r) as Ecp.
  { unfold d, carries_path at 1, is_method. cbn [method path].
    destruct (carries_path r) eqn:Hcp; [exact Hcp|apply andb_false_r]. }
  assert (has_headers d = has_headers r) as Ehh.
  { unfold d, has_headers at 1. cbn [headers].
    destruct (has_headers r) eqn:Hh; [exact Hh|reflexivity]. }
  assert (pathBuffer_of d = pathBuffer_of r) as Epb.
  { unfold pathBuffer_of. rewrite Ecp. unfold d. cbn [path].
    destruct (carries_path r); reflexivity. }
  assert (headerBuffer_of d = headerBuffer_of r /\ header_count d = header_count r) as [Ehb Ehc].
  { unfold headerBuffer_of, header_count. rewrite Ehh. unfold d. cbn [headers].
    destruct (has_headers r) eqn:Hh; [split; reflexivity|].
    split; [reflexivity|]. unfold has_headers in Hh. apply Z.ltb_ge in Hh.
    change (default [] None) with (@nil (jsstring * jsstring)). cbn [Obj.keys map length]. lia. }
  assert (MSCB_of d = MSCB_of r) as EM by (unfold MSCB_of; rewrite Ev, Eci, Ecp; reflexivity).
  assert (LSCB_of d = LSCB_of r) as EL by (unfold LSCB_of; rewrite Ehh, Eb; reflexivity).
  assert ((if carries_id d
           then i ← chosen_id rt2 c3 d; b ← Buf.writeUIntBE 2 i; mret (Some i, b)
           else mret (id d, [])) = JS.Returned (Some (wire_id r'), idB)) as Eid.
  { assert (if carries_id r
            then idB = Buf.be 2 (wire_id r') /\ 0 < wire_id r' < 65536
            else idB = []) as Hw.
    { unfold wire_id. rewrite Hci'. destruct (carries_id r).
      - destruct Hi as (j & _ & -> & -> & Hj). rewrite Hr'. cbn [id].
        change (default 0 (Some j)) with j. split; [reflexivity|exact Hj].
      - destruct Hi as [_ ->]. reflexivity. }
    rewrite Eci. unfold chosen_id, d. cbn [id]. set (j := wire_id r') in *.
    destruct (carries_id r).
    - destruct Hw as [-> Hj].
      destruct (Z.eqb_spec j 0); [lia|]. cbn [mbind outcome_bind JS.bind mret outcome_ret].
      unfold Buf.writeUIntBE. change (256 ^ Z.of_nat 2) with 65536.
      destruct (Z.leb_spec 0 j); [|lia]. destruct (Z.ltb_spec j 65536); [|lia]. reflexivity.
    - rewrite Hw. reflexivity. }
  split; [exists m; split; [exact Hm|lia]|].
  unfold send_prefix_table.
  rewrite Halive, Hb in Hl. unfold lengthBuffer in Hl.
  rewrite Ea, Halive, Ew, Eb, Hb. unfold lengthBuffer. rewrite Hl.
  cbn [mbind outcome_bind JS.bind].
  rewrite Eid. cbn [mbind outcome_bind JS.bind].
  fold (header_count d). rewrite Ehh, Ehc, Epb, Ehb, EM, EL, Hsize.
  destruct (has_headers r && (255 <? header_count r)) eqn:Hmany;
    [apply too_many_headers in Hmany; lia|].
  fold (path_headers_length r). rewrite Hgt.
  eexists. rewrite Hprefix, Hb. reflexivity.
Qed.

(** ** Round trip *)

(** C1 (amended): for a request with version from 1 to 63, one of the four
    primary methods, a body (possibly empty) of fewer than 2^31 bytes, a
    path without ETX, and headers whose keys have no RS and no ETX, are
    not [__proto__] and are pairwise different in their bytes, and whose
    values have one byte at least and no ETX (path, keys and values being
    the bytes of strings, which [toString] gives back as they are), and
    that [encode] accepts: the frame is parsed, on a connection with no
    reassembly in progress, into a request whose encoding under the same
    buffer size is the same byte sequence. *)
Theorem encode_decode_encode :
  forall rt c r bytes c2 rt2 c3,
    roundtrip_ready r ->
    encode rt c r = JS.Returned bytes ->
    multiPartControl c2 = ∅ ->
    bufferSize c3 = bufferSize c ->
    exists MSCB LSCB tail p,
      bytes = MSCB :: LSCB :: tail
      /\ parse_frame c2 bytes MSCB LSCB = JS.Returned p
      /\ p_completed p = true
      /\ encode rt2 c3 (p_request p) = JS.Returned bytes.
Proof.
  intros rt c r bytes c2 rt2 c3 Hr Henc Hc2 Hsize.
  destruct Hr as (Hv & (m & Hm & Hmr) & Hrest).
  destruct (primary_method_facts r m Hm Hmr) as (_ & _ & _ & _ & He).
  assert (roundtrip_ready r) as Hr by (split; [exact Hv|split; [eauto|exact Hrest]]).
  unfold encode in Henc. rewrite (send_prefix_by_table rt c r He) in Henc.
  apply bind_Returned in Henc as ([[r' prefix] b] & Hsend & Hbytes).
  injection Hbytes as <-.
  destruct (parse_frame_encoded rt c r r' prefix b [] c2 Hr Hsend)
    as (M & L & tail & Hshape & _ & Hparse); [rewrite Hc2; apply lookup_empty|].
  rewrite app_nil_r in Hshape, Hparse.
  destruct (reencode rt c r r' prefix b rt2 c3 Hr Hsend Hsize) as (Hed & d' & Hre).
  eexists M, L, tail, _. split; [exact Hshape|]. split; [exact Hparse|].
  split; [reflexivity|]. cbn [p_request].
  unfold encode. rewrite (send_prefix_by_table rt2 c3 _ Hed), Hre. reflexivity.
Qed.

Ltac not_in_list :=
  let H := fresh in
  intros H; repeat (apply elem_of_cons in H as [H|H]; [discriminate|]);
  apply elem_of_nil in H; exact H.

Lemma roundtrip_ready_request_276 : roundtrip_ready request_276.
Proof.
  split; [split; vm_compute; discriminate|].
  split; [exists 2; split; [reflexivity|lia]|].
  split; [exists [104; 105]; split; [reflexivity|reflexivity]|].
  split.
  - intros s _ [= <-]. split; [not_in_list|vm_compute; reflexivity].
  - intros h _ [= <-]. split.
    + constructor; [|constructor].
      repeat split; cbn [fst snd]; try not_in_list; try discriminate;
        vm_compute; reflexivity.
    + split; cbn.
      * constructor; [not_in_list|constructor].
      * split; [constructor|exact I].
Defined.

Lemma encode_decode_encode_witness :
  roundtrip_ready request_276
  /\ encode sample_runtime fresh_client request_276 = JS.Returned wire_276
  /\ multiPartControl fresh_client = ∅
  /\ exists p, parse_frame fresh_client wire_276 7 11 = JS.Returned p
               /\ encode sample_runtime fresh_client (p_request p) = JS.Returned wire_276.
Proof.
  split; [exact roundtrip_ready_request_276|].
  split; [vm_compute; reflexivity|]. split; [reflexivity|].
  destruct (encode_decode_encode sample_runtime fresh_client request_276 wire_276
              fresh_client sample_runtime fresh_client roundtrip_ready_request_276
              ltac:(vm_compute; reflexivity) eq_refl eq_refl)
    as (M & L & tail & p & Hshape & Hparse & _ & Hre).
  injection Hshape as <- <- _. exists p. split; assumption.
Defined.

(** C1 as stated fails.  A SIGNAL with version 1 and nothing else is
    encoded as 04 04; the request parsed from these bytes has the empty
    buffer for body, which [send] takes for a body: it is encoded as
    04 05 00.  The round trip also changes the bytes of a request whose
    header has a value without byte, of one whose path has an ETX inside,
    and of one with two keys equal up to their RS. *)
Lemma encode_decode_encode_differs :
  encode sample_runtime fresh_client signal_no_body = JS.Returned [4; 4]
  /\ encode_decode_encode_fresh signal_no_body = JS.Returned [4; 5; 0]
  /\ encode sample_runtime fresh_client signal_empty_value
     = JS.Returned [4; 7; 1; 102; 30; 3; 1; 104]
  /\ encode_decode_encode_fresh signal_empty_value
     = JS.Returned [4; 5; 4; 30; 3; 1; 104]
  /\ encode sample_runtime fresh_client signal_etx_in_path
     = JS.Returned [5; 5; 97; 3; 98; 3; 1; 104]
  /\ encode_decode_encode_fresh signal_etx_in_path
     = JS.Returned [5; 5; 97; 3; 3; 3; 1; 104]
  /\ encode sample_runtime fresh_client signal_rs_in_keys
     = JS.Returned [4; 7; 2; 97; 30; 98; 30; 99; 3; 97; 30; 100; 30; 101; 3; 1; 104]
  /\ encode_decode_encode_fresh signal_rs_in_keys
     = JS.Returned [4; 7; 1; 97; 30; 100; 30; 101; 3; 1; 104].
Proof. repeat split; vm_compute; reflexivity. Qed.

(** The two conditions on the header keys are needed as well.  A header
    named [__proto__] is not read back: the assignment makes no property,
    the parsed request has no header and is encoded as 04 05 01 68.  Of two
    keys with the same bytes the parsed request has one, with the later
    value.  In both cases the loop does not reach the announced count and
    goes on looking for headers in what follows. *)
Lemma header_keys_not_read_back :
  encode sample_runtime fresh_client signal_proto_header
  = JS.Returned [4; 7; 1; 95; 95; 112; 114; 111; 116; 111; 95; 95; 30; 120; 3; 1; 104]
  /\ (bytes ← encode sample_runtime fresh_client signal_proto_header; decode_fresh bytes)
     = JS.Returned (mkRequest (Some 1) (Some 1) (Some 0) None (Some []) (Some [104])
                              (Some 1) (Some 1) (Some 0))
  /\ encode_decode_encode_fresh signal_proto_header = JS.Returned [4; 5; 1; 104]
  /\ encode sample_runtime fresh_client signal_same_bytes_keys
     = JS.Returned [4; 7; 2; 239; 191; 189; 30; 97; 3; 239; 191; 189; 30; 98; 3; 1; 104]
  /\ encode_decode_encode_fresh signal_same_bytes_keys
     = JS.Returned [4; 7; 1; 239; 191; 189; 30; 98; 3; 1; 104].
Proof. repeat split; vm_compute; reflexivity. Qed.

(** [toString] on bytes that are UTF-8 and on bytes that are not: a
    sequence cut short gives one U+FFFD, the three bytes of a surrogate
    three, a byte that starts nothing one. *)
Lemma toString_examples :
  Buf.toString [104; 195; 169; 240; 159; 152; 128] = [104; 195; 169; 240; 159; 152; 128]
  /\ Buf.toString [226; 130] = Buf.replacement
  /\ Buf.toString [226; 130; 65] = Buf.replacement ++ [65]
  /\ Buf.toString [237; 160; 128] = Buf.replacement ++ Buf.replacement ++ Buf.replacement
  /\ Buf.toString [255; 65] = Buf.replacement ++ [65].
Proof. repeat split; vm_compute; reflexivity. Qed.

(** ** Splitting the byte stream *)







(** ** The header loop never uses up its turns *)

Lemma find_bound v l k : Buf.find v l = Some k -> (k < length l)%nat.
Proof.
  revert k. induction l as [|x l IH]; intros k; cbn; [discriminate|].
  destruct (x =? v); [intros [= <-]; lia|].
  destruct (Buf.find v l) as [k'|]; cbn; [|discriminate].
  intros [= <-]. specialize (IH k' eq_refl). lia.
Qed.

Lemma indexOf_bound buffer v from :
  0 <= from ->
  Buf.indexOf buffer v from = -1
  \/ from <= Buf.indexOf buffer v from < Buf.len buffer.
Proof.
  intros Hfrom. unfold Buf.indexOf.
  destruct (Z.ltb_spec from 0); [lia|].
  destruct (Buf.find v (drop (Z.to_nat from) buffer)) as [k|] eqn:Hk; [|left; reflexivity].
  right. apply find_bound in Hk. rewrite length_drop in Hk. unfold Buf.len. lia.
Qed.

Lemma header_loop_fuel buffer headerSize :
  forall fuel1 fuel2 hs offset,
    0 <= offset ->
    (Z.to_nat (Buf.len buffer - offset) <= fuel1)%nat ->
    (Z.to_nat (Buf.len buffer - offset) <= fuel2)%nat ->
    header_loop fuel1 buffer headerSize hs offset
    = header_loop fuel2 buffer headerSize hs offset.
Proof.
  assert (forall hs offset fuel, 0 <= offset -> Buf.len buffer - offset <= 0 ->
            header_loop fuel buffer headerSize hs offset = (hs, offset)) as Hend.
  { intros hs offset [|fuel] Hoff Hlen; [reflexivity|]. cbn [header_loop].
    destruct (indexOf_bound buffer IOT_ETX (offset + 1) ltac:(lia)) as [->|Hb]; [|lia].
    rewrite andb_false_r. reflexivity. }
  induction fuel1 as [|fuel1 IH]; intros fuel2 hs offset Hoff H1 H2.
  - rewrite (Hend hs offset fuel2) by lia. reflexivity.
  - destruct fuel2 as [|fuel2].
    + rewrite (Hend hs offset (S fuel1)) by lia. reflexivity.
    + cbn [header_loop].
      destruct (indexOf_bound buffer IOT_ETX (offset + 1) ltac:(lia)) as [->|Hb];
        [rewrite andb_false_r; reflexivity|].
      destruct (negb _ && negb _ && _); [|reflexivity].
      destruct (_ =? headerSize); [reflexivity|].
      apply IH; lia.
Qed.

(** With as many turns as the buffer has bytes, any larger number of turns
    gives the same headers and offset. *)
Lemma header_loop_enough buffer headerSize hs offset fuel :
  0 <= offset -> (length buffer <= fuel)%nat ->
  header_loop fuel buffer headerSize hs offset
  = header_loop (length buffer) buffer headerSize hs offset.
Proof.
  intros Hoff Hfuel. apply header_loop_fuel; [assumption| |]; unfold Buf.len; lia.
Qed.

(** ** The writer loop when the prefix leaves room for the body *)


Lemma writes_app tr1 tr2 : writes (tr1 ++ tr2) = writes tr1 ++ writes tr2.
Proof. apply omap_app. Qed.



(** The STREAMING body of 1500 bytes at buffer size 1024, with an id and
    neither path nor header (prefix of 8 bytes): two writes, of 1024 and of
    492 bytes. *)
Lemma send_streaming_1500 :
  exists c r tr,
    send default_proto sample_runtime 2 fresh_client streaming_1500 None
      = Some (c, JS.Returned r, tr)
    /\ map Buf.len (writes tr) = [1024; 492]
    /\ parts r = Some 2.
Proof. eexists _, _, _. split; [vm_compute; reflexivity|split; reflexivity]. Qed.

(** * Further properties of the engine *)
(** ** Request ids *)

Lemma generateRequestId_inv c readings i :
  generateRequestId c readings = JS.Returned i ->
  i <> 0 /\ requestResponse c !! Some i = None
  /\ exists now, now ∈ readings /\ i = Z.rem now 10000.
Proof.
  induction readings as [|now later IH]; cbn [generateRequestId]; [discriminate|].
  destruct (requestResponse c !! Some (Z.rem now 10000)) as [d|] eqn:Hd; cbn [defined orb].
  - intros H. destruct (IH H) as (H0 & Hn & t & Ht & Hi).
    split; [exact H0|]. split; [exact Hn|]. exists t. split; [right; exact Ht|exact Hi].
  - destruct (Z.eqb_spec (Z.rem now 10000) 0) as [Hz|Hz].
    + intros H. destruct (IH H) as (H0 & Hn & t & Ht & Hi).
      split; [exact H0|]. split; [exact Hn|]. exists t. split; [right; exact Ht|exact Hi].
    + intros [= <-]. split; [exact Hz|]. split; [exact Hd|].
      exists now. split; [left|reflexivity].
Qed.

(** X1: an id returned by [generateRequestId] is not 0, has no pending
    descriptor on the connection, and, the clock being non-negative, lies
    from 1 to 9999. *)
Theorem generateRequestId_fresh c readings i :
  Forall (fun now => 0 <= now) readings ->
  generateRequestId c readings = JS.Returned i ->
  1 <= i <= 9999 /\ requestResponse c !! Some i = None.
Proof.
  intros Hpos H. destruct (generateRequestId_inv c readings i H) as (H0 & Hn & t & Ht & ->).
  split; [|exact Hn].
  rewrite Forall_forall in Hpos. pose proof (Hpos t Ht) as Htpos.
  pose proof (Z.rem_bound_pos t 10000 Htpos ltac:(lia)). lia.
Qed.

Lemma generateRequestId_fresh_witness :
  Forall (fun now => 0 <= now) (clock sample_runtime)
  /\ generateRequestId fresh_client (clock sample_runtime) = JS.Returned 123
  /\ 1 <= 123 <= 9999 /\ requestResponse fresh_client !! Some 123 = None.
Proof.
  assert (Forall (fun now => 0 <= now) (clock sample_runtime)) as Hc
    by (repeat constructor; vm_compute; discriminate).
  assert (generateRequestId fresh_client (clock sample_runtime) = JS.Returned 123) as Hg
    by (vm_compute; reflexivity).
  split; [exact Hc|]. split; [exact Hg|].
  exact (generateRequestId_fresh fresh_client (clock sample_runtime) 123 Hc Hg).
Defined.

(** X2: when the engine allocates the id (the caller gave none, or 0) and a
    descriptor comes with the request, the call of [send] keeps every
    descriptor that was pending: the new one is filed under a free id. *)
Theorem send_allocated_id_keeps_pending proto rt c r rr k d :
  carries_id r = true ->
  default 0 (id r) = 0 ->
  requestResponse c !! k = Some d ->
  requestResponse (fst (send_call proto rt c r (Some rr))) !! k = Some d.
Proof.
  intros Hci Hid Hk. unfold send_call.
  destruct (send_prefix rt c r) as [[[r' prefix] bd]|e] eqn:Hs; [|exact Hk].
  assert (enum_method r) as Henum.
  { unfold carries_id, is_method in Hci. unfold enum_method.
    destruct (method r) as [m|]; [|discriminate].
    exists m. split; [reflexivity|].
    destruct (Z.eqb_spec m EIoTMethod.REQUEST); [unfold EIoTMethod.REQUEST in *; lia|].
    destruct (Z.eqb_spec m EIoTMethod.RESPONSE); [unfold EIoTMethod.RESPONSE in *; lia|].
    destruct (Z.eqb_spec m EIoTMethod.STREAMING); [unfold EIoTMethod.STREAMING in *; lia|].
    discriminate. }
  rewrite (send_prefix_by_table rt c r Henum) in Hs.
  apply send_prefix_table_inv in Hs as (l & i' & idB & _ & Hi & _ & _ & Hr' & _ & _).
  apply id_step_inv in Hi. rewrite Hci in Hi. destruct Hi as (i & Hch & -> & _ & _).
  assert (generateRequestId c (clock rt) = JS.Returned i) as Hgen.
  { unfold chosen_id in Hch. destruct (id r) as [j|]; [|exact Hch].
    change (default 0 (Some j)) with j in Hid. subst j. exact Hch. }
  destruct (generateRequestId_inv c (clock rt) i Hgen) as (_ & Hfree & _).
  assert (k <> Some i) as Hne by (intros ->; congruence).
  assert (id r' = Some i) as Hid' by (rewrite Hr'; reflexivity).
  unfold register.
  destruct (lockedForWrite _);
    cbn [fst set_lockedForWrite set_requestResponse requestResponse];
    rewrite Hid', lookup_insert_ne by congruence; exact Hk.
Qed.

Lemma send_allocated_id_keeps_pending_witness :
  carries_id request_no_id = true
  /\ default 0 (id request_no_id) = 0
  /\ requestResponse
       (fst (send_call default_proto sample_runtime pending_123 request_no_id
               (Some host_descriptor))) !! Some 123
     = Some (mkRequestResponse (Some (hostOnResponse 0)) (Some (hostOnTimeout 0))
                               (Some 1000) None).
Proof.
  split; [reflexivity|]. split; [reflexivity|].
  apply send_allocated_id_keeps_pending; [reflexivity|reflexivity|].
  vm_compute. reflexivity.
Defined.

(** ** The writer below the size boundary *)




(** ** Fragments of one body *)

(** [/* BODY */] on a fragment: the length field announces [L] bytes, the
    buffer carries [slice], and the reassembly entry of the id (a fresh one
    when there is none) has room for it. *)
Lemma parse_body_fragment c buffer pre Lb m i w L slice :
  buffer = pre ++ Buf.be w L ++ slice ->
  negb (JS.band Lb IOT_LSCB_BODY =? 0) = true ->
  bodyLengthSize m = w -> (w <= 4)%nat ->
  0 <= L < 256 ^ Z.of_nat w -> L < 2 ^ 31 ->
  let e := default (mkMultiPart 0 0 IOT_MULTIPART_TIMEOUT) (multiPartControl c !! i) in
  received e + Buf.len slice <= L ->
  parse_body c buffer Lb m i (Buf.len pre - 1)
  = (set_multiPartControl c
       (if negb (received e + Buf.len slice <? L) then delete i (multiPartControl c)
        else <[ i := mkMultiPart (mp_parts e + 1) (received e + Buf.len slice)
                                 IOT_MULTIPART_TIMEOUT ]> (multiPartControl c)),
     (slice, Buf.len slice, L), negb (received e + Buf.len slice <? L),
     [E_multiPartTimeout i]).
Proof.
  intros Hbuf Hflag Hw Hw4 Hfit Hsmall e Hroom. unfold parse_body. rewrite Hflag, Hw.
  pose proof (len_nonneg slice) as Hs0.
  rewrite (readBodyLength_be w buffer pre slice L 0 Hbuf Hw4 ltac:(lia))
    by (rewrite Z.mod_small by lia; exact Hsmall).
  rewrite Z.mod_small by lia. fold e.
  set (P := pre ++ Buf.be w L).
  assert (Buf.len pre - 1 + Z.of_nat w + 1 = Buf.len P) as ->
    by (unfold P; rewrite len_app; unfold Buf.len at 3; rewrite length_be; lia).
  assert (buffer = P ++ slice ++ []) as HbP
    by (rewrite Hbuf, app_nil_r; unfold P; rewrite <- app_assoc; reflexivity).
  assert (Buf.len buffer = Buf.len P + Buf.len slice) as Hlen
    by (rewrite HbP, app_nil_r, len_app; lia).
  cbn [received mp_parts].
  assert ((if Buf.len buffer <? Buf.len P + (0 + L) - received e
           then Buf.len buffer else Buf.len P + (0 + L) - received e)
          = Buf.len P + Buf.len slice) as ->.
  { destruct (Z.ltb_spec (Buf.len buffer) (Buf.len P + (0 + L) - received e)); lia. }
  replace (Buf.len P + Buf.len slice - Buf.len P) with (Buf.len slice) by lia.
  replace (0 + L) with L by lia.
  replace (Buf.len buffer - Buf.len P) with (Buf.len slice) by lia.
  rewrite Z.ltb_irrefl.
  rewrite (subarray_at buffer P slice [] HbP).
  destruct (received e + Buf.len slice <? L); reflexivity.
Qed.

(** The request that [onData] builds from one fragment of the frame of [r]:
    the prefix of [send] followed by [slice]. *)
Lemma parse_frame_fragment rt c r r' prefix b slice c2 :
  roundtrip_ready r ->
  send_prefix_table rt c r = JS.Returned (r', prefix, b) ->
  let e := default (mkMultiPart 0 0 IOT_MULTIPART_TIMEOUT)
                   (multiPartControl c2 !! wire_id r') in
  received e + Buf.len slice <= Buf.len b ->
  exists M L tail,
    prefix ++ slice = M :: L :: tail
    /\ JS.shr L 2 <> EIoTMethod.ALIVE_REQUEST
    /\ parse_frame c2 (prefix ++ slice) M L
       = JS.Returned
           (mkParsed
              (set_multiPartControl c2
                 (if negb (received e + Buf.len slice <? Buf.len b)
                  then delete (wire_id r') (multiPartControl c2)
                  else <[ wire_id r' := mkMultiPart (mp_parts e + 1)
                                          (received e + Buf.len slice)
                                          IOT_MULTIPART_TIMEOUT ]>
                         (multiPartControl c2)))
              (fragment_request r (wire_id r') (Buf.len b) slice)
              (negb (received e + Buf.len slice <? Buf.len b))
              [E_multiPartTimeout (wire_id r')]).
Proof.
  intros (Hv & (m & Hm & Hmr) & (b0 & Hb & Hbsmall) & Hpath & Hhdr) Hsend e Hroom.
  destruct (primary_method_facts r m Hm Hmr) as (Halive & Hwidth & Hw4 & Hnotalive & _).
  apply send_prefix_table_inv in Hsend
    as (l & i' & idB & Hl & Hi & Hcount & _ & Hr' & Hprefix & Hbd).
  rewrite Hb in Hbd. change (b = b0) in Hbd. subst b0.
  rewrite Halive, Hb in Hl. unfold lengthBuffer, Buf.writeUIntBE in Hl.
  destruct ((0 <=? Buf.len b) && (Buf.len b <? 256 ^ Z.of_nat (length_width r))) eqn:Hfit;
    [|discriminate].
  injection Hl as <-. apply andb_true_iff in Hfit as [_ Hfit]. apply Z.ltb_lt in Hfit.
  apply id_step_inv in Hi.
  assert (carries_id r' = carries_id r) as Hci'
    by (rewrite Hr'; unfold carries_id, is_method; reflexivity).
  set (i := wire_id r') in *.
  assert (idB = (if carries_id r then Buf.be 2 i else []) /\ 0 <= i < 65536) as [HidB Hirange].
  { unfold i, wire_id. rewrite Hci'. destruct (carries_id r).
    - destruct Hi as (j & _ & -> & -> & Hj). rewrite Hr'. cbn [id].
      change (default 0 (Some j)) with j. split; [reflexivity|lia].
    - destruct Hi as [_ ->]. split; [reflexivity|lia]. }
  destruct (control_byte (version_of r) (carries_id r) (carries_path r) ltac:(lia)) as [HMmod HMshr].
  destruct (control_byte m (has_headers r) (defined (body r)) ltac:(lia)) as [HLmod HLshr].
  destruct (band_MSCB_flags (version_of r) (carries_id r) (carries_path r)) as [HMid HMpath].
  destruct (band_LSCB_flags (method r) (has_headers r) (defined (body r))) as [HLhdr HLbody].
  set (M := MSCB_of r) in *. set (L := LSCB_of r) in *.
  assert (M mod 256 = M) as HM1 by exact HMmod.
  assert (L mod 256 = L) as HL1 by (unfold L, LSCB_of; rewrite Hm; exact HLmod).
  assert (JS.shr M 2 = version_of r) as HM2 by exact HMshr.
  assert (JS.shr L 2 = m) as HL2 by (unfold L, LSCB_of; rewrite Hm; exact HLshr).
  rewrite HM1, HL1 in Hprefix. rewrite Hb in Hprefix. cbn [defined] in Hprefix.
  set (pathB := pathBuffer_of r) in *. set (headerB := headerBuffer_of r) in *.
  set (lenB := Buf.be (length_width r) (Buf.len b)) in *.
  set (buffer := prefix ++ slice).
  assert (buffer = [M; L] ++ idB ++ pathB ++ headerB ++ lenB ++ slice) as Hbuf
    by (unfold buffer; rewrite Hprefix, <- !app_assoc; reflexivity).
  exists M, L, (idB ++ pathB ++ headerB ++ lenB ++ slice).
  split; [exact Hbuf|]. split; [rewrite HL2; exact Hnotalive|].
  unfold parse_frame.
  rewrite (parse_id_encoded buffer M L (carries_id r) i (pathB ++ headerB ++ lenB ++ slice))
    by (try assumption; rewrite Hbuf, HidB; reflexivity).
  cbn [mbind outcome_bind JS.bind mret outcome_ret].
  rewrite <- HidB.
  rewrite (parse_path_encoded buffer M ([M; L] ++ idB) (carries_path r)
             (default [] (path r)) (headerB ++ lenB ++ slice)).
  2:{ rewrite Hbuf, <- !app_assoc. reflexivity. }
  2:{ exact HMpath. }
  2:{ intros Hcp. destruct (carries_path_Some r Hcp) as (s & Hs & _).
      rewrite Hs. change (default [] (Some s)) with s. exact (Hpath s Hcp Hs). }
  change (if carries_path r then default [] (path r) ++ [IOT_ETX] else []) with pathB.
  rewrite (parse_headers_encoded buffer L (([M; L] ++ idB) ++ pathB) (has_headers r)
             (default [] (headers r)) (lenB ++ slice)).
  2:{ rewrite Hbuf, <- !app_assoc. reflexivity. }
  2:{ exact HLhdr. }
  2:{ intros Hh. destruct (has_headers_Some r Hh) as (h & Hhs & Hne).
      rewrite Hhs. change (default [] (Some h)) with h.
      destruct (Hhdr h Hh Hhs) as [Hok Hwf].
      split; [exact Hne|split; [exact Hok|exact Hwf]]. }
  2:{ rewrite !len_app. pose proof (len_nonneg idB). pose proof (len_nonneg pathB).
      change (Buf.len [M; L]) with 2. lia. }
  change (if has_headers r
          then [Z.of_nat (length (Obj.keys (default [] (headers r))))]
               ++ concat (map encodeHeader (default [] (headers r)))
          else []) with headerB.
  cbn [mbind outcome_bind JS.bind mret outcome_ret].
  rewrite HL2.
  assert ((if carries_id r then i else 0) = i) as ->
    by (unfold i, wire_id; rewrite Hci'; destruct (carries_id r); reflexivity).
  pose proof (len_nonneg b) as Hb0.
  rewrite (parse_body_fragment c2 buffer ((([M; L] ++ idB) ++ pathB) ++ headerB) L m
             i (length_width r) (Buf.len b) slice).
  2:{ rewrite Hbuf, <- !app_assoc. reflexivity. }
  2:{ transitivity (defined (body r)); [exact HLbody|rewrite Hb; reflexivity]. }
  2:{ exact Hwidth. }
  2:{ exact Hw4. }
  2:{ lia. }
  2:{ exact Hbsmall. }
  2:{ exact Hroom. }
  fold e. rewrite HM2, <- Hm. unfold fragment_request.
  f_equal. f_equal. f_equal.
  - destruct (carries_path r) eqn:Hcp; [|reflexivity].
    destruct (carries_path_Some r Hcp) as (s & Hs & _). rewrite Hs. reflexivity.
  - destruct (has_headers r) eqn:Hh; [|reflexivity].
    destruct (has_headers_Some r Hh) as (h & Hhs & _). rewrite Hhs. reflexivity.
Qed.

Lemma is_method_fragment_request r wid total slice m :
  is_method (fragment_request r wid total slice) m = is_method r m.
Proof. reflexivity. Qed.

Lemma middleware_method r :
  roundtrip_ready r -> is_method r EIoTMethod.RESPONSE = false ->
  is_method r EIoTMethod.SIGNAL || is_method r EIoTMethod.REQUEST
  || is_method r EIoTMethod.STREAMING = true
  /\ is_method r EIoTMethod.BUFFER_SIZE_REQUEST = false.
Proof.
  intros (_ & (m & Hm & Hr) & _) H3. unfold is_method in *. rewrite Hm in *.
  assert (m = 1 \/ m = 2 \/ m = 3 \/ m = 4) as [->|[->|[->| ->]]] by lia;
    try discriminate; split; reflexivity.
Qed.

(** [onData] on one fragment, no descriptor pending under its id: the
    reassembly entry is moved on and the fragment goes to the middlewares. *)
Lemma onData_fragment proto rt rt0 c0 c r r' prefix b slice :
  roundtrip_ready r -> is_method r EIoTMethod.RESPONSE = false ->
  send_prefix_table rt0 c0 r = JS.Returned (r', prefix, b) ->
  requestResponse c !! Some (wire_id r') = None ->
  let e := default (mkMultiPart 0 0 IOT_MULTIPART_TIMEOUT)
                   (multiPartControl c !! wire_id r') in
  received e + Buf.len slice <= Buf.len b ->
  onData proto rt c (prefix ++ slice)
  = JS.Returned
      (set_multiPartControl c
         (if negb (received e + Buf.len slice <? Buf.len b)
          then delete (wire_id r') (multiPartControl c)
          else <[ wire_id r' := mkMultiPart (mp_parts e + 1) (received e + Buf.len slice)
                                            IOT_MULTIPART_TIMEOUT ]>
                 (multiPartControl c)),
       [E_multiPartTimeout (wire_id r');
        E_runMiddleware (fragment_request r (wire_id r') (Buf.len b) slice);
        E_scheduleNextAliveRequest]).
Proof.
  intros Hready H3 Hsend Hnone e Hroom.
  destruct (parse_frame_fragment rt0 c0 r r' prefix b slice c Hready Hsend Hroom)
    as (M & L & tail & Heq & Hna & Hp).
  destruct (middleware_method r Hready H3) as [Hmw Hbs].
  rewrite Heq in *. unfold onData.
  destruct (Z.eqb_spec (JS.shr L 2) EIoTMethod.ALIVE_REQUEST) as [|_]; [done|].
  rewrite Hp. cbn [mbind outcome_bind JS.bind mret outcome_ret].
  unfold dispatch.
  cbn [p_client p_request p_completed p_effects requestResponse set_multiPartControl].
  change (id (fragment_request r (wire_id r') (Buf.len b) slice)) with (Some (wire_id r')).
  rewrite Hnone, !is_method_fragment_request, Hmw, Hbs. reflexivity.
Qed.

Lemma delivered_app tr1 tr2 : delivered (tr1 ++ tr2) = delivered tr1 ++ delivered tr2.
Proof. apply omap_app. Qed.





(** ** Buffer-size negotiation *)

(** The four bytes of [writeUint32BE(size)] read back with [<<] and [+]:
    the value itself below 2^31, and 2^32 less from there on. *)
Lemma bufferSizeOfBody_be size :
  0 <= size < 2 ^ 32 ->
  bufferSizeOfBody (Buf.be 4 size)
  = JS.Num (if size <? 2 ^ 31 then size else size - 2 ^ 32).
Proof.
  intros Hsize. unfold bufferSizeOfBody.
  change (Buf.get (Buf.be 4 size) 0) with (Some ((size / 256 ^ 3) mod 256)).
  change (Buf.get (Buf.be 4 size) 1) with (Some ((size / 256 ^ 2) mod 256)).
  change (Buf.get (Buf.be 4 size) 2) with (Some ((size / 256 ^ 1) mod 256)).
  change (Buf.get (Buf.be 4 size) 3) with (Some ((size / 256 ^ 0) mod 256)).
  cbn [JS.shl_u JS.add_u].
  change (2 ^ 32) with 4294967296 in *. change (2 ^ 31) with 2147483648.
  change (256 ^ 3) with 16777216. change (256 ^ 2) with 65536.
  change (256 ^ 1) with 256. change (256 ^ 0) with 1.
  rewrite Z.div_1_r.
  set (b0 := (size / 16777216) mod 256). set (b1 := (size / 65536) mod 256).
  set (b2 := (size / 256) mod 256). set (b3 := size mod 256).
  assert (0 <= b0 < 256 /\ 0 <= b1 < 256 /\ 0 <= b2 < 256 /\ 0 <= b3 < 256)
    as (H0 & H1 & H2 & H3) by (unfold b0, b1, b2, b3; repeat split; apply Z.mod_pos_bound; lia).
  assert (size = b0 * 16777216 + b1 * 65536 + b2 * 256 + b3) as Hdec.
  { unfold b0, b1, b2, b3.
    pose proof (Z.div_mod size 256 ltac:(lia)) as E1.
    pose proof (Z.div_mod (size / 256) 256 ltac:(lia)) as E2.
    pose proof (Z.div_mod (size / 256 / 256) 256 ltac:(lia)) as E3.
    rewrite (Z.div_div size 256 256) in E2, E3 by lia.
    change (256 * 256) with 65536 in E2, E3.
    rewrite (Z.div_div size 65536 256) in E3 by lia.
    change (65536 * 256) with 16777216 in E3.
    assert (size / 16777216 < 256) as Hq by (apply Z.div_lt_upper_bound; lia).
    assert (0 <= size / 16777216) as Hq0 by (apply Z.div_pos; lia).
    rewrite (Z.mod_small (size / 16777216) 256) in * by lia. lia. }
  assert (JS.shl b1 16 = b1 * 65536) as ->
    by (apply (shl_byte b1 2); [lia|lia|change (256 ^ Z.of_nat 2) with 65536;
                                         change (2 ^ 31) with 2147483648; lia]).
  assert (JS.shl b2 8 = b2 * 256) as ->
    by (apply (shl_byte b2 1); [lia|lia|change (256 ^ Z.of_nat 1) with 256;
                                         change (2 ^ 31) with 2147483648; lia]).
  assert (JS.shl b0 24 = if b0 <? 128 then b0 * 16777216 else b0 * 16777216 - 4294967296)
    as ->.
  { unfold JS.shl. change (24 mod 32) with 24.
    rewrite (ToInt32_small b0) by (change (2 ^ 31) with 2147483648; lia).
    rewrite Z.shiftl_mul_pow2 by lia. change (2 ^ 24) with 16777216.
    unfold JS.ToInt32. change (2 ^ 31) with 2147483648. change (2 ^ 32) with 4294967296.
    destruct (Z.ltb_spec b0 128).
    - rewrite Z.mod_small by lia. lia.
    - replace (b0 * 16777216 + 2147483648)
        with (b0 * 16777216 - 2147483648 + 1 * 4294967296) by lia.
      rewrite Z.mod_add by lia. rewrite Z.mod_small by lia. lia. }
  f_equal.
  destruct (Z.ltb_spec b0 128); destruct (Z.ltb_spec size 2147483648); lia.
Qed.

(** A frame of the buffer-size methods: control bytes, length 4, four
    bytes of body; neither id nor path nor header. *)
Lemma parse_frame_bufferSize c L (body4 : Buffer) :
  L = 29 \/ L = 33 -> length body4 = 4%nat ->
  multiPartControl c !! 0 = None ->
  parse_frame c ([4; L; 4] ++ body4) 4 L
  = JS.Returned
      (mkParsed (set_multiPartControl c (delete 0 (multiPartControl c)))
         (mkRequest (Some 1) (Some (JS.shr L 2)) (Some 0) None None (Some body4)
                    (Some 4) (Some 4) (Some 0))
         true [E_multiPartTimeout 0]).
Proof.
  intros HL Hlen Hnone.
  assert (Buf.len body4 = 4) as Hlen4 by (unfold Buf.len; rewrite Hlen; reflexivity).
  pose proof (parse_body_fragment c ([4; L; 4] ++ body4) [4; L] L (JS.shr L 2) 0 1%nat 4 body4)
    as Hbody.
  cbv zeta in Hbody. rewrite Hnone, Hlen4 in Hbody.
  cbn [from_option] in Hbody. unfold Datatypes.id in Hbody. cbn [received mp_parts] in Hbody.
  change (0 + 4 <? 4) with false in Hbody. cbn [negb] in Hbody.
  change (Buf.len [4; L] - 1) with 1 in Hbody.
  unfold parse_frame, parse_id, parse_path, parse_headers.
  destruct HL as [-> | ->];
    [change (JS.shr 29 2) with 7 in Hbody|change (JS.shr 33 2) with 8 in Hbody]; js_eval;
    cbn [negb andb Z.eqb mbind outcome_bind JS.bind mret outcome_ret];
    (rewrite Hbody; [reflexivity|reflexivity|reflexivity|reflexivity|lia|
                     vm_compute; split; [discriminate|reflexivity]|reflexivity|lia]).
Qed.

(** The prefix that [send] builds for the two buffer-size methods. *)
Lemma send_prefix_bufferSize rt c m i (body4 : Buffer) :
  m = 7 \/ m = 8 -> length body4 = 4%nat ->
  send_prefix rt c (mkRequest None (Some m) i None None (Some body4) None None None)
  = if JS.gt 0 (JS.sub (bufferSize c) 8) then JS.Thrown JS.Error_PathAndHeadersTooBig
    else JS.Returned (mkRequest (Some 1) (Some m) i None None (Some body4) None None None,
                      [4; m * 4 + 1; 4], body4).
Proof.
  intros Hm Hlen.
  assert (Buf.len body4 = 4) as Hlen4 by (unfold Buf.len; rewrite Hlen; reflexivity).
  unfold send_prefix, send_switch, lengthBuffer, Buf.writeUIntBE.
  cbn [version method id path headers body bodyLength totalBodyLength parts].
  rewrite Hlen4.
  destruct Hm as [-> | ->]; cbn -[JS.gt JS.sub JS.band JS.shl];
    change (4 <? 256 ^ Z.of_nat 1) with true;
    cbn -[JS.gt JS.sub JS.band JS.shl]; js_eval;
    cbn -[JS.gt JS.sub]; change (Buf.len [] + Buf.len []) with 0;
    destruct (JS.gt 0 (JS.sub (bufferSize c) 8)); reflexivity.
Qed.

(** The dispatch step writes nothing and leaves the write lock, the
    reassembly table and the remainder alone. *)
Lemma dispatch_frame c request completed :
  let c' := fst (dispatch c request completed) in
  lockedForWrite c' = lockedForWrite c
  /\ multiPartControl c' = multiPartControl c
  /\ remainBuffer c' = remainBuffer c
  /\ writes (snd (dispatch c request completed)) = [].
Proof.
  unfold dispatch. destruct (requestResponse c !! id request) as [d|].
  - destruct (onResponse d) as [[|tag]|]; unfold run_onResponse;
      repeat match goal with |- context [if ?b then _ else _] => destruct b end;
      repeat split.
  - destruct (_ || _); repeat split.
Qed.

Lemma bufferSizeRequest_inv size r rr :
  bufferSizeRequest size = JS.Returned (r, rr) ->
  0 <= size < 2 ^ 32
  /\ r = mkRequest None (Some 7) None None None (Some (Buf.be 4 size)) None None None
  /\ rr = mkRequestResponse (Some onBufferSizeResponse) None None None.
Proof.
  unfold bufferSizeRequest, Buf.writeUIntBE.
  destruct (Z.leb_spec 0 size); destruct (Z.ltb_spec size (256 ^ Z.of_nat 4));
    cbn [andb mbind outcome_bind JS.bind mret outcome_ret]; try discriminate.
  intros [= <- <-]. change (256 ^ Z.of_nat 4) with (2 ^ 32) in *.
  split; [lia|split; reflexivity].
Qed.

(** [onData] on a BUFFER_SIZE_REQUEST frame with four bytes of body. *)
Lemma onData_bufferSizeRequest proto rt c (body4 : Buffer) :
  length body4 = 4%nat -> multiPartControl c !! 0 = None ->
  exists c1 tr1,
    lockedForWrite c1 = lockedForWrite c /\ writes tr1 = []
    /\ onData proto rt c ([4; 29; 4] ++ body4)
       = JS.Returned
           (let c2 := set_bufferSize c1 (bufferSizeOfBody body4) in
            let request := mkRequest None (Some 8) (Some 0) None None (Some body4)
                                     None None None in
            (fst (send_call proto rt c2 request None),
             tr1 ++ snd (send_call proto rt c2 request None))).
Proof.
  intros Hlen Hnone.
  pose proof (parse_frame_bufferSize c 29 body4 (or_introl eq_refl) Hlen Hnone) as Hp.
  change (JS.shr 29 2) with 7 in Hp.
  set (p := mkParsed _ _ _ _) in Hp.
  destruct (dispatch_frame (p_client p) (p_request p) (p_completed p))
    as (Hlock & _ & _ & Hw).
  exists (fst (dispatch (p_client p) (p_request p) (p_completed p))),
         (p_effects p ++ snd (dispatch (p_client p) (p_request p) (p_completed p))
            ++ [E_scheduleNextAliveRequest]).
  split; [exact Hlock|]. split.
  { rewrite !writes_app, Hw. reflexivity. }
  change ([4; 29; 4] ++ body4) with (4 :: 29 :: 4 :: body4) in *.
  unfold onData. change (JS.shr 29 2 =? EIoTMethod.ALIVE_REQUEST) with false.
  cbv iota. rewrite Hp. cbn [mbind outcome_bind JS.bind mret outcome_ret].
  destruct (dispatch (p_client p) (p_request p) (p_completed p)) as [c1 dl].
  cbn [fst snd]. change (is_method (p_request p) EIoTMethod.BUFFER_SIZE_REQUEST) with true.
  cbv iota.
  change (bufferSizeResponse (p_request p))
    with (mkRequest None (Some 8) (Some 0) None None (Some body4) None None None).
  change (default [] (body (p_request p))) with body4.
  destruct (send_call proto rt _ _ None) as [c3 sent]. reflexivity.
Qed.

Lemma encode_bufferSizeRequest rt c size r rr frame :
  bufferSizeRequest size = JS.Returned (r, rr) ->
  encode rt c r = JS.Returned frame ->
  0 <= size < 2 ^ 32 /\ frame = [4; 29; 4] ++ Buf.be 4 size.
Proof.
  intros Hr He. destruct (bufferSizeRequest_inv size r rr Hr) as (Hsize & -> & _).
  split; [exact Hsize|]. unfold encode in He.
  rewrite (send_prefix_bufferSize rt c 7 None (Buf.be 4 size) (or_introl eq_refl)
             (length_be 4 size)) in He.
  destruct (JS.gt 0 (JS.sub (bufferSize c) 8)); [discriminate|].
  injection He as <-. reflexivity.
Qed.

(** X5: a BUFFER_SIZE_REQUEST for a size from 8 up to 2^31 - 1, as
    [bufferSizeRequest] puts it on the wire, makes the receiving connection
    (no reassembly entry under id 0, write lock free) take that size and
    write the response frame, which carries the same four bytes. *)
Theorem bufferSize_request_applied proto rt rt0 c0 c size r rr frame :
  bufferSizeRequest size = JS.Returned (r, rr) ->
  encode rt0 c0 r = JS.Returned frame ->
  8 <= size < 2 ^ 31 ->
  multiPartControl c !! 0 = None ->
  lockedForWrite c = false ->
  exists c' tr,
    onData proto rt c frame = JS.Returned (c', tr)
    /\ bufferSize c' = JS.Num size
    /\ writes tr = [[4; 33; 4] ++ Buf.be 4 size].
Proof.
  intros Hr He Hsize Hnone Hlock.
  destruct (encode_bufferSizeRequest rt0 c0 size r rr frame Hr He) as (H32 & ->).
  destruct (onData_bufferSizeRequest proto rt c (Buf.be 4 size) (length_be 4 size) Hnone)
    as (c1 & tr1 & Hl1 & Hw1 & ->).
  rewrite (bufferSizeOfBody_be size H32).
  destruct (Z.ltb_spec size (2 ^ 31)) as [_|]; [|lia].
  cbv zeta. set (c2 := set_bufferSize c1 (JS.Num size)).
  eexists _, _. split; [reflexivity|].
  pose proof (send_call_None_frame proto rt c2
                (mkRequest None (Some 8) (Some 0) None None (Some (Buf.be 4 size))
                           None None None)) as (Hbs & _).
  cbv zeta in Hbs. split; [rewrite Hbs; reflexivity|].
  rewrite writes_app, Hw1. unfold send_call.
  rewrite (send_prefix_bufferSize rt c2 8 (Some 0) (Buf.be 4 size) (or_intror eq_refl)
             (length_be 4 size)).
  assert (JS.gt 0 (JS.sub (bufferSize c2) 8) = false) as ->
    by (unfold c2; cbn [bufferSize set_bufferSize JS.sub JS.gt]; apply Z.ltb_ge; lia).
  unfold register.
  assert (lockedForWrite c2 = false) as -> by (unfold c2; cbn; rewrite Hl1; exact Hlock).
  cbn [snd app writes omap].
  unfold writeBodyPart_step. change (bufferSize c2) with (JS.Num size).
  change (Buf.len (Buf.be 4 size)) with 4. change (Buf.len [4; 8 * 4 + 1; 4]) with 3.
  cbn [JS.gt fst]. destruct (Z.ltb_spec size (4 - 0 + 3)) as [|_]; [lia|].
  change (Buf.subarray (Buf.be 4 size) 0 (0 + (4 - 0))) with (Buf.be 4 size).
  reflexivity.
Qed.

Lemma bufferSize_request_applied_witness :
  exists c' tr,
    onData default_proto sample_runtime fresh_client [4; 29; 4; 0; 0; 2; 0]
    = JS.Returned (c', tr)
    /\ bufferSize c' = JS.Num 512
    /\ writes tr = [[4; 33; 4] ++ Buf.be 4 512].
Proof.
  apply (bufferSize_request_applied default_proto sample_runtime sample_runtime fresh_client
           fresh_client 512
           (mkRequest None (Some 7) None None None (Some [0; 0; 2; 0]) None None None)
           (mkRequestResponse (Some onBufferSizeResponse) None None None)).
  - vm_compute. reflexivity.
  - vm_compute. reflexivity.
  - vm_compute. split; [discriminate|reflexivity].
  - reflexivity.
  - reflexivity.
Defined.

(** X6: a requested size that the receiver reads as less than 8 (a size
    below 8, or one from 2^31 up, which the shifts turn negative) is stored
    as read, and the response is refused by [send]: nothing is written. *)
Theorem bufferSize_request_refused proto rt rt0 c0 c size r rr frame :
  bufferSizeRequest size = JS.Returned (r, rr) ->
  encode rt0 c0 r = JS.Returned frame ->
  size < 8 \/ 2 ^ 31 <= size ->
  multiPartControl c !! 0 = None ->
  exists c' tr,
    onData proto rt c frame = JS.Returned (c', tr)
    /\ bufferSize c' = JS.Num (if size <? 2 ^ 31 then size else size - 2 ^ 32)
    /\ writes tr = []
    /\ E_rejected JS.Error_PathAndHeadersTooBig ∈ tr.
Proof.
  intros Hr He Hsize Hnone.
  destruct (encode_bufferSizeRequest rt0 c0 size r rr frame Hr He) as (H32 & ->).
  destruct (onData_bufferSizeRequest proto rt c (Buf.be 4 size) (length_be 4 size) Hnone)
    as (c1 & tr1 & Hl1 & Hw1 & ->).
  rewrite (bufferSizeOfBody_be size H32).
  set (v := if size <? 2 ^ 31 then size else size - 2 ^ 32).
  assert (v < 8) as Hv.
  { unfold v. change (2 ^ 31) with 2147483648 in *. change (2 ^ 32) with 4294967296 in *.
    destruct (Z.ltb_spec size 2147483648); lia. }
  cbv zeta. set (c2 := set_bufferSize c1 (JS.Num v)).
  eexists _, _. split; [reflexivity|].
  assert (send_call proto rt c2
            (mkRequest None (Some 8) (Some 0) None None (Some (Buf.be 4 size))
                       None None None) None
          = (c2, [E_rejected JS.Error_PathAndHeadersTooBig])) as ->.
  { unfold send_call.
    rewrite (send_prefix_bufferSize rt c2 8 (Some 0) (Buf.be 4 size) (or_intror eq_refl)
               (length_be 4 size)).
    unfold c2. cbn [bufferSize set_bufferSize JS.sub JS.gt].
    destruct (Z.ltb_spec (v - 8) 0) as [_|]; [reflexivity|lia]. }
  cbn [fst snd]. split; [reflexivity|]. split.
  - rewrite writes_app, Hw1. reflexivity.
  - apply elem_of_app. right. apply list_elem_of_singleton. reflexivity.
Qed.

Lemma bufferSize_request_refused_witness :
  exists c' tr,
    onData default_proto sample_runtime fresh_client [4; 29; 4; 255; 255; 255; 255]
    = JS.Returned (c', tr)
    /\ bufferSize c' = JS.Num (if 4294967295 <? 2 ^ 31 then 4294967295
                               else 4294967295 - 2 ^ 32)
    /\ writes tr = []
    /\ E_rejected JS.Error_PathAndHeadersTooBig ∈ tr.
Proof.
  apply (bufferSize_request_refused default_proto sample_runtime sample_runtime fresh_client
           fresh_client 4294967295
           (mkRequest None (Some 7) None None None (Some [255; 255; 255; 255])
                      None None None)
           (mkRequestResponse (Some onBufferSizeResponse) None None None)).
  - vm_compute. reflexivity.
  - vm_compute. reflexivity.
  - right. vm_compute. discriminate.
  - reflexivity.
Defined.

(** X7: the descriptor of [bufferSizeRequest] is filed under the key of a
    request without id, while the BUFFER_SIZE_RESPONSE frame is read with
    id 0: on a connection with nothing pending under id 0 the response
    reaches neither [onBufferSizeResponse] nor a middleware, the sender's
    own [bufferSize] stays as it was and the descriptor stays pending. *)
Theorem bufferSize_response_unheard proto rt c size r rr (body4 : Buffer) proto2 rt2 :
  bufferSizeRequest size = JS.Returned (r, rr) ->
  JS.gt 0 (JS.sub (bufferSize c) 8) = false ->
  requestResponse c !! Some 0 = None ->
  multiPartControl c !! 0 = None ->
  length body4 = 4%nat ->
  exists d c2 tr2,
    requestResponse (fst (send_call proto rt c r (Some rr))) !! None = Some d
    /\ onResponse d = Some onBufferSizeResponse
    /\ onData proto2 rt2 (fst (send_call proto rt c r (Some rr))) ([4; 33; 4] ++ body4)
       = JS.Returned (c2, tr2)
    /\ delivered tr2 = []
    /\ bufferSize c2 = bufferSize c
    /\ requestResponse c2 !! None = Some d.
Proof.
  intros Hr Hgt Hrr Hmp Hlen.
  destruct (bufferSizeRequest_inv size r rr Hr) as (Hsize & -> & ->).
  unfold send_call.
  rewrite (send_prefix_bufferSize rt c 7 None (Buf.be 4 size) (or_introl eq_refl)
             (length_be 4 size)), Hgt.
  unfold register. cbn [timeout onResponse onTimeout id].
  set (d := mkRequestResponse _ _ _ _).
  set (c1 := set_requestResponse c (<[None := d]> (requestResponse c))).
  assert (exists c1', fst (if lockedForWrite c1
                           then (c1, [E_awaitLock [4; 7 * 4 + 1; 4] (Buf.be 4 size)])
                           else (set_lockedForWrite c1 true,
                                 [E_write (fst (writeBodyPart_step (bufferSize c1)
                                                  [4; 7 * 4 + 1; 4] (Buf.be 4 size) 0))]))
                      = c1'
                      /\ requestResponse c1' = requestResponse c1
                      /\ multiPartControl c1' = multiPartControl c
                      /\ bufferSize c1' = bufferSize c) as (c1' & -> & Hrr1 & Hmp1 & Hbs1).
  { destruct (lockedForWrite c1); eexists; repeat split. }
  assert (requestResponse c1' !! None = Some d) as Hd
    by (rewrite Hrr1; apply lookup_insert_eq).
  assert (requestResponse c1' !! Some 0 = None) as H0
    by (rewrite Hrr1; unfold c1; cbn [requestResponse set_requestResponse];
        rewrite lookup_insert_ne by discriminate; exact Hrr).
  pose proof (parse_frame_bufferSize c1' 33 body4 (or_intror eq_refl) Hlen
                ltac:(rewrite Hmp1; exact Hmp)) as Hp.
  change (JS.shr 33 2) with 8 in Hp.
  exists d. eexists _, _. split; [exact Hd|]. split; [reflexivity|].
  change ([4; 33; 4] ++ body4) with (4 :: 33 :: 4 :: body4) in *.
  unfold onData. change (JS.shr 33 2 =? EIoTMethod.ALIVE_REQUEST) with false.
  cbv iota. rewrite Hp. cbn [mbind outcome_bind JS.bind mret outcome_ret].
  unfold dispatch.
  cbn [p_client p_request p_completed p_effects requestResponse set_multiPartControl id].
  rewrite H0.
  cbn [is_method method Z.eqb Pos.eqb EIoTMethod.SIGNAL EIoTMethod.REQUEST
       EIoTMethod.STREAMING EIoTMethod.BUFFER_SIZE_REQUEST orb].
  split; [reflexivity|]. split; [reflexivity|]. split; [exact Hbs1|exact Hd].
Qed.

Lemma bufferSize_response_unheard_witness :
  exists d c2 tr2,
    requestResponse
      (fst (send_call default_proto sample_runtime fresh_client
              (mkRequest None (Some 7) None None None (Some [0; 0; 2; 0]) None None None)
              (Some (mkRequestResponse (Some onBufferSizeResponse) None None None))))
      !! None = Some d
    /\ onResponse d = Some onBufferSizeResponse
    /\ onData default_proto sample_runtime
         (fst (send_call default_proto sample_runtime fresh_client
                 (mkRequest None (Some 7) None None None (Some [0; 0; 2; 0]) None None None)
                 (Some (mkRequestResponse (Some onBufferSizeResponse) None None None))))
         ([4; 33; 4] ++ [0; 0; 2; 0])
       = JS.Returned (c2, tr2)
    /\ delivered tr2 = []
    /\ bufferSize c2 = bufferSize fresh_client
    /\ requestResponse c2 !! None = Some d.
Proof.
  apply (bufferSize_response_unheard default_proto sample_runtime fresh_client 512
           (mkRequest None (Some 7) None None None (Some [0; 0; 2; 0]) None None None)
           (mkRequestResponse (Some onBufferSizeResponse) None None None)
           [0; 0; 2; 0] default_proto sample_runtime).
  - vm_compute. reflexivity.
  - reflexivity.
  - reflexivity.
  - reflexivity.
  - reflexivity.
Defined.

(** ** What is kept of a buffer after its frame *)

Lemma subarray_from_tail (buffer : Buffer) e :
  e < Buf.len buffer -> 0 < Buf.len buffer ->
  exists pre rem, buffer = pre ++ rem /\ rem <> [] /\ Buf.subarray_from buffer e = rem.
Proof.
  intros He Hlen. unfold Buf.subarray_from, Buf.subarray.
  set (s := Buf.clamp buffer e).
  assert (0 <= s < Buf.len buffer) as Hs.
  { unfold s, Buf.clamp. destruct (Z.ltb_spec e 0); lia. }
  assert (Buf.clamp buffer (Buf.len buffer) = Buf.len buffer) as ->.
  { unfold Buf.clamp. destruct (Z.ltb_spec (Buf.len buffer) 0); lia. }
  exists (take (Z.to_nat s) buffer), (drop (Z.to_nat s) buffer).
  split; [symmetry; apply take_drop|]. split.
  - intros Hnil. apply (f_equal (@length Z)) in Hnil. rewrite length_drop in Hnil.
    cbn [length] in Hnil. unfold Buf.len in *. lia.
  - apply take_ge. rewrite length_drop. unfold Buf.len in *. lia.
Qed.

Lemma parse_body_remainBuffer c (buffer : Buffer) LSCB m i offset :
  0 < Buf.len buffer ->
  let c1 := fst (fst (fst (parse_body c buffer LSCB m i offset))) in
  remainBuffer c1 = remainBuffer c
  \/ exists pre rem, buffer = pre ++ rem /\ rem <> [] /\ remainBuffer c1 = Some rem.
Proof.
  intros Hlen. unfold parse_body. destruct (negb _); [|left; reflexivity].
  destruct (readBodyLength _ _ _ _) as [total off]. cbv zeta.
  set (R := received (default (mkMultiPart 0 0 IOT_MULTIPART_TIMEOUT)
                              (multiPartControl c !! i))).
  set (e := if Buf.len buffer <? off + 1 + total - R then Buf.len buffer
            else off + 1 + total - R).
  cbn [fst].
  destruct (Z.ltb_spec (e - (off + 1)) (Buf.len buffer - (off + 1))) as [Hlt|_].
  - right. destruct (subarray_from_tail buffer e ltac:(lia) Hlen) as (pre & rem & H1 & H2 & H3).
    exists pre, rem. split; [exact H1|]. split; [exact H2|].
    cbn [remainBuffer set_remainBuffer]. rewrite H3. reflexivity.
  - left. reflexivity.
Qed.

(** X8: a data event leaves [remainBuffer] as it was, or sets it to a tail
    of the buffer just processed, and never to an empty one: the bytes kept
    for the next event are bytes that arrived, in order. *)
Theorem onData_remainBuffer_tail proto rt c (buffer : Buffer) c' tr :
  onData proto rt c buffer = JS.Returned (c', tr) ->
  remainBuffer c' = remainBuffer c
  \/ exists pre rem, buffer = pre ++ rem /\ rem <> [] /\ remainBuffer c' = Some rem.
Proof.
  intros H. destruct buffer as [|M [|L rest]];
    [left; injection H as <- _; reflexivity|left; injection H as <- _; reflexivity|].
  destruct (Z.eq_dec (JS.shr L 2) EIoTMethod.ALIVE_REQUEST) as [Ha|Ha].
  - left. unfold onData in H. rewrite Ha, Z.eqb_refl in H.
    pose proof (send_call_None_frame proto rt c (aliveResponse empty_request))
      as (_ & _ & Hrem & _).
    destruct (send_call proto rt c (aliveResponse empty_request) None) as [c1 sent].
    injection H as <- _. exact Hrem.
  - destruct (parse_frame c (M :: L :: rest) M L) as [p|e] eqn:Hp.
    + destruct (onData_after_parse proto rt c M L rest p Ha Hp) as (c2 & tr2 & H2 & _ & Hrem).
      rewrite H2 in H. injection H as <- _. rewrite Hrem.
      apply parse_frame_inv in Hp as (i & off1 & pth & off2 & hs & off3 & _ & _ & _ & ->).
      pose proof (parse_body_remainBuffer c (M :: L :: rest) L (JS.shr L 2) i off3) as Hb.
      destruct (parse_body c (M :: L :: rest) L (JS.shr L 2) i off3)
        as [[[c1 [[bd len] total]] completed] effects].
      cbn [fst p_client] in *. apply Hb. unfold Buf.len. cbn [length]. lia.
    + exfalso. unfold onData in H.
      destruct (Z.eqb_spec (JS.shr L 2) EIoTMethod.ALIVE_REQUEST) as [|_]; [done|].
      rewrite Hp in H. discriminate.
Qed.

Lemma onData_remainBuffer_tail_witness :
  exists c' tr,
    onData default_proto sample_runtime fresh_client [4; 5; 1; 104; 4; 4]
    = JS.Returned (c', tr)
    /\ (remainBuffer c' = remainBuffer fresh_client
        \/ exists pre rem,
             [4; 5; 1; 104; 4; 4] = pre ++ rem /\ rem <> [] /\ remainBuffer c' = Some rem).
Proof.
  eexists _, _. split; [vm_compute; reflexivity|].
  apply (onData_remainBuffer_tail default_proto sample_runtime fresh_client
           [4; 5; 1; 104; 4; 4] _
           [E_multiPartTimeout 0;
            E_runMiddleware (mkRequest (Some 1) (Some 1) (Some 0) None None (Some [104])
                                       (Some 1) (Some 1) (Some 0));
            E_scheduleNextAliveRequest]).
  vm_compute. reflexivity.
Defined.

(** ** The header loop *)

Lemma length_update o k v : length (Obj.update o k v) = length o.
Proof.
  induction o as [|[k' v'] o IH]; [reflexivity|]. cbn [Obj.update].
  destruct (bool_decide (k' = k)); cbn [length]; congruence.
Qed.

Lemma length_insert_index o n k v : length (Obj.insert_index o n k v) = S (length o).
Proof.
  induction o as [|[k' v'] o IH]; [reflexivity|]. cbn [Obj.insert_index].
  destruct (Obj.array_index k') as [n'|]; [|reflexivity].
  destruct (n' <? n); cbn [length]; congruence.
Qed.

Lemma length_set o k v :
  (length (Obj.keys (Obj.set o k v)) <= S (length (Obj.keys o)))%nat.
Proof.
  unfold Obj.keys, Obj.set. rewrite !length_map.
  destruct (bool_decide (k = Obj.proto)); [lia|].
  destruct (Obj.has o k); [rewrite length_update; lia|].
  destruct (Obj.array_index k); [rewrite length_insert_index; lia|].
  rewrite length_app. cbn [length]. lia.
Qed.

Lemma header_loop_count (buffer : Buffer) headerSize :
  forall fuel hs offset,
    Z.of_nat (length (Obj.keys hs)) < headerSize ->
    Z.of_nat (length (Obj.keys (fst (header_loop fuel buffer headerSize hs offset))))
    <= headerSize.
Proof.
  induction fuel as [|fuel IH]; intros hs offset Hlt; cbn [header_loop fst]; [lia|].
  destruct (_ && _); [|cbn [fst]; lia].
  set (hs' := Obj.set hs _ _).
  pose proof (length_set hs
                (Buf.toString (Buf.subarray buffer offset (Buf.indexOf buffer IOT_RS offset)))
                (Buf.toString (Buf.subarray buffer (Buf.indexOf buffer IOT_RS offset + 1)
                                 (Buf.indexOf buffer IOT_ETX (offset + 1))))) as Hset.
  fold hs' in Hset.
  destruct (Z.eqb_spec (Z.of_nat (length (Obj.keys hs'))) headerSize) as [Heq|Hne].
  - cbn [fst]. lia.
  - apply IH. lia.
Qed.

(** X9: when the header section of a frame announces a count of one or
    more, the request gets that many headers at most, whatever follows in
    the buffer. *)
Theorem parsed_headers_bounded (buffer : Buffer) LSCB offset h offset' :
  parse_headers buffer LSCB offset = JS.Returned (Some h, offset') ->
  exists n,
    Buf.readUInt8 buffer (offset + 1) = JS.Returned n
    /\ (0 < n -> Z.of_nat (length (Obj.keys h)) <= n).
Proof.
  unfold parse_headers. destruct (negb _); [|discriminate].
  destruct (Buf.readUInt8 buffer (offset + 1)) as [n|e]; [|discriminate].
  cbn [mbind outcome_bind JS.bind mret outcome_ret].
  pose proof (header_loop_count buffer n (length buffer) [] (offset + 1 + 1)) as Hc.
  destruct (header_loop (length buffer) buffer n [] (offset + 1 + 1)) as [hs off].
  intros [= <- _]. exists n. split; [reflexivity|].
  intros Hn. apply Hc. cbn [Obj.keys map length]. lia.
Qed.

Lemma parsed_headers_bounded_witness :
  exists n,
    Buf.readUInt8 [4; 7; 1; 97; 30; 98; 3; 99; 30; 100; 3; 1; 104] (1 + 1) = JS.Returned n
    /\ (0 < n -> Z.of_nat (length (Obj.keys [([97], [98])])) <= n).
Proof.
  apply (parsed_headers_bounded [4; 7; 1; 97; 30; 98; 3; 99; 30; 100; 3; 1; 104] 7 1
           [([97], [98])] 6).
  vm_compute. reflexivity.
Defined.

(** X10: the header loop ends by itself within as many turns as the
    buffer has bytes: more turns than that change nothing of its result. *)
Theorem header_loop_terminates (buffer : Buffer) headerSize hs offset extra :
  0 <= offset ->
  header_loop (length buffer + extra) buffer headerSize hs offset
  = header_loop (length buffer) buffer headerSize hs offset.
Proof.
  intros Hoff. apply header_loop_fuel; [exact Hoff| |]; unfold Buf.len; lia.
Qed.

Lemma header_loop_terminates_witness :
  header_loop (length [1; 97; 30; 98; 3; 99; 30; 100; 3] + 5)
              [1; 97; 30; 98; 3; 99; 30; 100; 3] 0 [] 1
  = header_loop (length [1; 97; 30; 98; 3; 99; 30; 100; 3])
                [1; 97; 30; 98; 3; 99; 30; 100; 3] 0 [] 1.
Proof.
  apply (header_loop_terminates [1; 97; 30; 98; 3; 99; 30; 100; 3] 0 [] 1 5). lia.
Defined.

(** ** Who gets a frame *)

Lemma parse_frame_effects c buffer MSCB LSCB p :
  parse_frame c buffer MSCB LSCB = JS.Returned p -> delivered (p_effects p) = [].
Proof.
  intros Hp.
  apply parse_frame_inv in Hp as (i & off1 & pth & off2 & hs & off3 & _ & _ & _ & ->).
  unfold parse_body. destruct (negb _); [|reflexivity].
  destruct (readBodyLength _ _ _ _) as [total off]. reflexivity.
Qed.

Lemma dispatch_delivered c request completed :
  let tr := snd (dispatch c request completed) in
  delivered tr = []
  \/ (delivered tr = [request]
      /\ (middleware_case c tr request \/ response_case c tr request)).
Proof.
  unfold dispatch, middleware_case, response_case.
  destruct (requestResponse c !! id request) as [d|] eqn:Hd.
  - destruct (onResponse d) as [cb|] eqn:Hcb.
    + right. destruct completed; cbn [snd]; (split; [reflexivity|]); right;
        exists d, cb; (split; [reflexivity|split; [exact Hcb|]]);
        apply elem_of_cons; left; reflexivity.
    + left. destruct completed; reflexivity.
  - destruct (_ || _) eqn:Hm; [|left; reflexivity].
    right. cbn [snd]. split; [reflexivity|]. left.
    split; [apply list_elem_of_singleton; reflexivity|]. split; reflexivity.
Qed.

(** X11: one data event hands at most one request upward.  It goes to the
    response callback of the descriptor pending under its id when there is
    one; otherwise to the middlewares, and then only for the methods
    SIGNAL, REQUEST and STREAMING. *)
Theorem onData_delivery proto rt c buffer c' tr :
  onData proto rt c buffer = JS.Returned (c', tr) ->
  delivered tr = []
  \/ exists r, delivered tr = [r] /\ (middleware_case c tr r \/ response_case c tr r).
Proof.
  intros H. destruct buffer as [|M [|L rest]];
    [left; injection H as _ <-; reflexivity|left; injection H as _ <-; reflexivity|].
  unfold onData in H.
  destruct (Z.eqb_spec (JS.shr L 2) EIoTMethod.ALIVE_REQUEST) as [_|_].
  - left.
    pose proof (send_call_None_no_delivery proto rt c (aliveResponse empty_request) None) as Hnd.
    destruct (send_call proto rt c (aliveResponse empty_request) None) as [c1 sent].
    injection H as _ <-. rewrite delivered_app. cbn [snd] in Hnd. rewrite Hnd. reflexivity.
  - destruct (parse_frame c (M :: L :: rest) M L) as [p|e] eqn:Hp; [|discriminate].
    cbn [mbind outcome_bind JS.bind mret outcome_ret] in H.
    pose proof (parse_frame_effects _ _ _ _ _ Hp) as Heff.
    destruct (parse_frame_requestResponse _ _ _ _ _ Hp) as (Hrr & _).
    pose proof (dispatch_delivered (p_client p) (p_request p) (p_completed p)) as Hdis.
    destruct (dispatch (p_client p) (p_request p) (p_completed p)) as [c1 dl].
    cbv zeta in Hdis. cbn [snd] in Hdis.
    assert (exists sent, tr = p_effects p ++ dl ++ [E_scheduleNextAliveRequest] ++ sent
                         /\ delivered sent = []) as (sent & -> & Hsent).
    { destruct (is_method (p_request p) EIoTMethod.BUFFER_SIZE_REQUEST).
      - pose proof (send_call_None_no_delivery proto rt
                      (set_bufferSize c1 (bufferSizeOfBody (default [] (body (p_request p)))))
                      (bufferSizeResponse (p_request p)) None) as Hnd.
        destruct (send_call proto rt _ _ None) as [c2 sent]. injection H as _ <-.
        exists sent. split; [rewrite <- !app_assoc; reflexivity|exact Hnd].
      - injection H as _ <-. exists []. split; [rewrite app_nil_r; reflexivity|reflexivity]. }
    assert (delivered (p_effects p ++ dl ++ [E_scheduleNextAliveRequest] ++ sent)
            = delivered dl) as Hdel.
    { rewrite !delivered_app, Heff, Hsent. cbn [delivered omap app]. apply app_nil_r. }
    rewrite Hdel.
    destruct Hdis as [Hnil|(Hone & Hcase)]; [left; exact Hnil|].
    right. exists (p_request p). split; [exact Hone|].
    unfold middleware_case, response_case in *. rewrite Hrr in Hcase.
    destruct Hcase as [(Hin & Hnone & Hm)|(d & cb & Hd & Hcb & Hin)].
    + left. split; [|split; [exact Hnone|exact Hm]].
      apply elem_of_app. right. apply elem_of_app. left. exact Hin.
    + right. exists d, cb. split; [exact Hd|]. split; [exact Hcb|].
      apply elem_of_app. right. apply elem_of_app. left. exact Hin.
Qed.

Lemma onData_delivery_witness :
  exists c' tr,
    onData default_proto sample_runtime fresh_client wire_276 = JS.Returned (c', tr)
    /\ (delivered tr = []
        \/ exists r, delivered tr = [r]
                     /\ (middleware_case fresh_client tr r \/ response_case fresh_client tr r)).
Proof.
  eexists _, _. split; [vm_compute; reflexivity|].
  eapply (onData_delivery default_proto sample_runtime fresh_client wire_276).
  vm_compute. reflexivity.
Defined.

(** ** Response timers *)

(** What [onData] does after the alive test, taken apart. *)
Lemma onData_inv proto rt c M L rest c' tr :
  JS.shr L 2 <> EIoTMethod.ALIVE_REQUEST ->
  onData proto rt c (M :: L :: rest) = JS.Returned (c', tr) ->
  exists p sent,
    parse_frame c (M :: L :: rest) M L = JS.Returned p
    /\ tr = p_effects p ++ snd (dispatch (p_client p) (p_request p) (p_completed p))
              ++ [E_scheduleNextAliveRequest] ++ sent
    /\ (sent = [] \/ exists c2 r2, sent = snd (send_call proto rt c2 r2 None))
    /\ requestResponse c'
       = requestResponse (fst (dispatch (p_client p) (p_request p) (p_completed p))).
Proof.
  intros Ha H. unfold onData in H.
  destruct (Z.eqb_spec (JS.shr L 2) EIoTMethod.ALIVE_REQUEST) as [|_]; [done|].
  destruct (parse_frame c (M :: L :: rest) M L) as [p|e] eqn:Hp; [|discriminate].
  cbn [mbind outcome_bind JS.bind mret outcome_ret] in H.
  exists p.
  destruct (dispatch (p_client p) (p_request p) (p_completed p)) as [c1 dl].
  cbn [fst snd].
  destruct (is_method (p_request p) EIoTMethod.BUFFER_SIZE_REQUEST).
  - pose proof (send_call_None_frame proto rt
                  (set_bufferSize c1 (bufferSizeOfBody (default [] (body (p_request p)))))
                  (bufferSizeResponse (p_request p))) as (_ & _ & _ & Hrr).
    exists (snd (send_call proto rt
                   (set_bufferSize c1 (bufferSizeOfBody (default [] (body (p_request p)))))
                   (bufferSizeResponse (p_request p)) None)).
    destruct (send_call proto rt _ _ None) as [c2 sent] eqn:Hsc. injection H as <- <-.
    cbn [fst snd] in *. split; [reflexivity|].
    split; [rewrite <- !app_assoc; reflexivity|]. split; [|exact Hrr].
    right. eexists _, _. rewrite Hsc. reflexivity.
  - injection H as <- <-. exists []. split; [reflexivity|].
    split; [rewrite app_nil_r; reflexivity|]. split; [left|]; reflexivity.
Qed.

Lemma send_call_effects proto rt c r e :
  e ∈ snd (send_call proto rt c r None) ->
  match e with E_write _ | E_awaitLock _ _ | E_rejected _ => True | _ => False end.
Proof.
  unfold send_call. destruct (send_prefix rt c r) as [[[r' pre] bd]|err]; cbn [snd].
  - destruct (lockedForWrite _); cbn [snd]; intros Hin;
      apply list_elem_of_singleton in Hin; subst e; exact I.
  - intros Hin. apply list_elem_of_singleton in Hin. subst e. exact I.
Qed.

Lemma parse_frame_effects_shape c buffer MSCB LSCB p e :
  parse_frame c buffer MSCB LSCB = JS.Returned p -> e ∈ p_effects p ->
  exists i, e = E_multiPartTimeout i.
Proof.
  intros Hp.
  apply parse_frame_inv in Hp as (i & off1 & pth & off2 & hs & off3 & _ & _ & _ & ->).
  unfold parse_body. destruct (negb _).
  - destruct (readBodyLength _ _ _ _) as [total off]. cbn [p_effects].
    intros Hin. apply list_elem_of_singleton in Hin. eauto.
  - cbn [p_effects]. intros Hin. apply elem_of_nil in Hin. done.
Qed.

(** A response callback in the trace of [onData] comes from the dispatch
    step: a descriptor was pending under the id of the request. *)
Lemma onData_onResponse proto rt c buffer c' tr cb r :
  onData proto rt c buffer = JS.Returned (c', tr) ->
  E_onResponse cb r ∈ tr ->
  exists d completed,
    requestResponse c !! id r = Some d
    /\ (E_startRequestResponseTimeout (id r) ∈ tr <-> completed = false)
    /\ (completed = true -> requestResponse c' !! id r = None).
Proof.
  intros H Hin. destruct buffer as [|M [|L rest]];
    [injection H as _ <-; apply elem_of_nil in Hin; done
    |injection H as _ <-; apply elem_of_nil in Hin; done|].
  destruct (Z.eq_dec (JS.shr L 2) EIoTMethod.ALIVE_REQUEST) as [Ha|Ha].
  - exfalso. unfold onData in H. rewrite Ha, Z.eqb_refl in H.
    pose proof (send_call_effects proto rt c (aliveResponse empty_request)
                  (E_onResponse cb r)) as Hs.
    destruct (send_call proto rt c (aliveResponse empty_request) None) as [c1 sent].
    injection H as _ <-. apply elem_of_app in Hin as [Hin|Hin]; [exact (Hs Hin)|].
    apply list_elem_of_singleton in Hin. discriminate.
  - destruct (onData_inv proto rt c M L rest c' tr Ha H) as (p & sent & Hp & -> & Hsent & Hrr).
    destruct (parse_frame_requestResponse _ _ _ _ _ Hp) as (Hrrp & _).
    assert (forall e, e ∈ sent ->
              match e with E_write _ | E_awaitLock _ _ | E_rejected _ => True | _ => False end)
      as Hshape.
    { destruct Hsent as [->|(c2 & r2 & ->)]; [intros e He; apply elem_of_nil in He; done|].
      intros e. apply send_call_effects. }
    assert (forall e, e ∈ p_effects p ++ snd (dispatch (p_client p) (p_request p) (p_completed p))
                          ++ [E_scheduleNextAliveRequest] ++ sent ->
              match e with E_onResponse _ _ | E_startRequestResponseTimeout _ => True
                      | _ => False end ->
              e ∈ snd (dispatch (p_client p) (p_request p) (p_completed p))) as Hdl.
    { intros e He Hk. rewrite !elem_of_app in He. destruct He as [He|[He|[He|He]]].
      - destruct (parse_frame_effects_shape _ _ _ _ _ e Hp He) as [i ->]. done.
      - exact He.
      - apply list_elem_of_singleton in He. subst e. done.
      - specialize (Hshape e He). destruct e; done. }
    pose proof (Hdl _ Hin I) as Hin'.
    unfold dispatch in Hin', Hrr, Hdl |- *. rewrite Hrrp in Hin', Hrr, Hdl |- *.
    clear H.
    destruct (requestResponse c !! id (p_request p)) as [d|] eqn:Hd.
    + assert (r = p_request p) as ->.
      { destruct (onResponse d) as [cb'|]; destruct (p_completed p); cbn [snd app] in Hin';
          repeat (apply elem_of_cons in Hin' as [Hin'|Hin']; [congruence|]);
          apply elem_of_nil in Hin'; done. }
      exists d, (p_completed p). split; [exact Hd|]. split; [split|].
      * intros Ht. specialize (Hdl _ Ht I).
        destruct (onResponse d) as [cb'|]; destruct (p_completed p); try reflexivity;
          cbn [snd app] in Hdl;
          repeat (apply elem_of_cons in Hdl as [Hdl|Hdl]; [discriminate|]);
          apply elem_of_nil in Hdl; done.
      * intros Hc. rewrite Hc. rewrite !elem_of_app. right. left.
        destruct (onResponse d) as [cb'|]; cbn [snd app].
        -- apply elem_of_cons. right. apply list_elem_of_singleton. reflexivity.
        -- apply list_elem_of_singleton. reflexivity.
      * intros Hc. rewrite Hc in Hrr. rewrite Hrr.
        destruct (onResponse d) as [cb'|]; cbn [fst requestResponse set_requestResponse];
          apply lookup_delete_eq.
    + exfalso. destruct (_ || _); cbn [snd] in Hin'.
      * apply list_elem_of_singleton in Hin'. discriminate.
      * apply elem_of_nil in Hin'. done.
Qed.

(** X12: once [onData] has handed a frame to a response callback without
    arming the response timer again (the frame completed the response),
    the descriptor is gone: the timer armed earlier for that request finds
    nothing when it fires, and [onTimeout] is not called. *)
Theorem final_response_silences_timeout proto rt c buffer c' tr cb r :
  onData proto rt c buffer = JS.Returned (c', tr) ->
  E_onResponse cb r ∈ tr ->
  E_startRequestResponseTimeout (id r) ∉ tr ->
  requestResponseTimeout c' r = (c', []).
Proof.
  intros H Hin Hnot.
  destruct (onData_onResponse proto rt c buffer c' tr cb r H Hin)
    as (d & completed & _ & Htimer & Hgone).
  destruct completed.
  - unfold requestResponseTimeout. rewrite (Hgone eq_refl). reflexivity.
  - exfalso. apply Hnot. apply Htimer. reflexivity.
Qed.

Lemma final_response_silences_timeout_witness :
  exists c' tr r,
    onData default_proto sample_runtime pending_123 response_123 = JS.Returned (c', tr)
    /\ E_onResponse (hostOnResponse 0) r ∈ tr
    /\ (E_startRequestResponseTimeout (id r) ∉ tr)
    /\ requestResponseTimeout c' r = (c', []).
Proof.
  eexists _, _, _. split; [vm_compute; reflexivity|].
  assert (E_onResponse (hostOnResponse 0)
            (mkRequest (Some 1) (Some 3) (Some 123) None None (Some [104])
                       (Some 1) (Some 1) (Some 0))
          ∈ [E_multiPartTimeout 123;
             E_onResponse (hostOnResponse 0)
               (mkRequest (Some 1) (Some 3) (Some 123) None None (Some [104])
                          (Some 1) (Some 1) (Some 0));
             E_scheduleNextAliveRequest]) as Hin
    by (apply elem_of_cons; right; apply elem_of_cons; left; reflexivity).
  assert (E_startRequestResponseTimeout (Some 123)
          ∉ [E_multiPartTimeout 123;
             E_onResponse (hostOnResponse 0)
               (mkRequest (Some 1) (Some 3) (Some 123) None None (Some [104])
                          (Some 1) (Some 1) (Some 0));
             E_scheduleNextAliveRequest]) as Hnot.
  { intros H. repeat (apply elem_of_cons in H as [H|H]; [discriminate|]).
    apply elem_of_nil in H. exact H. }
  split; [exact Hin|]. split; [exact Hnot|].
  apply (final_response_silences_timeout default_proto sample_runtime pending_123
           response_123 _ _ (hostOnResponse 0) _ ltac:(vm_compute; reflexivity) Hin Hnot).
Defined.

(** X13: after the response timer of a request has fired, a frame that
    carries the id of that request reaches no response callback. *)
Theorem response_after_timeout_unheard proto rt c request buffer c' tr cb r :
  onData proto rt (fst (requestResponseTimeout c request)) buffer = JS.Returned (c', tr) ->
  E_onResponse cb r ∈ tr ->
  id r <> id request.
Proof.
  intros H Hin Heq.
  destruct (onData_onResponse proto rt _ buffer c' tr cb r H Hin)
    as (d & completed & Hd & _ & _).
  rewrite Heq in Hd. unfold requestResponseTimeout in Hd.
  destruct (requestResponse c !! id request) as [d0|] eqn:Hd0; cbn [fst] in Hd.
  - cbn [requestResponse set_requestResponse] in Hd. rewrite lookup_delete_eq in Hd.
    discriminate.
  - congruence.
Qed.

Lemma response_after_timeout_unheard_witness :
  exists c' tr r,
    onData default_proto sample_runtime
      (fst (requestResponseTimeout pending_123 request_276)) response_123
    = JS.Returned (c', tr)
    /\ E_onResponse (hostOnResponse 0) r ∈ tr
    /\ id r <> id request_276.
Proof.
  eexists _, _, _. split; [vm_compute; reflexivity|].
  assert (E_onResponse (hostOnResponse 0)
            (mkRequest (Some 1) (Some 3) (Some 123) None None (Some [104])
                       (Some 1) (Some 1) (Some 0))
          ∈ [E_multiPartTimeout 123;
             E_onResponse (hostOnResponse 0)
               (mkRequest (Some 1) (Some 3) (Some 123) None None (Some [104])
                          (Some 1) (Some 1) (Some 0));
             E_scheduleNextAliveRequest]) as Hin
    by (apply elem_of_cons; right; apply elem_of_cons; left; reflexivity).
  split; [exact Hin|].
  apply (response_after_timeout_unheard default_proto sample_runtime pending_123
           request_276 response_123 _ _ (hostOnResponse 0) _
           ltac:(vm_compute; reflexivity) Hin).
Defined.

(** ** The keep-alive probe *)

(** X14: when the keep-alive timer fires on a connection whose interval is
    not 0 (write lock free, buffer size not below 8), the frame 04 14 is
    written and a descriptor is filed under id 0.  If its response timer
    fires first, [onAliveRequestTimeout] is called, which closes the
    connection; if the peer's answer 04 18 comes first, it takes the
    descriptor away without any upward delivery, and the timer then finds
    nothing. *)
Theorem alive_probe_cycle proto rt c r :
  aliveInterval c <> 0 ->
  lockedForWrite c = false ->
  JS.gt 0 (JS.sub (bufferSize c) 8) = false ->
  id r = Some 0 ->
  exists c1 c2 tr,
    aliveTimer proto rt c = (c1, [E_write [4; 20]; E_scheduleNextAliveRequest])
    /\ snd (requestResponseTimeout c1 r) = [(onAliveRequestTimeout, r)]
    /\ onData proto rt c1 [4; 24] = JS.Returned (c2, tr)
    /\ delivered tr = []
    /\ requestResponseTimeout c2 r = (c2, []).
Proof.
  intros Hint Hlock Hgt Hid. unfold aliveTimer, send_call.
  destruct (Z.eqb_spec (aliveInterval c) 0) as [|_]; [done|].
  destruct (send_prefix_aliveRequest rt c Hgt) as (r' & -> & Hid').
  unfold register, aliveRequestResponse. cbn [timeout onResponse onTimeout].
  rewrite Hid'. cbn [lockedForWrite set_requestResponse]. rewrite Hlock.
  rewrite writeBodyPart_step_no_body. cbn [app].
  set (d := mkRequestResponse None (Some onAliveRequestTimeout) _ _).
  set (c1 := set_lockedForWrite _ true).
  assert (requestResponse c1 !! Some 0 = Some d) as Hd by apply lookup_insert_eq.
  exists c1. eexists _, _. split; [reflexivity|]. split.
  { unfold requestResponseTimeout. rewrite Hid, Hd. reflexivity. }
  unfold onData. change (JS.shr 24 2 =? EIoTMethod.ALIVE_REQUEST) with false. cbv iota.
  unfold parse_frame, parse_id, parse_path, parse_headers, parse_body. js_eval.
  cbn [negb andb Z.eqb mbind outcome_bind JS.bind mret outcome_ret
       p_client p_request p_completed p_effects].
  unfold dispatch. cbn [id]. rewrite Hd. cbn [onResponse d].
  cbn [is_method method Z.eqb Pos.eqb EIoTMethod.BUFFER_SIZE_REQUEST app].
  split; [reflexivity|]. split; [reflexivity|].
  unfold requestResponseTimeout. rewrite Hid.
  cbn [requestResponse set_requestResponse]. rewrite lookup_delete_eq. reflexivity.
Qed.

Lemma alive_probe_cycle_witness :
  exists c1 c2 tr,
    aliveTimer default_proto sample_runtime fresh_client
    = (c1, [E_write [4; 20]; E_scheduleNextAliveRequest])
    /\ snd (requestResponseTimeout c1 (aliveRequest empty_request))
       = [(onAliveRequestTimeout, aliveRequest empty_request)]
    /\ onData default_proto sample_runtime c1 [4; 24] = JS.Returned (c2, tr)
    /\ delivered tr = []
    /\ requestResponseTimeout c2 (aliveRequest empty_request) = (c2, []).
Proof.
  apply (alive_probe_cycle default_proto sample_runtime fresh_client
           (aliveRequest empty_request)).
  - vm_compute. discriminate.
  - reflexivity.
  - reflexivity.
  - reflexivity.
Defined.

(** ** How many parts *)






(** ** A buffer size below the reserve *)

(** X16: [listen] keeps a buffer size given by the host when it is not 0,
    also one below 8; on such a connection [send] refuses every request of
    the eight methods, keep-alive frames included, and writes nothing. *)
Theorem listen_small_bufferSize_rejects proto rt fuel a n r rr :
  n <> 0 -> n < 8 -> enum_method r ->
  exists e,
    send proto rt fuel (listen a (JS.Num n)) r rr
    = Some (listen a (JS.Num n), JS.Thrown e, []).
Proof.
  intros Hn0 Hn8 Henum.
  assert (bufferSize (listen a (JS.Num n)) = JS.Num n) as Hbs.
  { unfold listen. cbn [bufferSize JS.falsy].
    destruct (Z.eqb_spec n 0) as [|_]; [done|reflexivity]. }
  destruct (proj2 (send_prefix_table_throws rt (listen a (JS.Num n)) r)) as [e He].
  { right. right. right. rewrite Hbs. cbn [JS.sub JS.gt]. apply Z.ltb_lt.
    unfold path_headers_length.
    pose proof (len_nonneg (pathBuffer_of r)). pose proof (len_nonneg (headerBuffer_of r)).
    lia. }
  exists e. apply send_Thrown. rewrite (send_prefix_by_table _ _ _ Henum).
  split; [exact He|split; reflexivity].
Qed.

Lemma listen_small_bufferSize_rejects_witness :
  exists e,
    send default_proto sample_runtime 1 (listen 60 (JS.Num 7)) (aliveRequest empty_request)
         (Some (aliveRequestResponse default_proto))
    = Some (listen 60 (JS.Num 7), JS.Thrown e, []).
Proof.
  apply (listen_small_bufferSize_rejects default_proto sample_runtime 1 60 7
           (aliveRequest empty_request) (Some (aliveRequestResponse default_proto))).
  - discriminate.
  - reflexivity.
  - exists 5. split; [reflexivity|lia].
Defined.

(** ** The middleware chain *)

Lemma runMiddleware_from_chain request :
  forall rest index stop,
    Forall (fun middleware : IoTMiddleware => middleware request = 1%nat) (take stop rest) ->
    (forall middleware : IoTMiddleware,
        rest !! stop = Some middleware -> middleware request = 0%nat) ->
    runMiddleware_from rest request index
    = seq index (Nat.min (S stop) (length rest)).
Proof.
  induction rest as [|mw rest IH]; intros index stop Hbefore Hstop; [reflexivity|].
  cbn [runMiddleware_from length]. destruct stop as [|stop].
  - rewrite (Hstop mw eq_refl). reflexivity.
  - cbn [take] in Hbefore. apply Forall_cons in Hbefore as [Hmw Hbefore].
    rewrite Hmw. cbn [replicate concat]. rewrite app_nil_r.
    rewrite (IH (S index) stop Hbefore (fun m Hm => Hstop m Hm)).
    reflexivity.
Qed.

(** X17: the middlewares are called in the order of their registration,
    each one only after the one before it has called [next]: when those
    before position [stop] call [next] once and the one at [stop] does not,
    the ones from 0 to [stop] are called once each and no later one; when
    there is none at [stop], all are called. *)
Theorem runMiddleware_chain middlewares request stop :
  Forall (fun middleware : IoTMiddleware => middleware request = 1%nat)
         (take stop middlewares) ->
  (forall middleware : IoTMiddleware,
      middlewares !! stop = Some middleware -> middleware request = 0%nat) ->
  runMiddleware middlewares request 0
  = seq 0 (Nat.min (S stop) (length middlewares)).
Proof.
  intros Hbefore Hstop. unfold runMiddleware. rewrite drop_0.
  apply runMiddleware_from_chain; assumption.
Qed.

Lemma runMiddleware_chain_witness :
  runMiddleware (use (use (use [] (fun _ => 1%nat)) (fun _ => 0%nat)) (fun _ => 1%nat))
                request_276 0
  = seq 0 (Nat.min 2 3).
Proof.
  apply (runMiddleware_chain
           (use (use (use [] (fun _ => 1%nat)) (fun _ => 0%nat)) (fun _ => 1%nat))
           request_276 1).
  - repeat constructor.
  - intros middleware [= <-]. reflexivity.
Defined.

(** ** When the data handler throws *)

Lemma get_Some (buffer : Buffer) i :
  0 <= i < Buf.len buffer -> exists x, Buf.get buffer i = Some x.
Proof.
  intros Hi. unfold Buf.get. destruct (Z.ltb_spec i 0); [lia|].
  destruct (buffer !! Z.to_nat i) as [x|] eqn:Hx; [eauto|].
  apply lookup_ge_None in Hx. unfold Buf.len in Hi. lia.
Qed.

Lemma get_None (buffer : Buffer) i : Buf.len buffer <= i -> Buf.get buffer i = None.
Proof.
  intros Hi. unfold Buf.get. pose proof (len_nonneg buffer).
  destruct (Z.ltb_spec i 0); [reflexivity|].
  apply lookup_ge_None. unfold Buf.len in Hi. lia.
Qed.

Lemma parse_id_Thrown (buffer : Buffer) M e :
  parse_id buffer M 1 = JS.Thrown e ->
  e = JS.RangeError_OUT_OF_RANGE /\ JS.band M IOT_MSCB_ID <> 0 /\ Buf.len buffer = 3.
Proof.
  unfold parse_id.
  destruct (Z.eqb_spec (JS.band M IOT_MSCB_ID) 0) as [Hid|Hid]; cbn [negb andb];
    [discriminate|].
  destruct (Z.leb_spec (1 + 2) (Buf.len buffer)) as [Hlen|Hlen]; [|discriminate].
  unfold Buf.readUInt16BE.
  destruct (get_Some buffer (1 + 1) ltac:(lia)) as [hi ->].
  destruct (Buf.get buffer (1 + 1 + 1)) as [lo|] eqn:Hlo; [discriminate|].
  cbn [mbind outcome_bind JS.bind]. intros [= <-]. split; [reflexivity|].
  split; [exact Hid|].
  destruct (Z.le_gt_cases 4 (Buf.len buffer)) as [H4|H4]; [|lia].
  destruct (get_Some buffer (1 + 1 + 1) ltac:(lia)) as [x Hx]. congruence.
Qed.

Lemma parse_headers_Thrown (buffer : Buffer) L offset e :
  parse_headers buffer L offset = JS.Thrown e ->
  e = JS.RangeError_OUT_OF_RANGE /\ JS.band L IOT_LSCB_HEADER <> 0.
Proof.
  unfold parse_headers.
  destruct (Z.eqb_spec (JS.band L IOT_LSCB_HEADER) 0) as [Hh|Hh]; cbn [negb];
    [discriminate|].
  unfold Buf.readUInt8. destruct (Buf.get buffer (offset + 1)) as [n|];
    cbn [mbind outcome_bind JS.bind mret outcome_ret].
  - destruct (header_loop _ _ _ _ _). discriminate.
  - intros [= <-]. split; [reflexivity|exact Hh].
Qed.

Lemma parse_frame_Thrown c buffer M L e :
  parse_frame c buffer M L = JS.Thrown e ->
  parse_id buffer M 1 = JS.Thrown e
  \/ exists offset, parse_headers buffer L offset = JS.Thrown e.
Proof.
  unfold parse_frame. destruct (parse_id buffer M 1) as [[i off1]|e1];
    cbn [mbind outcome_bind JS.bind]; [|intros [= <-]; left; reflexivity].
  destruct (parse_path buffer M off1) as [pth off2].
  destruct (parse_headers buffer L off2) as [[hs off3]|e2] eqn:Hh;
    cbn [mbind outcome_bind JS.bind].
  - destruct (parse_body _ _ _ _ _ _) as [[[c1 [[bd len] total]] completed] effects].
    discriminate.
  - intros [= <-]. right. exists off2. exact Hh.
Qed.

Lemma onData_Thrown proto rt c M L rest e :
  onData proto rt c (M :: L :: rest) = JS.Thrown e ->
  parse_frame c (M :: L :: rest) M L = JS.Thrown e.
Proof.
  unfold onData. destruct (JS.shr L 2 =? EIoTMethod.ALIVE_REQUEST).
  { destruct (send_call _ _ _ _ _); discriminate. }
  destruct (parse_frame c (M :: L :: rest) M L) as [p|e1];
    cbn [mbind outcome_bind JS.bind]; [|intros [= <-]; reflexivity].
  destruct (dispatch _ _ _). destruct (is_method _ _); [|discriminate].
  destruct (send_call _ _ _ _ _); discriminate.
Qed.

(** X18: [onData] throws nothing but the range error of a buffer read, and
    only on a frame whose id flag is set while the buffer has three bytes,
    or whose header flag is set. *)
Theorem onData_throws_only_on_flags proto rt c M L rest e :
  onData proto rt c (M :: L :: rest) = JS.Thrown e ->
  e = JS.RangeError_OUT_OF_RANGE
  /\ ((JS.band M IOT_MSCB_ID <> 0 /\ Buf.len (M :: L :: rest) = 3)
      \/ JS.band L IOT_LSCB_HEADER <> 0).
Proof.
  intros H. apply onData_Thrown in H. apply parse_frame_Thrown in H as [H|[offset H]].
  - apply parse_id_Thrown in H as (-> & Hid & Hlen). split; [reflexivity|left; split; assumption].
  - apply parse_headers_Thrown in H as (-> & Hh). split; [reflexivity|right; exact Hh].
Qed.

Lemma onData_throws_only_on_flags_witness :
  onData default_proto sample_runtime fresh_client [4; 6]
  = JS.Thrown JS.RangeError_OUT_OF_RANGE
  /\ JS.RangeError_OUT_OF_RANGE = JS.RangeError_OUT_OF_RANGE
  /\ ((JS.band 4 IOT_MSCB_ID <> 0 /\ Buf.len [4; 6] = 3)
      \/ JS.band 6 IOT_LSCB_HEADER <> 0).
Proof.
  assert (onData default_proto sample_runtime fresh_client [4; 6]
          = JS.Thrown JS.RangeError_OUT_OF_RANGE) as H by (vm_compute; reflexivity).
  split; [exact H|].
  exact (onData_throws_only_on_flags default_proto sample_runtime fresh_client 4 6 [] _ H).
Defined.

(** X19: a buffer of three bytes whose first byte has the id flag, the
    method not being ALIVE_REQUEST, makes [onData] throw: the id is read
    where the buffer has only one of its two bytes. *)
Theorem onData_three_bytes_with_id_throws proto rt c M L x :
  JS.band M IOT_MSCB_ID <> 0 ->
  JS.shr L 2 <> EIoTMethod.ALIVE_REQUEST ->
  onData proto rt c [M; L; x] = JS.Thrown JS.RangeError_OUT_OF_RANGE.
Proof.
  intros Hid Ha. unfold onData.
  destruct (Z.eqb_spec (JS.shr L 2) EIoTMethod.ALIVE_REQUEST) as [|_]; [done|].
  unfold parse_frame, parse_id.
  destruct (Z.eqb_spec (JS.band M IOT_MSCB_ID) 0) as [|_]; [done|].
  reflexivity.
Qed.

Lemma onData_three_bytes_with_id_throws_witness :
  onData default_proto sample_runtime fresh_client [6; 8; 0]
  = JS.Thrown JS.RangeError_OUT_OF_RANGE.
Proof.
  apply onData_three_bytes_with_id_throws; vm_compute; discriminate.
Defined.

(** ** The reassembly timer *)

(** X20: for a SIGNAL, REQUEST or STREAMING request that the delimiters
    can carry (the conditions of C1) and a connection with no descriptor
    pending under its id: when the reassembly timer of the id has fired,
    the next fragment of that body, shorter than the body, is counted from
    zero: what had been received before is forgotten, the fragment is
    handed to the middlewares and the new entry holds its length alone, so
    that the body is complete only after all of its bytes have come
    again. *)
Theorem fragment_after_multiPartTimeout proto rt rt0 c0 c r r' prefix b slice :
  roundtrip_ready r ->
  is_method r EIoTMethod.RESPONSE = false ->
  send_prefix rt0 c0 r = JS.Returned (r', prefix, b) ->
  requestResponse c !! Some (wire_id r') = None ->
  Buf.len slice < Buf.len b ->
  exists c' tr,
    onData proto rt (multiPartTimeout c (wire_id r')) (prefix ++ slice) = JS.Returned (c', tr)
    /\ delivered tr = [fragment_request r (wire_id r') (Buf.len b) slice]
    /\ multiPartControl c' !! wire_id r'
       = Some (mkMultiPart 1 (Buf.len slice) IOT_MULTIPART_TIMEOUT).
Proof.
  intros Hready H3 Hs Hnone Hlt.
  destruct Hready as (Hv & (m & Hm & Hmr) & Hrest).
  destruct (primary_method_facts r m Hm Hmr) as (_ & _ & _ & _ & Henum).
  assert (roundtrip_ready r) as Hready by (split; [exact Hv|split; [eauto|exact Hrest]]).
  rewrite (send_prefix_by_table rt0 c0 r Henum) in Hs.
  assert (multiPartControl (multiPartTimeout c (wire_id r')) !! wire_id r' = None) as Hgone
    by apply lookup_delete_eq.
  pose proof (onData_fragment proto rt rt0 c0 (multiPartTimeout c (wire_id r')) r r' prefix b
                slice Hready H3 Hs Hnone) as Hf.
  cbv zeta in Hf. rewrite Hgone in Hf. cbn [from_option] in Hf.
  unfold Datatypes.id in Hf. cbn [received mp_parts] in Hf.
  rewrite Hf by lia.
  destruct (Z.ltb_spec (0 + Buf.len slice) (Buf.len b)) as [_|]; [|lia].
  cbn [negb]. eexists _, _. split; [reflexivity|]. split; [reflexivity|].
  cbn [multiPartControl set_multiPartControl]. rewrite lookup_insert_eq. reflexivity.
Qed.

Lemma fragment_after_multiPartTimeout_witness :
  exists c' tr,
    onData default_proto sample_runtime (multiPartTimeout fresh_client 7)
           ([6; 17; 0; 7; 0; 0; 0; 20] ++ repeat 66 8)
    = JS.Returned (c', tr)
    /\ delivered tr = [fragment_request streaming_20 7 (Buf.len (repeat 66 20)) (repeat 66 8)]
    /\ multiPartControl c' !! 7
       = Some (mkMultiPart 1 (Buf.len (repeat 66 8)) IOT_MULTIPART_TIMEOUT).
Proof.
  assert (roundtrip_ready streaming_20) as Hready.
  { split; [vm_compute; split; discriminate|].
    split; [exists 4; split; [reflexivity|lia]|].
    split; [eexists; split; [reflexivity|vm_compute; reflexivity]|].
    split; [intros s Hc; discriminate|intros h Hh; discriminate]. }
  apply (fragment_after_multiPartTimeout default_proto sample_runtime sample_runtime
           small_client fresh_client streaming_20
           (mkRequest (Some 1) (Some 4) (Some 7) None None (Some (repeat 66 20))
                      None None None)
           [6; 17; 0; 7; 0; 0; 0; 20] (repeat 66 20) (repeat 66 8) Hready).
  - reflexivity.
  - vm_compute. reflexivity.
  - reflexivity.
  - vm_compute. reflexivity.
Defined.
